(** * Inventory movement engine of backend/main.py

    A shallow embedding of the stock-moving request handlers of
    [backend/main.py] (transfers, shipments, dispensing, arrivals) over an
    explicit model of the SQLAlchemy session they run in, followed by the
    properties of the ledger that the specification states about them. *)

From Stdlib Require Import ZArith QArith.
From stdpp Require Import base decidable option numbers list strings pretty.

Open Scope Z_scope.
Open Scope string_scope.
Open Scope list_scope.

(** ** Rows

    One record per mapped class used by the handlers.  [quantity] columns are
    Python integers; prices are floats that the handlers only store and copy,
    never compute with.  Columns filled by server defaults ([created_at],
    [date]) are not written by any handler and are left out.  A destination
    ([to_branch_id]) is always a branch, never the warehouse. *)

Definition price := Q.

(** [DBMedicine] and [DBMedicalDevice] have the same columns; [branch_id] is
    [None] for the central warehouse. *)
Module Stock.
Record item := Item {
  id : string;
  name : string;
  category_id : option string;
  purchase_price : price;
  sell_price : price;
  quantity : Z;
  branch_id : option string
}.

Definition with_quantity (q : Z) (m : item) : item :=
  Item (id m) (name m) (category_id m) (purchase_price m) (sell_price m)
    q (branch_id m).
Definition with_purchase_price (p : price) (m : item) : item :=
  Item (id m) (name m) (category_id m) p (sell_price m)
    (quantity m) (branch_id m).
Definition with_sell_price (p : price) (m : item) : item :=
  Item (id m) (name m) (category_id m) (purchase_price m) p
    (quantity m) (branch_id m).
End Stock.

(** The two stock tables. *)
Inductive kind := Medicine | MedicalDevice.

Global Instance kind_eq_dec : EqDecision kind.
Proof. solve_decision. Defined.

(** The value of the [item_type] column and of the ["type"] key. *)
Definition item_type (k : kind) : string :=
  match k with Medicine => "medicine" | MedicalDevice => "medical_device" end.

(** [DBPatient] and [DBEmployee], as far as dispensing reads them. *)
Module Person.
Record row := Row { id : string; first_name : string; last_name : string }.
End Person.

Module DBTransfer.
Record row := Row {
  id : string;
  medicine_id : string;
  medicine_name : string;
  quantity : Z;
  from_branch_id : string;
  to_branch_id : string
}.
End DBTransfer.

Module DBShipment.
Record row := Row {
  id : string;
  to_branch_id : string;
  status : string;
  rejection_reason : option string;
  accepted_at : option Z
}.

Definition accept (now : Z) (s : row) : row :=
  Row (id s) (to_branch_id s) "accepted" (rejection_reason s) (Some now).
Definition reject (why : string) (s : row) : row :=
  Row (id s) (to_branch_id s) "rejected" (Some why) (accepted_at s).
End DBShipment.

Module DBShipmentItem.
Record row := Row {
  id : string;
  shipment_id : string;
  item_type : string;
  item_id : string;
  item_name : string;
  quantity : Z
}.
End DBShipmentItem.

Module DBNotification.
Record row := Row {
  id : string;
  branch_id : string;
  title : string;
  message : string;
  is_read : Z
}.
End DBNotification.

Module DBDispensingRecord.
Record row := Row {
  id : string;
  patient_id : string;
  patient_name : string;
  employee_id : string;
  employee_name : string;
  branch_id : string
}.
End DBDispensingRecord.

Module DBDispensingItem.
Record row := Row {
  id : string;
  record_id : string;
  item_type : string;
  item_id : string;
  item_name : string;
  quantity : Z
}.
End DBDispensingItem.

(** [DBArrival] and [DBDeviceArrival] have the same columns
    ([medicine_id]/[device_id], [medicine_name]/[device_name]). *)
Module DBArrival.
Record row := Row {
  id : string;
  item_id : string;
  item_name : string;
  quantity : Z;
  purchase_price : price;
  sell_price : price
}.
End DBArrival.

(** ** The database

    Tables are lists in storage order: [.first()] takes the first match and
    the stock tables may hold several rows with one name. *)

Record DB := mkDB {
  medicines : list Stock.item;
  medical_devices : list Stock.item;
  patients : list Person.row;
  employees : list Person.row;
  transfers : list DBTransfer.row;
  shipments : list DBShipment.row;
  shipment_items : list DBShipmentItem.row;
  notifications : list DBNotification.row;
  dispensing_records : list DBDispensingRecord.row;
  dispensing_items : list DBDispensingItem.row;
  arrivals : list DBArrival.row;
  device_arrivals : list DBArrival.row
}.

Definition stock (k : kind) (d : DB) : list Stock.item :=
  match k with Medicine => medicines d | MedicalDevice => medical_devices d end.

Definition set_stock (k : kind) (rows : list Stock.item) (d : DB) : DB :=
  match k with
  | Medicine =>
      mkDB rows (medical_devices d) (patients d) (employees d) (transfers d)
        (shipments d) (shipment_items d) (notifications d)
        (dispensing_records d) (dispensing_items d) (arrivals d)
        (device_arrivals d)
  | MedicalDevice =>
      mkDB (medicines d) rows (patients d) (employees d) (transfers d)
        (shipments d) (shipment_items d) (notifications d)
        (dispensing_records d) (dispensing_items d) (arrivals d)
        (device_arrivals d)
  end.

Definition set_shipments (rows : list DBShipment.row) (d : DB) : DB :=
  mkDB (medicines d) (medical_devices d) (patients d) (employees d)
    (transfers d) rows (shipment_items d) (notifications d)
    (dispensing_records d) (dispensing_items d) (arrivals d)
    (device_arrivals d).

Definition arrivals_of (k : kind) (d : DB) : list DBArrival.row :=
  match k with Medicine => arrivals d | MedicalDevice => device_arrivals d end.

(** A new object handed to [db.add]. *)
Inductive Row :=
| StockRow (k : kind) (r : Stock.item)
| TransferRow (r : DBTransfer.row)
| ShipmentRow (r : DBShipment.row)
| ShipmentItemRow (r : DBShipmentItem.row)
| NotificationRow (r : DBNotification.row)
| DispensingRecordRow (r : DBDispensingRecord.row)
| DispensingItemRow (r : DBDispensingItem.row)
| ArrivalRow (k : kind) (r : DBArrival.row).

(** INSERT: the row goes to the end of its table. *)
Definition insert_row (d : DB) (r : Row) : DB :=
  match r with
  | StockRow k m => set_stock k (stock k d ++ [m]) d
  | TransferRow t =>
      mkDB (medicines d) (medical_devices d) (patients d) (employees d)
        (transfers d ++ [t]) (shipments d) (shipment_items d)
        (notifications d) (dispensing_records d) (dispensing_items d)
        (arrivals d) (device_arrivals d)
  | ShipmentRow s => set_shipments (shipments d ++ [s]) d
  | ShipmentItemRow i =>
      mkDB (medicines d) (medical_devices d) (patients d) (employees d)
        (transfers d) (shipments d) (shipment_items d ++ [i])
        (notifications d) (dispensing_records d) (dispensing_items d)
        (arrivals d) (device_arrivals d)
  | NotificationRow n =>
      mkDB (medicines d) (medical_devices d) (patients d) (employees d)
        (transfers d) (shipments d) (shipment_items d)
        (notifications d ++ [n]) (dispensing_records d) (dispensing_items d)
        (arrivals d) (device_arrivals d)
  | DispensingRecordRow r =>
      mkDB (medicines d) (medical_devices d) (patients d) (employees d)
        (transfers d) (shipments d) (shipment_items d)
        (notifications d) (dispensing_records d ++ [r]) (dispensing_items d)
        (arrivals d) (device_arrivals d)
  | DispensingItemRow i =>
      mkDB (medicines d) (medical_devices d) (patients d) (employees d)
        (transfers d) (shipments d) (shipment_items d)
        (notifications d) (dispensing_records d) (dispensing_items d ++ [i])
        (arrivals d) (device_arrivals d)
  | ArrivalRow Medicine a =>
      mkDB (medicines d) (medical_devices d) (patients d) (employees d)
        (transfers d) (shipments d) (shipment_items d)
        (notifications d) (dispensing_records d) (dispensing_items d)
        (arrivals d ++ [a]) (device_arrivals d)
  | ArrivalRow MedicalDevice a =>
      mkDB (medicines d) (medical_devices d) (patients d) (employees d)
        (transfers d) (shipments d) (shipment_items d)
        (notifications d) (dispensing_records d) (dispensing_items d)
        (arrivals d) (device_arrivals d ++ [a])
  end.

Global Arguments insert_row : simpl never.

(** ** Exceptions and results *)

(** [detail] is either a message built by the handler or [str(e)] of a caught
    exception, kept symbolic. *)
Inductive exn :=
| HTTPException (status_code : Z) (detail : detail)
| KeyError (key : string)
| DBAPIError
with detail :=
| Message (s : string)
| StrOf (e : exn).

Inductive outcome (A : Type) :=
| Returned (a : A)
| Raised (e : exn).
Arguments Returned {A} a.
Arguments Raised {A} e.

Definition is_raised {A} (o : outcome A) : Prop :=
  match o with Raised _ => True | Returned _ => False end.

(** ** The session

    [stored] is the committed database; [work] is the transaction: what has
    been sent to the database plus the attribute changes made on loaded
    objects; [pending] are the objects given to [db.add] and not yet
    flushed; [draws] counts the calls of [uuid.uuid4] in this request. *)

Record Session := mkSession {
  stored : DB;
  work : DB;
  pending : list Row;
  draws : nat
}.

Definition begin (d : DB) : Session := mkSession d d [] 0%nat.

Definition flush (s : Session) : Session :=
  mkSession (stored s) (foldl insert_row (work s) (pending s)) [] (draws s).

(** What a commit at this point would store. *)
Definition observe (s : Session) : DB := work (flush s).

Definition M (A : Type) : Type := Session → outcome A * Session.

Definition ret {A} (a : A) : M A := λ s, (Returned a, s).

Definition bind {A B} (c : M A) (k : A → M B) : M B :=
  λ s, match c s with
       | (Returned a, s') => k a s'
       | (Raised e, s') => (Raised e, s')
       end.

Definition raise {A} (e : exn) : M A := λ s, (Raised e, s).

Declare Scope session_scope.
Delimit Scope session_scope with session.
Bind Scope session_scope with M.
Notation "'let*' x := c 'in' k" := (bind c (λ x, k))
  (at level 10, x pattern, c at level 100, k at level 200) : session_scope.
Notation "c ;;; k" := (bind c (λ _, k))
  (at level 100, k at level 200, right associativity) : session_scope.
Open Scope session_scope.

(** [for x in xs: body], collecting what the body yields. *)
Fixpoint for_each {A B} (body : A → M B) (xs : list A) : M (list B) :=
  match xs with
  | [] => ret []
  | x :: xs' =>
      let* y := body x in
      let* ys := for_each body xs' in
      ret (y :: ys)
  end.

(** [try: body except Exception as e: handler]. *)
Definition try_except {A} (body : M A) (handler : exn → M A) : M A :=
  λ s, match body s with
       | (Returned a, s') => (Returned a, s')
       | (Raised e, s') => handler e s'
       end.

Definition commit : M unit :=
  λ s, let s' := flush s in
       (Returned (), mkSession (work s') (work s') [] (draws s')).

Definition rollback : M unit :=
  λ s, (Returned (), mkSession (stored s) (stored s) [] (draws s)).

(** [get_db] opens a session on the database for one request and closes it
    afterwards; what was not committed is lost. *)
Definition run_request {A} (handler : M A) (d : DB) : outcome A * DB :=
  let (r, s) := handler (begin d) in (r, stored s).

(** ** Request bodies

    The pydantic models and JSON bodies of the handlers, with the keys the
    handlers read and values of the JSON types they expect. *)

Module TransferCreate.
Record t := Make {
  medicine_id : string;
  medicine_name : string;
  quantity : Z;
  from_branch_id : option string;
  to_branch_id : string
}.
End TransferCreate.

(** A line of ["medicines"] or ["medical_devices"] in a shipment request:
    [medicine_id]/[device_id] and [quantity]. *)
Module ShipmentLine.
Record t := Make { item_id : string; quantity : Z }.
End ShipmentLine.

(** The body of POST /shipments is a plain dict: a key may be missing. *)
Module ShipmentData.
Record t := Make {
  to_branch_id : option string;
  medicines : option (list ShipmentLine.t);
  medical_devices : option (list ShipmentLine.t)
}.
End ShipmentData.

Module DispensingLine.
Record t := Make {
  type : string;
  id : string;
  name : string;
  quantity : Z
}.
End DispensingLine.

Module DispensingRequest.
Record t := Make {
  patient_id : string;
  employee_id : string;
  branch_id : string;
  items : list DispensingLine.t
}.
End DispensingRequest.

Module ArrivalCreate.
Record t := Make {
  item_id : string;
  item_name : string;
  quantity : Z;
  purchase_price : price;
  sell_price : option price
}.
End ArrivalCreate.

(** What POST /shipments/{id}/accept returns. *)
Module Accepted.
Record entry := Entry {
  type : string;
  id : string;
  name : string;
  quantity : Z
}.
Record t := Make {
  shipment : DBShipment.row;
  items : list entry;
  medicines : option (list entry);
  medical_devices : option (list entry)
}.
End Accepted.

(** [xs or None] *)
Definition or_None {A} (xs : list A) : option (list A) :=
  match xs with [] => None | _ => Some xs end.

(** [s or d] on an optional string: [None] and the empty string are falsy. *)
Definition or_else (s : option string) (d : string) : string :=
  match s with
  | Some EmptyString | None => d
  | Some s' => s'
  end.

(** ** Ledger updates on a loaded stock object *)

Definition take (q : Z) (m : Stock.item) : Stock.item :=
  Stock.with_quantity (Stock.quantity m - q) m.

Definition give (q : Z) (m : Stock.item) : Stock.item :=
  Stock.with_quantity (Stock.quantity m + q) m.

Definition receive (a : ArrivalCreate.t) (m : Stock.item) : Stock.item :=
  let m1 := Stock.with_quantity (Stock.quantity m + ArrivalCreate.quantity a) m in
  let m2 := Stock.with_purchase_price (ArrivalCreate.purchase_price a) m1 in
  match ArrivalCreate.sell_price a with
  | Some p => Stock.with_sell_price p m2
  | None => m2
  end.

(** The filters of the handlers' queries. *)
Definition in_warehouse (item_id : string) (m : Stock.item) : Prop :=
  Stock.id m = item_id ∧ Stock.branch_id m = None.

Definition in_branch (item_id branch : string) (m : Stock.item) : Prop :=
  Stock.id m = item_id ∧ Stock.branch_id m = Some branch.

Definition named_in_branch (item_name branch : string) (m : Stock.item) : Prop :=
  Stock.name m = item_name ∧ Stock.branch_id m = Some branch.

Global Instance in_warehouse_dec i m : Decision (in_warehouse i m).
Proof. unfold in_warehouse. apply _. Defined.
Global Instance in_branch_dec i b m : Decision (in_branch i b m).
Proof. unfold in_branch. apply _. Defined.
Global Instance named_in_branch_dec n b m : Decision (named_in_branch n b m).
Proof. unfold named_in_branch. apply _. Defined.

(** ** The handlers

    [autoflush] is the session option of [sessionmaker] in database.py, which
    decides whether objects passed to [db.add] are written out before the
    next query; it is a parameter here.  [uuid] stands for [uuid.uuid4]: the
    [n]-th identifier drawn while serving a request. *)

Section Handlers.
Variable autoflush : bool.
Variable uuid : nat → string.

Definition uuid4 : M string :=
  λ s, (Returned (uuid (draws s)),
        mkSession (stored s) (work s) (pending s) (S (draws s))).

(** [db.add(obj)] *)
Definition add (r : Row) : M unit :=
  λ s, (Returned (),
        mkSession (stored s) (work s) (pending s ++ [r]) (draws s)).

Definition autoflushed (s : Session) : Session :=
  if autoflush then flush s else s.

(** The database a query issued now runs against. *)
Definition seen (s : Session) : DB := work (autoflushed s).

(** [db.query(T).filter(P).first()]: the position of the object in its
    table together with the object, in table order. *)
Definition query_first {A} (table : DB → list A) (P : A → Prop)
    `{∀ x, Decision (P x)} : M (option (nat * A)) :=
  λ s, let s' := autoflushed s in
       (Returned (list_find P (table (work s'))), s').

(** [db.query(T).filter(P).all()] *)
Definition query_all {A} (table : DB → list A) (P : A → Prop)
    `{∀ x, Decision (P x)} : M (list A) :=
  λ s, let s' := autoflushed s in
       (Returned (filter P (table (work s'))), s').

(** An attribute assignment on the loaded stock object at position [i]. *)
Definition update_stock (k : kind) (i : nat) (f : Stock.item → Stock.item)
    : M unit :=
  λ s, (Returned (),
        mkSession (stored s)
          (set_stock k (alter f i (stock k (work s))) (work s))
          (pending s) (draws s)).

Definition update_shipment (i : nat) (f : DBShipment.row → DBShipment.row)
    : M unit :=
  λ s, (Returned (),
        mkSession (stored s)
          (set_shipments (alter f i (shipments (work s))) (work s))
          (pending s) (draws s)).

(** [except Exception as e: db.rollback(); raise HTTPException(400, str(e))] *)
Definition rollback_400 {A} (e : exn) : M A :=
  rollback ;;; raise (HTTPException 400 (StrOf e)).

(** *** POST /transfers *)

Definition not_enough (medicine_name : string) : exn :=
  HTTPException 400
    (Message ("Not enough " +:+ medicine_name +:+ " in main warehouse")).

(** The body of the loop over [batch.transfers]. *)
Definition transfer_entry (transfer_data : TransferCreate.t) : M unit :=
  let q := TransferCreate.quantity transfer_data in
  let* main_medicine :=
    query_first (stock Medicine)
      (in_warehouse (TransferCreate.medicine_id transfer_data)) in
  match main_medicine with
  | None => raise (not_enough (TransferCreate.medicine_name transfer_data))
  | Some (i, main) =>
      if decide (Stock.quantity main < q) then
        raise (not_enough (TransferCreate.medicine_name transfer_data))
      else
        update_stock Medicine i (take q) ;;;
        let* branch_medicine :=
          query_first (stock Medicine)
            (named_in_branch (TransferCreate.medicine_name transfer_data)
               (TransferCreate.to_branch_id transfer_data)) in
        match branch_medicine with
        | Some (j, _) => update_stock Medicine j (give q)
        | None =>
            let* new_id := uuid4 in
            add (StockRow Medicine
                   (Stock.Item new_id
                      (TransferCreate.medicine_name transfer_data)
                      (Stock.category_id main)
                      (Stock.purchase_price main)
                      (Stock.sell_price main)
                      q
                      (Some (TransferCreate.to_branch_id transfer_data))))
        end ;;;
        let* transfer_id := uuid4 in
        add (TransferRow
               (DBTransfer.Row transfer_id
                  (TransferCreate.medicine_id transfer_data)
                  (TransferCreate.medicine_name transfer_data)
                  q
                  (or_else (TransferCreate.from_branch_id transfer_data)
                     "main")
                  (TransferCreate.to_branch_id transfer_data)))
  end.

Definition create_transfers (batch : list TransferCreate.t) : M string :=
  try_except
    (for_each transfer_entry batch ;;;
     commit ;;;
     ret "Transfers completed")
    rollback_400.

(** *** POST /shipments *)

Definition insufficient (k : kind) : exn :=
  HTTPException 400
    (Message match k with
             | Medicine => "Insufficient medicine quantity"
             | MedicalDevice => "Insufficient medical device quantity"
             end).

(** The body of the loops over ["medicines"] and ["medical_devices"]. *)
Definition shipment_line (k : kind) (shipment_id : string)
    (line : ShipmentLine.t) : M unit :=
  let* found :=
    query_first (stock k) (in_warehouse (ShipmentLine.item_id line)) in
  match found with
  | None => raise (insufficient k)
  | Some (_, m) =>
      if decide (Stock.quantity m < ShipmentLine.quantity line) then
        raise (insufficient k)
      else
        let* item_id := uuid4 in
        add (ShipmentItemRow
               (DBShipmentItem.Row item_id shipment_id (item_type k)
                  (ShipmentLine.item_id line) (Stock.name m)
                  (ShipmentLine.quantity line)))
  end.

Definition shipment_lines (k : kind) (shipment_id : string)
    (lines : option (list ShipmentLine.t)) : M unit :=
  match lines with
  | Some ls => for_each (shipment_line k shipment_id) ls ;;; ret ()
  | None => ret ()
  end.

Definition notification_title : string := "Новая отправка".
Definition notification_message : string := "Поступление от главного склада".

Definition create_shipment (shipment_data : ShipmentData.t) : M string :=
  try_except
    (let* shipment_id := uuid4 in
     match ShipmentData.to_branch_id shipment_data with
     | None => raise (KeyError "to_branch_id")
     | Some to_branch_id =>
         add (ShipmentRow
                (DBShipment.Row shipment_id to_branch_id "pending"
                   None None)) ;;;
         shipment_lines Medicine shipment_id
           (ShipmentData.medicines shipment_data) ;;;
         shipment_lines MedicalDevice shipment_id
           (ShipmentData.medical_devices shipment_data) ;;;
         let* notification_id := uuid4 in
         add (NotificationRow
                (DBNotification.Row notification_id to_branch_id
                   notification_title notification_message 0)) ;;;
         commit ;;;
         ret "Shipment created successfully"
     end)
    rollback_400.

(** *** POST /shipments/{shipment_id}/accept *)

(** [if item.item_type == "medicine": ... else: ...] *)
Definition shipped_kind (item : DBShipmentItem.row) : kind :=
  if decide (DBShipmentItem.item_type item = "medicine") then Medicine
  else MedicalDevice.

(** The body of the loop over the shipment's items. *)
Definition accept_item (to_branch_id : string) (item : DBShipmentItem.row)
    : M Accepted.entry :=
  let k := shipped_kind item in
  let q := DBShipmentItem.quantity item in
  let* main :=
    query_first (stock k) (in_warehouse (DBShipmentItem.item_id item)) in
  match main with
  | Some (i, _) => update_stock k i (take q)
  | None => ret ()
  end ;;;
  let* branch :=
    query_first (stock k)
      (named_in_branch (DBShipmentItem.item_name item) to_branch_id) in
  match branch with
  | Some (j, _) => update_stock k j (give q)
  | None =>
      let* new_id := uuid4 in
      add (StockRow k
             (Stock.Item new_id
                (DBShipmentItem.item_name item)
                (match main with
                 | Some (_, m) => Stock.category_id m
                 | None => None
                 end)
                (match main with
                 | Some (_, m) => Stock.purchase_price m
                 | None => 0%Q
                 end)
                (match main with
                 | Some (_, m) => Stock.sell_price m
                 | None => 0%Q
                 end)
                q
                (Some to_branch_id)))
  end ;;;
  ret (Accepted.Entry (item_type k) (DBShipmentItem.item_id item)
         (match main with
          | Some (_, m) => Stock.name m
          | None => DBShipmentItem.item_name item
          end)
         q).

Definition entries_of (k : kind) (out : list Accepted.entry)
    : list Accepted.entry :=
  filter (λ e, Accepted.type e = item_type k) out.

Definition accept_shipment (shipment_id : string) (utcnow : Z)
    : M Accepted.t :=
  let* shipment :=
    query_first shipments (λ s, DBShipment.id s = shipment_id) in
  match shipment with
  | None => raise (HTTPException 404 (Message "Shipment not found"))
  | Some (n, sh) =>
      if decide (DBShipment.status sh ≠ "pending") then
        raise (HTTPException 409 (Message "Already processed"))
      else
        try_except
          (let* items :=
             query_all shipment_items
               (λ it, DBShipmentItem.shipment_id it = shipment_id) in
           let* out_items :=
             for_each (accept_item (DBShipment.to_branch_id sh)) items in
           update_shipment n (DBShipment.accept utcnow) ;;;
           commit ;;;
           ret (Accepted.Make (DBShipment.accept utcnow sh) out_items
                  (or_None (entries_of Medicine out_items))
                  (or_None (entries_of MedicalDevice out_items))))
          rollback_400
  end.

(** *** POST /shipments/{shipment_id}/reject

    [reason] is the value of [reason.get("reason")], if the key is there. *)
Definition reject_shipment (shipment_id : string) (reason : option string)
    : M string :=
  let* shipment :=
    query_first shipments (λ s, DBShipment.id s = shipment_id) in
  match shipment with
  | None => raise (HTTPException 404 (Message "Shipment not found"))
  | Some (n, _) =>
      update_shipment n (DBShipment.reject (default "" reason)) ;;;
      commit ;;;
      ret "Shipment rejected"
  end.

(** *** POST /dispensing *)

Definition insufficient_for (item_name : string) : exn :=
  HTTPException 400 (Message ("Insufficient quantity for " +:+ item_name)).

Definition dispense (k : kind) (record_id branch_id : string)
    (item : DispensingLine.t) : M unit :=
  let* found :=
    query_first (stock k) (in_branch (DispensingLine.id item) branch_id) in
  match found with
  | None => raise (insufficient_for (DispensingLine.name item))
  | Some (i, m) =>
      if decide (Stock.quantity m < DispensingLine.quantity item) then
        raise (insufficient_for (DispensingLine.name item))
      else
        update_stock k i (take (DispensingLine.quantity item)) ;;;
        let* item_id := uuid4 in
        add (DispensingItemRow
               (DBDispensingItem.Row item_id record_id (item_type k)
                  (DispensingLine.id item) (DispensingLine.name item)
                  (DispensingLine.quantity item)))
  end.

(** The body of the loop over [items]: an [if]/[elif] without [else]. *)
Definition dispense_line (record_id branch_id : string)
    (item : DispensingLine.t) : M unit :=
  if decide (DispensingLine.type item = "medicine") then
    dispense Medicine record_id branch_id item
  else if decide (DispensingLine.type item = "medical_device") then
    dispense MedicalDevice record_id branch_id item
  else ret ().

Definition full_name (p : Person.row) : string :=
  Person.first_name p +:+ " " +:+ Person.last_name p.

Definition create_dispensing_record (request : DispensingRequest.t)
    : M string :=
  try_except
    (let* patient :=
       query_first patients
         (λ p, Person.id p = DispensingRequest.patient_id request) in
     let* employee :=
       query_first employees
         (λ p, Person.id p = DispensingRequest.employee_id request) in
     match patient, employee with
     | Some (_, patient), Some (_, employee) =>
         let* record_id := uuid4 in
         add (DispensingRecordRow
                (DBDispensingRecord.Row record_id
                   (DispensingRequest.patient_id request)
                   (full_name patient)
                   (DispensingRequest.employee_id request)
                   (full_name employee)
                   (DispensingRequest.branch_id request))) ;;;
         for_each
           (dispense_line record_id (DispensingRequest.branch_id request))
           (DispensingRequest.items request) ;;;
         commit ;;;
         ret "Dispensing record created successfully"
     | _, _ =>
         raise (HTTPException 404 (Message "Patient or employee not found"))
     end)
    rollback_400.

End Handlers.

(** ** What the database refuses

    [ensure_schema_patches] creates [device_arrivals] with
    [quantity integer NOT NULL]: a 32-bit signed integer.  The other tables
    are declared in database.py; what their declarations ask of a database
    is the parameter [declared] of the arrival handlers.  The statements of
    a flush are refused ([sqlalchemy.exc.DBAPIError]) when what they would
    store breaks one of the two.  The handlers above write to tables of
    database.py only, with the category of a new stock row copied from a
    stored one, and are modelled with flushes that pass. *)

Definition int4 (q : Z) : Prop := (-2147483648 ≤ q ≤ 2147483647)%Z.

Global Instance int4_dec q : Decision (int4 q).
Proof. unfold int4. apply _. Defined.

Section ArrivalHandlers.
Variable autoflush : bool.
Variable uuid : nat → string.
Variable declared : DB → Prop.
Context `{declared_dec : ∀ d, Decision (declared d)}.

Definition consistent (d : DB) : Prop :=
  Forall (λ a, int4 (DBArrival.quantity a)) (device_arrivals d) ∧ declared d.

Global Instance consistent_dec d : Decision (consistent d).
Proof. unfold consistent. apply _. Defined.

(** The INSERTs and UPDATEs of a flush, on a database that is consistent
    as it is stored. *)
Definition flush_checked : M unit :=
  λ s, if decide (consistent (observe s)) then (Returned (), s)
       else (Raised DBAPIError, s).

(** [db.query(T).filter(P).first()], with the flush that comes before the
    query when the session autoflushes. *)
Definition first_checked {A} (table : DB → list A) (P : A → Prop)
    `{∀ x, Decision (P x)} : M (option (nat * A)) :=
  (if autoflush then flush_checked else ret ()) ;;;
  query_first autoflush table P.

(** [db.commit()] *)
Definition commit_checked : M unit := flush_checked ;;; commit.

(** *** POST /arrivals and POST /device_arrivals *)

(** The body of the loop over [batch.arrivals], for either table. *)
Definition arrival_entry (k : kind) (arrival_data : ArrivalCreate.t)
    : M unit :=
  let sell_price := default 0%Q (ArrivalCreate.sell_price arrival_data) in
  let* arrival_id := uuid4 uuid in
  add (ArrivalRow k
         (DBArrival.Row arrival_id
            (ArrivalCreate.item_id arrival_data)
            (ArrivalCreate.item_name arrival_data)
            (ArrivalCreate.quantity arrival_data)
            (ArrivalCreate.purchase_price arrival_data)
            sell_price)) ;;;
  let* found :=
    first_checked (stock k)
      (in_warehouse (ArrivalCreate.item_id arrival_data)) in
  match found with
  | Some (i, _) => update_stock k i (receive arrival_data)
  | None => ret ()
  end.

Definition create_arrivals (batch : list ArrivalCreate.t) : M string :=
  try_except
    (for_each (arrival_entry Medicine) batch ;;;
     commit_checked ;;;
     ret "Arrivals created successfully")
    rollback_400.

Definition create_device_arrivals (batch : list ArrivalCreate.t)
    : M string :=
  try_except
    (for_each (arrival_entry MedicalDevice) batch ;;;
     commit_checked ;;;
     ret "Device arrivals created successfully")
    rollback_400.

End ArrivalHandlers.

(** *** The arrival handlers, as the specification words them *)

(** The arrival record of an entry. *)
Definition arrival_record (arrival_id : string) (a : ArrivalCreate.t)
    : DBArrival.row :=
  DBArrival.Row arrival_id (ArrivalCreate.item_id a)
    (ArrivalCreate.item_name a) (ArrivalCreate.quantity a)
    (ArrivalCreate.purchase_price a)
    (default 0%Q (ArrivalCreate.sell_price a)).

(** If a warehouse item with the entry's identifier exists, its quantity is
    raised by the entry's quantity, its purchase price is the entry's, and
    its sell price is the entry's when the entry has one; otherwise nothing
    changes. *)
Definition restocked (k : kind) (a : ArrivalCreate.t) (d : DB) : DB :=
  match list_find (in_warehouse (ArrivalCreate.item_id a)) (stock k d) with
  | Some (i, m) =>
      set_stock k
        (<[i := Stock.Item (Stock.id m) (Stock.name m) (Stock.category_id m)
                  (ArrivalCreate.purchase_price a)
                  (default (Stock.sell_price m) (ArrivalCreate.sell_price a))
                  (Stock.quantity m + ArrivalCreate.quantity a)
                  (Stock.branch_id m)]> (stock k d))
        d
  | None => d
  end.

(** The database with the arrival record of the entry appended. *)
Definition recorded (k : kind) (arrival_id : string) (a : ArrivalCreate.t)
    (d : DB) : DB :=
  insert_row d (ArrivalRow k (arrival_record arrival_id a)).

(** A batch, entry by entry; the [n]-th identifier drawn names the record
    of the [n]-th entry. *)
Fixpoint arrived (k : kind) (uuid : nat → string) (n : nat)
    (batch : list ArrivalCreate.t) (d : DB) : DB :=
  match batch with
  | [] => d
  | a :: rest =>
      arrived k uuid (S n) rest (restocked k a (recorded k (uuid n) a d))
  end.

(** The states the request asks the database to take, in order: with
    autoflush the one before each entry's query, and the one of the
    commit. *)
Fixpoint flushes (autoflush : bool) (k : kind) (uuid : nat → string)
    (n : nat) (batch : list ArrivalCreate.t) (d : DB) : list DB :=
  match batch with
  | [] => [d]
  | a :: rest =>
      (if autoflush then [recorded k (uuid n) a d] else [])
      ++ flushes autoflush k uuid (S n) rest
           (restocked k a (recorded k (uuid n) a d))
  end.


(** ** Readings of the ledger used in the statements *)

(** The quantity the warehouse holds of an item, if it has a row for it. *)
Definition warehouse_quantity (k : kind) (item_id : string) (d : DB)
    : option Z :=
  (λ f, Stock.quantity f.2) <$> list_find (in_warehouse item_id) (stock k d).

(** The quantity a branch holds under a name: the handlers match branch rows
    by name, and nothing keeps a branch from having several. *)
Definition branch_quantity (k : kind) (item_name branch : string) (d : DB)
    : Z :=
  foldr Z.add 0
    (Stock.quantity <$> filter (named_in_branch item_name branch) (stock k d)).

(** The quantity held under a name over all locations. *)
Definition total_quantity (k : kind) (item_name : string) (d : DB) : Z :=
  foldr Z.add 0
    (Stock.quantity
       <$> filter (λ m, Stock.name m = item_name) (stock k d)).

(** The status of a shipment, if it exists. *)
Definition shipment_status (shipment_id : string) (d : DB) : option string :=
  (λ f, DBShipment.status f.2)
    <$> list_find (λ s, DBShipment.id s = shipment_id) (shipments d).

(** The row is missing or holds less than [q]. *)
Definition short_of (q : Z) (held : option Z) : Prop :=
  match held with Some w => w < q | None => True end.

(** The stock rows of one table among the objects given to [db.add]. *)
Definition new_stock (k : kind) (rows : list Row) : list Stock.item :=
  omap (λ r, match r with
             | StockRow k' m => if decide (k' = k) then Some m else None
             | _ => None
             end) rows.

(** The lines of a shipment request, in the order the handler takes them. *)
Definition requested_lines (sd : ShipmentData.t)
    : list (kind * ShipmentLine.t) :=
  (pair Medicine <$> default [] (ShipmentData.medicines sd))
  ++ (pair MedicalDevice <$> default [] (ShipmentData.medical_devices sd)).

(** The warehouse of [d] holds what the line asks for. *)
Definition covered (d : DB) (l : kind * ShipmentLine.t) : Prop :=
  ¬ short_of (ShipmentLine.quantity l.2)
      (warehouse_quantity l.1 (ShipmentLine.item_id l.2) d).

(** [item] is the line as a shipment item of [shipment_id], named after the
    warehouse row of [d]. *)
Definition item_of_line (shipment_id : string) (d : DB)
    (l : kind * ShipmentLine.t) (item : DBShipmentItem.row) : Prop :=
  DBShipmentItem.shipment_id item = shipment_id ∧
  DBShipmentItem.item_type item = item_type l.1 ∧
  DBShipmentItem.item_id item = ShipmentLine.item_id l.2 ∧
  DBShipmentItem.quantity item = ShipmentLine.quantity l.2 ∧
  ∃ i m, list_find (in_warehouse (ShipmentLine.item_id l.2)) (stock l.1 d)
         = Some (i, m) ∧
         DBShipmentItem.item_name item = Stock.name m.

(** The shipment rows among the objects given to [db.add]. *)
Definition new_shipments (rows : list Row) : list DBShipment.row :=
  omap (λ r, match r with ShipmentRow x => Some x | _ => None end) rows.

(** No shipment row is waiting to be flushed. *)
Definition settled (s : Session) : Prop := new_shipments (pending s) = [].

(** The shipments table is [table] and no new shipment is waiting. *)
Definition shipments_are (table : list DBShipment.row) (s : Session) : Prop :=
  settled s ∧ shipments (work s) = table.

(** A computation that keeps a property of the session. *)
Definition always {A} (I : Session → Prop) (c : M A) : Prop :=
  ∀ s, I s → I (c s).2.

(** A computation that never raises. *)
Definition returns {A} (c : M A) : Prop :=
  ∀ s, ∃ a s', c s = (Returned a, s').

(** A computation that never commits nor rolls back. *)
Definition keeps_stored {A} (c : M A) : Prop :=
  ∀ s, stored (c s).2 = stored s.

(** ** Sample data

    A small warehouse and the requests used to run the handlers on it. *)

Module Sample.

(** The [n]-th identifier drawn by the request tagged [request]. *)
Definition uuid (request : string) (n : nat) : string :=
  request +:+ "-" +:+ pretty n.

Definition MedA : Stock.item :=
  Stock.Item "med-a" "MedA" (Some "cat-1") 2%Q 3%Q 10 None.
Definition MedB : Stock.item :=
  Stock.Item "med-b" "MedB" (Some "cat-1") 4%Q 6%Q 5 None.
Definition MedC_at_branch1 : Stock.item :=
  Stock.Item "med-c" "MedC" (Some "cat-1") 1%Q 2%Q 3 (Some "branch-1").
Definition Gauze : Stock.item :=
  Stock.Item "dev-g" "Gauze" (Some "cat-2") 1%Q 2%Q 3 None.

Definition warehouse : DB :=
  mkDB [MedA; MedB; MedC_at_branch1] [Gauze]
    [Person.Row "pat-1" "Ann" "Lee"] [Person.Row "emp-1" "Bob" "Ray"]
    [] [] [] [] [] [] [] [].

(** Five units of MedB for branch 2, all the warehouse has. *)
Definition five_MedB : ShipmentData.t :=
  ShipmentData.Make (Some "branch-2")
    (Some [ShipmentLine.Make "med-b" 5]) None.

(** The warehouse after the same shipment has been requested twice. *)
Definition two_pending (autoflush : bool) : DB :=
  let d1 :=
    (run_request (create_shipment autoflush (uuid "s1") five_MedB)
       warehouse).2 in
  (run_request (create_shipment autoflush (uuid "s2") five_MedB) d1).2.

(** One request for MedB, then a transfer of three units of MedB. *)
Definition three_MedB : TransferCreate.t :=
  TransferCreate.Make "med-b" "MedB" 3 None "branch-1".

Definition pending_then_transferred (autoflush : bool) : DB :=
  let d1 :=
    (run_request (create_shipment autoflush (uuid "s1") five_MedB)
       warehouse).2 in
  (run_request (create_transfers autoflush (uuid "t1") [three_MedB]) d1).2.

(** A pending shipment of five Gauze where the warehouse holds three. *)
Definition five_Gauze_pending : DB :=
  mkDB [MedA; MedB; MedC_at_branch1] [Gauze]
    [Person.Row "pat-1" "Ann" "Lee"] [Person.Row "emp-1" "Bob" "Ray"]
    []
    [DBShipment.Row "s3" "branch-2" "pending" None None]
    [DBShipmentItem.Row "s3-item" "s3" "medical_device" "dev-g" "Gauze" 5]
    [] [] [] [] [].

(** A pending shipment of an item the warehouse has no row for. *)
Definition Tonic_item : DBShipmentItem.row :=
  DBShipmentItem.Row "s4-item" "s4" "medicine" "med-gone" "Tonic" 7.

Definition Tonic_pending : DB :=
  mkDB [MedA; MedB; MedC_at_branch1] [Gauze]
    [Person.Row "pat-1" "Ann" "Lee"] [Person.Row "emp-1" "Bob" "Ray"]
    []
    [DBShipment.Row "s4" "branch-2" "pending" None None]
    [Tonic_item]
    [] [] [] [] [].

(** Transfers of MedA to branch 1. *)
Definition MedA_to_branch1 (q : Z) : TransferCreate.t :=
  TransferCreate.Make "med-a" "MedA" q None "branch-1".

(** A dispensing line of a type the handler does not know. *)
Definition vitamin_line : DispensingLine.t :=
  DispensingLine.Make "vitamin" "vit-1" "Vitamin C" 2.

Definition MedC_line (q : Z) : DispensingLine.t :=
  DispensingLine.Make "medicine" "med-c" "MedC" q.

End Sample.

(** ** Further handlers

    The listings, the status override, the notification flag and the
    creation of catalog entries.  The categories table is only read by the
    handlers below and is a parameter of them. *)

Module DBCategory.
Record row := Row {
  id : string;
  name : string;
  description : option string;
  type : string
}.
End DBCategory.

Module MedicineCreate.
Record t := Make {
  name : string;
  category_id : string;
  purchase_price : price;
  sell_price : price;
  quantity : Z;
  branch_id : option string
}.
End MedicineCreate.

Module MedicalDeviceCreate.
Record t := Make {
  name : string;
  category_id : string;
  purchase_price : price;
  sell_price : option price;
  quantity : Z;
  branch_id : option string
}.
End MedicalDeviceCreate.

Definition set_notifications (rows : list DBNotification.row) (d : DB) : DB :=
  mkDB (medicines d) (medical_devices d) (patients d) (employees d)
    (transfers d) (shipments d) (shipment_items d) rows
    (dispensing_records d) (dispensing_items d) (arrivals d)
    (device_arrivals d).

(** [shipment.status = status] *)
Definition set_status (status : string) (s : DBShipment.row)
    : DBShipment.row :=
  DBShipment.Row (DBShipment.id s) (DBShipment.to_branch_id s) status
    (DBShipment.rejection_reason s) (DBShipment.accepted_at s).

(** [notification.is_read = 1] *)
Definition set_read (n : DBNotification.row) : DBNotification.row :=
  DBNotification.Row (DBNotification.id n) (DBNotification.branch_id n)
    (DBNotification.title n) (DBNotification.message n) 1.

(** [branch_id and branch_id != "null" and branch_id != "undefined"]: the
    branch a listing is asked for, if the query parameter names one. *)
Definition asked_branch (branch_id : option string) : option string :=
  match branch_id with
  | None => None
  | Some b =>
      if decide (b = "") then None
      else if decide (b ≠ "null") then
        if decide (b ≠ "undefined") then Some b else None
      else None
  end.

Section FurtherHandlers.
Variable autoflush : bool.
Variable uuid : nat → string.
Variable categories : list DBCategory.row.

(** An attribute assignment on the loaded notification at position [i]. *)
Definition update_notification (i : nat)
    (f : DBNotification.row → DBNotification.row) : M unit :=
  λ s, (Returned (),
        mkSession (stored s)
          (set_notifications (alter f i (notifications (work s))) (work s))
          (pending s) (draws s)).

(** *** GET /medicines and GET /medical_devices *)

Definition get_stock (k : kind) (branch_id : option string)
    : M (list Stock.item) :=
  match asked_branch branch_id with
  | Some b => query_all autoflush (stock k) (λ m, Stock.branch_id m = Some b)
  | None => query_all autoflush (stock k) (λ m, Stock.branch_id m = None)
  end.

Definition get_medicines (branch_id : option string) : M (list Stock.item) :=
  get_stock Medicine branch_id.

Definition get_medical_devices (branch_id : option string)
    : M (list Stock.item) :=
  get_stock MedicalDevice branch_id.

(** *** GET /transfers *)

Definition get_transfers (branch_id : option string)
    : M (list DBTransfer.row) :=
  match asked_branch branch_id with
  | Some b =>
      query_all autoflush transfers (λ t, DBTransfer.to_branch_id t = b)
  | None => query_all autoflush transfers (λ _, True)
  end.

(** *** PUT /shipments/{shipment_id}/status

    [status_data] is the value of the ["status"] key, if the key is there. *)
Definition update_shipment_status (shipment_id : string)
    (status_data : option string) : M string :=
  let* shipment :=
    query_first autoflush shipments
      (λ s, DBShipment.id s = shipment_id) in
  match shipment with
  | None => raise (HTTPException 404 (Message "Shipment not found"))
  | Some (n, _) =>
      match status_data with
      | None => raise (KeyError "status")
      | Some status =>
          update_shipment n (set_status status) ;;;
          commit ;;;
          ret "Shipment status updated"
      end
  end.

(** *** PUT /notifications/{notification_id}/read *)

Definition mark_notification_read (notification_id : string) : M string :=
  let* notification :=
    query_first autoflush notifications
      (λ n, DBNotification.id n = notification_id) in
  match notification with
  | None => raise (HTTPException 404 (Message "Notification not found"))
  | Some (i, _) =>
      update_notification i set_read ;;;
      commit ;;;
      ret "Notification marked as read"
  end.

(** *** POST /medicines and POST /medical_devices *)

Definition create_medicine (medicine : MedicineCreate.t) : M Stock.item :=
  let* cat :=
    query_first autoflush (λ _, categories)
      (λ c, DBCategory.id c = MedicineCreate.category_id medicine) in
  match cat with
  | None => raise (HTTPException 400 (Message "Category not found"))
  | Some (_, cat) =>
      if decide (DBCategory.type cat ≠ "medicine") then
        raise (HTTPException 400 (Message "Invalid category for medicine"))
      else
        let* medicine_id := uuid4 uuid in
        let db_medicine :=
          Stock.Item medicine_id
            (MedicineCreate.name medicine)
            (Some (MedicineCreate.category_id medicine))
            (MedicineCreate.purchase_price medicine)
            (MedicineCreate.sell_price medicine)
            (MedicineCreate.quantity medicine)
            (MedicineCreate.branch_id medicine) in
        add (StockRow Medicine db_medicine) ;;;
        commit ;;;
        ret db_medicine
  end.

Definition create_medical_device (device : MedicalDeviceCreate.t)
    : M Stock.item :=
  let* cat :=
    query_first autoflush (λ _, categories)
      (λ c, DBCategory.id c = MedicalDeviceCreate.category_id device) in
  match cat with
  | None => raise (HTTPException 400 (Message "Category not found"))
  | Some (_, cat) =>
      if decide (DBCategory.type cat ≠ "medical_device") then
        raise
          (HTTPException 400 (Message "Invalid category for medical device"))
      else
        let* device_id := uuid4 uuid in
        let sell_price :=
          default 0%Q (MedicalDeviceCreate.sell_price device) in
        let db_device :=
          Stock.Item device_id
            (MedicalDeviceCreate.name device)
            (Some (MedicalDeviceCreate.category_id device))
            (MedicalDeviceCreate.purchase_price device)
            sell_price
            (MedicalDeviceCreate.quantity device)
            (MedicalDeviceCreate.branch_id device) in
        add (StockRow MedicalDevice db_device) ;;;
        commit ;;;
        ret db_device
  end.

End FurtherHandlers.

(** ** Further readings *)

(** The sum of the quantities of a stock table, over all locations. *)
Definition stock_total (k : kind) (d : DB) : Z :=
  foldr Z.add 0 (Stock.quantity <$> stock k d).

(** No stock row holds a negative quantity. *)
Definition nonnegative (d : DB) : Prop :=
  ∀ k, Forall (λ m, (0 ≤ Stock.quantity m)%Z) (stock k d).

(** [r] is the history row of the transfer entry [t]. *)
Definition records_transfer (t : TransferCreate.t) (r : DBTransfer.row)
    : Prop :=
  DBTransfer.medicine_id r = TransferCreate.medicine_id t ∧
  DBTransfer.medicine_name r = TransferCreate.medicine_name t ∧
  DBTransfer.quantity r = TransferCreate.quantity t ∧
  DBTransfer.from_branch_id r
  = or_else (TransferCreate.from_branch_id t) "main" ∧
  DBTransfer.to_branch_id r = TransferCreate.to_branch_id t.

(** The rows of [l'] are those of [l], position by position, except that
    rows kept by [touched] may hold another quantity. *)
Definition same_but_quantity (touched : Stock.item → Prop)
    (l l' : list Stock.item) : Prop :=
  Forall2 (λ m m',
    (touched m ∧ ∃ q, m' = Stock.with_quantity q m) ∨ m' = m) l l'.

(** The lines of a dispensing request that the handler acts on. *)
Definition known_lines (items : list DispensingLine.t)
    : list DispensingLine.t :=
  filter (λ l, DispensingLine.type l = "medicine"
               ∨ DispensingLine.type l = "medical_device") items.

(** The quantity a dispensing request asks of one stock table. *)
Definition dispensed (k : kind) (items : list DispensingLine.t) : Z :=
  foldr Z.add 0
    (DispensingLine.quantity
       <$> filter (λ l, DispensingLine.type l = item_type k) items).

(** [item] is the dispensing item of the line [l] under [record_id]. *)
Definition records_line (record_id : string) (l : DispensingLine.t)
    (item : DBDispensingItem.row) : Prop :=
  DBDispensingItem.record_id item = record_id ∧
  DBDispensingItem.item_type item = DispensingLine.type l ∧
  DBDispensingItem.item_id item = DispensingLine.id l ∧
  DBDispensingItem.item_name item = DispensingLine.name l ∧
  DBDispensingItem.quantity item = DispensingLine.quantity l.

(** What dispensing the lines [items] at [branch_id] under [record_id] makes
    of a database [d]: the table totals go down by what is asked of each
    table, only quantities of rows of the branch change, no quantity becomes
    negative, no dispensing record is written and one item is recorded per
    line of a known type. *)
Definition dispensing_moves (record_id branch_id : string)
    (items : list DispensingLine.t) (d d' : DB) : Prop :=
  (∀ k, stock_total k d' = stock_total k d - dispensed k items) ∧
  (∀ k, same_but_quantity (λ m, Stock.branch_id m = Some branch_id)
          (stock k d) (stock k d')) ∧
  (nonnegative d → nonnegative d') ∧
  dispensing_records d' = dispensing_records d ∧
  ∃ new,
    Forall2 (records_line record_id) (known_lines items) new ∧
    dispensing_items d' = dispensing_items d ++ new.

(** The table [k] of [d] has no warehouse row with this identifier. *)
Definition unstocked (k : kind) (d : DB) (item_id : string) : Prop :=
  Forall (λ m, ¬ in_warehouse item_id m) (stock k d).

Global Instance unstocked_dec k d item_id : Decision (unstocked k d item_id).
Proof. unfold unstocked. apply _. Defined.

(** The quantity of the shipment items of table [k] for which the warehouse
    of [d] has no row. *)
Definition created (k : kind) (d : DB) (items : list DBShipmentItem.row)
    : Z :=
  foldr Z.add 0
    (DBShipmentItem.quantity
       <$> filter (λ it, shipped_kind it = k
                         ∧ unstocked k d (DBShipmentItem.item_id it)) items).

(** [l'] is [l] with other quantities, followed by rows held by [branch]. *)
Definition grown_at (branch : string) (l l' : list Stock.item) : Prop :=
  ∃ kept added,
    l' = kept ++ added ∧
    same_but_quantity (λ _, True) l kept ∧
    Forall (λ m, Stock.branch_id m = Some branch) added.

(** The stock rows given to [db.add] and not yet flushed are all held by
    [branch]. *)
Definition pending_at (branch : string) (s : Session) : Prop :=
  ∀ k, Forall (λ m, Stock.branch_id m = Some branch)
         (new_stock k (pending s)).

(** What accepting the shipment items [items] for the branch [to] makes of
    a database [d]: each stock table keeps its rows, up to quantities,
    and gets rows of the branch after them; and the total of a table grows
    by the quantities of the items the warehouse has no row for. *)
Definition accept_moves (to : string) (items : list DBShipmentItem.row)
    (d d' : DB) : Prop :=
  (∀ k, grown_at to (stock k d) (stock k d')) ∧
  (∀ k, stock_total k d' = stock_total k d + created k d items).

(** The quantity of the arrival entries for which the warehouse of [d] has
    a row in table [k]. *)
Definition received (k : kind) (d : DB) (batch : list ArrivalCreate.t) : Z :=
  foldr Z.add 0
    (ArrivalCreate.quantity
       <$> filter (λ a, ¬ unstocked k d (ArrivalCreate.item_id a)) batch).

(** The rows of [l'] are those of [l], position by position, with the same
    identifier, name, category and holder; rows held by a branch are as
    they were. *)
Definition restocks (l l' : list Stock.item) : Prop :=
  Forall2 (λ m m',
    Stock.id m' = Stock.id m ∧
    Stock.name m' = Stock.name m ∧
    Stock.category_id m' = Stock.category_id m ∧
    Stock.branch_id m' = Stock.branch_id m ∧
    (Stock.branch_id m ≠ None → m' = m)) l l'.

(** What the arrival entries [batch] for table [k] make of the stock tables
    of a database [d]. *)
Definition arrival_moves (k : kind) (batch : list ArrivalCreate.t)
    (d d' : DB) : Prop :=
  restocks (stock k d) (stock k d') ∧
  (∀ k', k ≠ k' → stock k' d' = stock k' d) ∧
  stock_total k d' = stock_total k d + received k d batch.

(** ** Further sample data *)

Module FurtherSample.
Import Sample.

(** Four units of MedA and three of MedB for branch 1. *)
Definition two_transfers : list TransferCreate.t :=
  [MedA_to_branch1 4; three_MedB].

Definition transferred : DB :=
  (run_request (create_transfers true (uuid "t") two_transfers) warehouse).2.

Definition four_MedA_moved : DB :=
  (run_request (create_transfers true (uuid "t") [MedA_to_branch1 4])
     warehouse).2.

(** The shipments of [five_Gauze_pending] and [Tonic_pending]. *)
Definition s3 : DBShipment.row :=
  DBShipment.Row "s3" "branch-2" "pending" None None.
Definition s4 : DBShipment.row :=
  DBShipment.Row "s4" "branch-2" "pending" None None.

(** Two units of MedC and a vitamin line, dispensed at branch 1. *)
Definition two_MedC : DispensingRequest.t :=
  DispensingRequest.Make "pat-1" "emp-1" "branch-1"
    [MedC_line 2; vitamin_line].

Definition two_MedC_dispensed : DB :=
  (run_request (create_dispensing_record true (uuid "d") two_MedC)
     warehouse).2.

Definition two_categories : list DBCategory.row :=
  [DBCategory.Row "cat-1" "Tablets" None "medicine";
   DBCategory.Row "cat-2" "Dressings" None "medical_device"].

Definition MedD_new : MedicineCreate.t :=
  MedicineCreate.Make "MedD" "cat-1" 1%Q 2%Q 4 None.

(** A device filed under the category of the tablets. *)
Definition Splint_new : MedicalDeviceCreate.t :=
  MedicalDeviceCreate.Make "Splint" "cat-1" 1%Q None 4 None.

(** A database.py that asks nothing of a database. *)
Definition any_database : DB → Prop := λ _, True.

Global Instance any_database_dec d : Decision (any_database d).
Proof. unfold any_database. apply _. Defined.

(** Four Gauze, and two of a clamp the warehouse has no row for. *)
Definition Gauze_and_Clamp : list ArrivalCreate.t :=
  [ArrivalCreate.Make "dev-g" "Gauze" 4 3%Q None;
   ArrivalCreate.Make "dev-x" "Clamp" 2 5%Q (Some 7%Q)].

(** One more Gauze than the quantity column of [device_arrivals] holds. *)
Definition too_many_Gauze : list ArrivalCreate.t :=
  [ArrivalCreate.Make "dev-g" "Gauze" 2147483648 1%Q None].

End FurtherSample.

(** *** The dispensing request, as the specification words it *)

(** The stock table a line's type names, if it names one. *)
Definition line_kind (l : DispensingLine.t) : option kind :=
  if decide (DispensingLine.type l = "medicine") then Some Medicine
  else if decide (DispensingLine.type l = "medical_device")
       then Some MedicalDevice
       else None.

(** One line, on the database [d] with [n] identifiers drawn so far.  A
    line of a known type takes its quantity from the row of its table that
    has the line's identifier and is held by the branch, and records a
    dispensing item; it fails, with the line's name, when the branch has
    no such row or the row holds less.  A line of another type is
    skipped. *)
Definition dispensed_line (uuid : nat → string)
    (record_id branch_id : string) (l : DispensingLine.t)
    (st : nat * DB) : string + nat * DB :=
  match line_kind l with
  | None => inr st
  | Some k =>
      match list_find (in_branch (DispensingLine.id l) branch_id)
              (stock k st.2) with
      | None => inl (DispensingLine.name l)
      | Some (i, m) =>
          if decide (Stock.quantity m < DispensingLine.quantity l) then
            inl (DispensingLine.name l)
          else
            inr (S st.1,
                 insert_row
                   (set_stock k
                      (<[i := Stock.with_quantity
                                (Stock.quantity m - DispensingLine.quantity l)
                                m]> (stock k st.2))
                      st.2)
                   (DispensingItemRow
                      (DBDispensingItem.Row (uuid st.1) record_id
                         (item_type k) (DispensingLine.id l)
                         (DispensingLine.name l)
                         (DispensingLine.quantity l))))
      end
  end.

(** The lines in order, up to the first that fails. *)
Fixpoint dispensed_lines (uuid : nat → string)
    (record_id branch_id : string) (ls : list DispensingLine.t)
    (st : nat * DB) : string + nat * DB :=
  match ls with
  | [] => inr st
  | l :: rest =>
      match dispensed_line uuid record_id branch_id l st with
      | inl name => inl name
      | inr st' => dispensed_lines uuid record_id branch_id rest st'
      end
  end.

(** No stock row is waiting to be flushed. *)
Definition stock_loaded (s : Session) : Prop :=
  ∀ k, new_stock k (pending s) = [].

(** * Properties *)

(** ** Flushing and in-place updates *)

Lemma stock_insert_row k d r :
  stock k (insert_row d r) = stock k d ++ new_stock k [r].
Proof.
  destruct r as [k' m| | | | | | |k' a]; destruct k; try destruct k';
    simpl; try rewrite app_nil_r; reflexivity.
Qed.

Lemma stock_foldl_insert k rows d :
  stock k (foldl insert_row d rows) = stock k d ++ new_stock k rows.
Proof.
  revert d. induction rows as [|r rows IH]; intros d; simpl.
  - by rewrite app_nil_r.
  - rewrite IH, stock_insert_row. unfold new_stock. simpl.
    rewrite <- app_assoc. f_equal. by destruct r; simpl; try case_decide.
Qed.

Lemma new_stock_app k rows1 rows2 :
  new_stock k (rows1 ++ rows2) = new_stock k rows1 ++ new_stock k rows2.
Proof. apply omap_app. Qed.

Lemma new_stock_shipment_items k (items : list DBShipmentItem.row) :
  new_stock k (ShipmentItemRow <$> items) = [].
Proof. by induction items. Qed.

Lemma stock_set_stock k rows d : stock k (set_stock k rows d) = rows.
Proof. by destruct k. Qed.

Lemma stock_set_stock_ne k k' rows d :
  k ≠ k' → stock k' (set_stock k rows d) = stock k' d.
Proof. by destruct k, k'. Qed.

Lemma set_stock_same k d : set_stock k (stock k d) d = d.
Proof. by destruct k, d. Qed.

Lemma insert_row_alter k f i d r :
  (i < length (stock k d))%nat →
  insert_row (set_stock k (alter f i (stock k d)) d) r
  = set_stock k (alter f i (stock k (insert_row d r))) (insert_row d r).
Proof.
  intros Hi.
  destruct r as [k' m| | | | | | |k' a]; destruct k; try destruct k';
    destruct d; simpl in *; try reflexivity;
    by rewrite alter_app_l.
Qed.

Lemma foldl_insert_alter k f i rows d :
  (i < length (stock k d))%nat →
  foldl insert_row (set_stock k (alter f i (stock k d)) d) rows
  = set_stock k (alter f i (stock k (foldl insert_row d rows)))
      (foldl insert_row d rows).
Proof.
  revert d. induction rows as [|r rows IH]; intros d Hi; simpl; [done|].
  rewrite insert_row_alter by done. apply IH.
  rewrite stock_insert_row, length_app. lia.
Qed.

Lemma alter_found {A} (f : A → A) (l : list A) i x :
  l !! i = Some x → alter f i l = <[i := f x]> l.
Proof.
  revert i. induction l as [|y l IH]; intros [|i] Hl; simplify_eq/=; [done|].
  f_equal. by apply IH.
Qed.

(** An update that keeps what a filter looks at does not move the first
    match of the filter. *)
Lemma list_find_alter_fst {A} (P : A → Prop) `{∀ x, Decision (P x)}
    (f : A → A) i l :
  (∀ x, P (f x) ↔ P x) →
  fst <$> list_find P (alter f i l) = fst <$> list_find P l.
Proof.
  intros Hf. revert i. induction l as [|y l IH]; intros [|i]; simpl; try done.
  - pose proof (Hf y). repeat case_decide; try done; tauto.
  - case_decide; [done|].
    assert (Hmap : ∀ o : option (nat * A),
              fst <$> (prod_map S id <$> o) = S <$> (fst <$> o))
      by (by intros [[]|]).
    rewrite !Hmap. f_equal. apply IH.
Qed.

Lemma set_stock_set_stock k rows rows' d :
  set_stock k rows (set_stock k rows' d) = set_stock k rows d.
Proof. by destruct k. Qed.

Lemma observe_eq s : observe s = foldl insert_row (work s) (pending s).
Proof. reflexivity. Qed.

Lemma observe_mk st w p n : observe (mkSession st w p n) = foldl insert_row w p.
Proof. reflexivity. Qed.

Lemma flush_begin d : flush (begin d) = begin d.
Proof. reflexivity. Qed.

(** ** The loop combinator *)

Lemma for_each_app {A B} (body : A → M B) xs ys s :
  for_each body (xs ++ ys) s
  = match for_each body xs s with
    | (Returned a, s') =>
        match for_each body ys s' with
        | (Returned b, s'') => (Returned (a ++ b), s'')
        | (Raised e, s'') => (Raised e, s'')
        end
    | (Raised e, s') => (Raised e, s')
    end.
Proof.
  revert s. induction xs as [|x xs IH]; intros s; simpl.
  - unfold bind, ret. by destruct (for_each body ys s) as [[]].
  - unfold bind, ret. destruct (body x s) as [[y|e] s1]; [|done].
    rewrite IH.
    destruct (for_each body xs s1) as [[a|e] s2]; [|done].
    destruct (for_each body ys s2) as [[b|e] s3]; done.
Qed.

Lemma for_each_length {A B} (body : A → M B) xs s ys s' :
  for_each body xs s = (Returned ys, s') → length ys = length xs.
Proof.
  revert s ys s'. induction xs as [|x xs IH]; intros s ys s'; simpl.
  - unfold ret. by intros [= <- _].
  - unfold bind, ret. destruct (body x s) as [[y|e] s1]; [|done].
    destruct (for_each body xs s1) as [[zs|e] s2] eqn:E; [|done].
    intros [= <- _]. simpl. f_equal. eauto.
Qed.

Lemma keeps_stored_for_each {A B} (body : A → M B) xs :
  (∀ x, keeps_stored (body x)) → keeps_stored (for_each body xs).
Proof.
  intros Hb. induction xs as [|x xs IH]; intros s; simpl; [done|].
  unfold bind, ret. specialize (Hb x s).
  destruct (body x s) as [[y|e] s1]; [|done].
  specialize (IH s1).
  destruct (for_each body xs s1) as [[zs|e] s2]; simpl in *; congruence.
Qed.

(** ** What the session primitives do to the two views of a session *)

Lemma keeps_stored_bind {A B} (c : M A) (k : A → M B) :
  keeps_stored c → (∀ a, keeps_stored (k a)) → keeps_stored (bind c k).
Proof.
  intros Hc Hk s. unfold bind. specialize (Hc s).
  destruct (c s) as [[a|e] s1]; simpl in *; [|done]. by rewrite Hk.
Qed.

Lemma keeps_stored_plain {A} (c : M A) :
  (∀ s, stored (c s).2 = stored s) → keeps_stored c.
Proof. done. Qed.

Section Views.
Variable autoflush : bool.
Variable uuid : nat → string.

Lemma stored_autoflushed s : stored (autoflushed autoflush s) = stored s.
Proof. unfold autoflushed. by destruct autoflush. Qed.

Lemma draws_autoflushed s : draws (autoflushed autoflush s) = draws s.
Proof. unfold autoflushed. by destruct autoflush. Qed.

Lemma observe_autoflushed s : observe (autoflushed autoflush s) = observe s.
Proof. unfold autoflushed. by destruct autoflush. Qed.

Lemma autoflushed_idem s : autoflushed autoflush (autoflushed autoflush s) = autoflushed autoflush s.
Proof. unfold autoflushed. by destruct autoflush. Qed.

Lemma seen_autoflushed s : seen autoflush (autoflushed autoflush s) = seen autoflush s.
Proof. unfold seen. by rewrite autoflushed_idem. Qed.

Lemma autoflushed_begin d : autoflushed autoflush (begin d) = begin d.
Proof. unfold autoflushed. by destruct autoflush. Qed.

Lemma seen_begin d : seen autoflush (begin d) = d.
Proof. unfold seen. by rewrite autoflushed_begin. Qed.

(** Queries see the loaded rows, and with [autoflush] the added ones. *)
Lemma stock_seen k s :
  stock k (seen autoflush s)
  = stock k (work s) ++ (if autoflush then new_stock k (pending s) else []).
Proof.
  unfold seen, autoflushed. destruct autoflush; simpl.
  - apply stock_foldl_insert.
  - by rewrite app_nil_r.
Qed.

Lemma stock_observe k s :
  stock k (observe s) = stock k (work s) ++ new_stock k (pending s).
Proof. apply stock_foldl_insert. Qed.

(** The rows a query sees are the first rows of what a commit stores. *)
Lemma stock_observe_seen k s :
  ∃ rest, stock k (observe s) = stock k (seen autoflush s) ++ rest.
Proof.
  rewrite stock_observe, stock_seen. destruct autoflush.
  - exists []. by rewrite app_nil_r.
  - exists (new_stock k (pending s)). by rewrite app_nil_r.
Qed.

Lemma observe_fields st n s :
  observe (mkSession st (work s) (pending s) n) = observe s.
Proof. reflexivity. Qed.

Lemma seen_fields st n s :
  seen autoflush (mkSession st (work s) (pending s) n) = seen autoflush s.
Proof. unfold seen, autoflushed. by destruct autoflush. Qed.

Lemma observe_add st n r s :
  observe (mkSession st (work s) (pending s ++ [r]) n)
  = insert_row (observe s) r.
Proof. exact (foldl_snoc insert_row (work s) (pending s) r). Qed.

Lemma stock_seen_add st n k r s :
  stock k
    (seen autoflush (mkSession st (work s) (pending s ++ [r]) n))
  = stock k (seen autoflush s) ++ (if autoflush then new_stock k [r] else []).
Proof.
  rewrite !stock_seen. simpl. destruct autoflush.
  - unfold new_stock. by rewrite omap_app, app_assoc.
  - by rewrite !app_nil_r.
Qed.

Lemma observe_update_stock st n k i f s :
  (i < length (stock k (work s)))%nat →
  observe
    (mkSession st
       (set_stock k (alter f i (stock k (work s))) (work s))
       (pending s) n)
  = set_stock k (alter f i (stock k (observe s))) (observe s).
Proof. intros Hi. unfold observe. simpl. by apply foldl_insert_alter. Qed.

Lemma seen_update_stock st n k i f s :
  (i < length (stock k (work s)))%nat →
  seen autoflush
    (mkSession st
       (set_stock k (alter f i (stock k (work s))) (work s))
       (pending s) n)
  = set_stock k (alter f i (stock k (seen autoflush s))) (seen autoflush s).
Proof.
  intros Hi. unfold seen, autoflushed.
  destruct autoflush; simpl; [|done]. by apply foldl_insert_alter.
Qed.

Lemma query_first_eq {A} (table : DB → list A) (P : A → Prop)
    `{∀ x, Decision (P x)} s :
  query_first autoflush table P s
  = (Returned (list_find P (table (seen autoflush s))), autoflushed autoflush s).
Proof. reflexivity. Qed.

(** A position found by a query is a position of a loaded row. *)
Lemma found_loaded k (P : Stock.item → Prop) `{∀ x, Decision (P x)} s i m :
  list_find P (stock k (seen autoflush s)) = Some (i, m) →
  (i < length (stock k (work (autoflushed autoflush s))))%nat.
Proof.
  intros [Hl _]%list_find_Some. by apply lookup_lt_Some in Hl.
Qed.

(** *** Handlers of the shape [try: ...; db.commit() except: db.rollback()] *)

Lemma run_raised {A} (body : M A) d e s :
  body (begin d) = (Raised e, s) →
  stored s = d →
  run_request (try_except body rollback_400) d
  = (Raised (HTTPException 400 (StrOf e)), d).
Proof.
  intros Hb Hs. unfold run_request, try_except. rewrite Hb. simpl.
  by rewrite Hs.
Qed.

Lemma run_committed {A B} (loop : M B) (result : A) d b s :
  loop (begin d) = (Returned b, s) →
  run_request
    (try_except (loop ;;; commit ;;; ret result) rollback_400) d
  = (Returned result, observe s).
Proof.
  intros Hb. unfold run_request, try_except, bind. by rewrite Hb.
Qed.

Lemma run_aborted {A B} (loop : M B) (result : A) d e s :
  keeps_stored loop →
  loop (begin d) = (Raised e, s) →
  run_request
    (try_except (loop ;;; commit ;;; ret result) rollback_400) d
  = (Raised (HTTPException 400 (StrOf e)), d).
Proof.
  intros Hk Hb. apply run_raised with s.
  - unfold bind. by rewrite Hb.
  - specialize (Hk (begin d)). by rewrite Hb in Hk.
Qed.

End Views.

(** Case analysis on the query over the table [l] in the goal. *)
Ltac destruct_find l :=
  match goal with
  | |- context [@list_find ?A ?P ?D l] =>
      destruct (@list_find A P D l) as [[? ?]|] eqn:?
  end.

(** Reduce the field reads of explicit sessions, nothing else. *)
Ltac session_simpl := cbn [stored work pending draws fst snd].

(** ** Only [db.commit] and [db.rollback] touch the stored database *)

Ltac keeps_stored_step :=
  match goal with
  | |- keeps_stored (bind _ _) => apply keeps_stored_bind; [|intros ?]
  | |- keeps_stored (match ?x with _ => _ end) => destruct x
  | |- keeps_stored (query_first _ _ _) =>
      intros ?; apply stored_autoflushed
  | |- keeps_stored (query_all _ _ _) =>
      intros ?; apply stored_autoflushed
  | |- keeps_stored _ => by apply keeps_stored_plain
  end.

Section Bodies.
Variable autoflush : bool.
Variable uuid : nat → string.

Lemma keeps_stored_transfer_entry t :
  keeps_stored (transfer_entry autoflush uuid t).
Proof. unfold transfer_entry. repeat keeps_stored_step. Qed.

Lemma keeps_stored_shipment_line k sid line :
  keeps_stored (shipment_line autoflush uuid k sid line).
Proof. unfold shipment_line. repeat keeps_stored_step. Qed.

Lemma keeps_stored_accept_item to item :
  keeps_stored (accept_item autoflush uuid to item).
Proof. unfold accept_item. repeat keeps_stored_step. Qed.

Lemma keeps_stored_dispense_line record_id branch_id item :
  keeps_stored (dispense_line autoflush uuid record_id branch_id item).
Proof. unfold dispense_line, dispense. repeat keeps_stored_step. Qed.

End Bodies.

(** ** Transfers *)

Section Transfers.
Variable autoflush : bool.
Variable uuid : nat → string.

(** An entry whose warehouse row is missing or too small raises. *)
Lemma transfer_entry_short t s :
  short_of (TransferCreate.quantity t)
    (warehouse_quantity Medicine (TransferCreate.medicine_id t)
       (seen autoflush s)) →
  transfer_entry autoflush uuid t s
  = (Raised (not_enough (TransferCreate.medicine_name t)),
     autoflushed autoflush s).
Proof.
  unfold warehouse_quantity, transfer_entry, bind. rewrite query_first_eq.
  destruct (list_find _ _) as [[i m]|]; simpl; [|done].
  intros Hq. by rewrite decide_True.
Qed.

(** What an entry does when the warehouse row holds enough: it takes the
    quantity from that row and gives it to the first branch row with the
    entry's name, or to a new branch row with the catalog fields of the
    warehouse row, and records the transfer. *)
Lemma transfer_entry_effect t s i m :
  list_find (in_warehouse (TransferCreate.medicine_id t))
    (stock Medicine (seen autoflush s)) = Some (i, m) →
  (TransferCreate.quantity t ≤ Stock.quantity m)%Z →
  ∃ s',
    transfer_entry autoflush uuid t s = (Returned (), s') ∧
    let q := TransferCreate.quantity t in
    let taken := alter (take q) i (stock Medicine (observe s)) in
    let recorded transfer_id :=
      TransferRow
        (DBTransfer.Row transfer_id (TransferCreate.medicine_id t)
           (TransferCreate.medicine_name t) q
           (or_else (TransferCreate.from_branch_id t) "main")
           (TransferCreate.to_branch_id t)) in
    observe s'
    = match fst <$> list_find
                      (named_in_branch (TransferCreate.medicine_name t)
                         (TransferCreate.to_branch_id t))
                      (stock Medicine (seen autoflush s)) with
      | Some j =>
          insert_row
            (set_stock Medicine (alter (give q) j taken) (observe s))
            (recorded (uuid (draws s)))
      | None =>
          insert_row
            (insert_row (set_stock Medicine taken (observe s))
               (StockRow Medicine
                  (Stock.Item (uuid (draws s))
                     (TransferCreate.medicine_name t)
                     (Stock.category_id m) (Stock.purchase_price m)
                     (Stock.sell_price m) q
                     (Some (TransferCreate.to_branch_id t)))))
            (recorded (uuid (S (draws s))))
      end.
Proof.
  intros Hmain Hq. unfold transfer_entry, bind. cbv zeta.
  rewrite query_first_eq, Hmain. rewrite decide_False by lia.
  unfold update_stock at 1. session_simpl. rewrite query_first_eq.
  pose proof (found_loaded autoflush Medicine _ s i m Hmain) as Hi.
  set (s1 := mkSession _ (set_stock Medicine _ _) _ _).
  assert (Hseen1 : stock Medicine (seen autoflush s1)
                   = alter (take (TransferCreate.quantity t)) i
                       (stock Medicine (seen autoflush s))).
  { unfold s1. rewrite seen_update_stock by done.
    by rewrite stock_set_stock, seen_autoflushed. }
  assert (Hobs1 : observe s1
                  = set_stock Medicine
                      (alter (take (TransferCreate.quantity t)) i
                         (stock Medicine (observe s)))
                      (observe s)).
  { unfold s1. rewrite observe_update_stock by done.
    by rewrite observe_autoflushed. }
  assert (Hdraws1 : draws (autoflushed autoflush s1) = draws s).
  { rewrite draws_autoflushed. unfold s1. session_simpl.
    apply draws_autoflushed. }
  assert (Hsame : fst <$> list_find
                    (named_in_branch (TransferCreate.medicine_name t)
                       (TransferCreate.to_branch_id t))
                    (stock Medicine (seen autoflush s1))
                  = fst <$> list_find
                      (named_in_branch (TransferCreate.medicine_name t)
                         (TransferCreate.to_branch_id t))
                      (stock Medicine (seen autoflush s))).
  { rewrite Hseen1. by apply list_find_alter_fst. }
  rewrite <- Hsame.
  destruct (list_find _ (stock Medicine (seen autoflush s1)))
    as [[j b]|] eqn:Hbranch.
  - pose proof (found_loaded autoflush Medicine _ s1 j b Hbranch) as Hj.
    unfold update_stock, uuid4, add. session_simpl.
    eexists. split; [reflexivity|]. cbv zeta. simpl fmap. cbv iota.
    rewrite observe_mk, foldl_snoc, foldl_insert_alter by done.
    rewrite <- (observe_eq (autoflushed autoflush s1)).
    rewrite observe_autoflushed, Hobs1, Hdraws1.
    by rewrite stock_set_stock, set_stock_set_stock.
  - unfold uuid4, add. session_simpl.
    eexists. split; [reflexivity|]. cbv zeta. simpl fmap. cbv iota.
    rewrite observe_mk, !foldl_snoc.
    rewrite <- (observe_eq (autoflushed autoflush s1)).
    by rewrite observe_autoflushed, Hobs1, Hdraws1.
Qed.

(** A failed batch of transfers leaves the database as it was. *)
Lemma create_transfers_atomic batch db e db' :
  run_request (create_transfers autoflush uuid batch) db = (Raised e, db') →
  db' = db ∧ ∃ cause, e = HTTPException 400 (StrOf cause).
Proof.
  unfold create_transfers.
  destruct (for_each (transfer_entry autoflush uuid) batch (begin db))
    as [[outs|cause] s] eqn:Hloop.
  - by erewrite run_committed.
  - erewrite run_aborted; eauto.
    + intros [= <- <-]. eauto.
    + apply keeps_stored_for_each, keeps_stored_transfer_entry.
Qed.

(** C5: when the entries before [t] of a batch have been applied and the
    warehouse row of [t] is then missing, or holds less than [t] asks for,
    the request fails with status 400 and the stored database is the one
    the request started from: no warehouse or branch quantity and no
    transfer record of the batch remains. *)
Theorem create_transfers_rolls_back pre t post db outs s :
  for_each (transfer_entry autoflush uuid) pre (begin db)
  = (Returned outs, s) →
  short_of (TransferCreate.quantity t)
    (warehouse_quantity Medicine (TransferCreate.medicine_id t)
       (seen autoflush s)) →
  run_request (create_transfers autoflush uuid (pre ++ t :: post)) db
  = (Raised
       (HTTPException 400
          (StrOf (not_enough (TransferCreate.medicine_name t)))),
     db).
Proof.
  intros Hpre Hshort. unfold create_transfers.
  eapply run_aborted.
  - apply keeps_stored_for_each, keeps_stored_transfer_entry.
  - rewrite for_each_app, Hpre. simpl. unfold bind.
    by rewrite transfer_entry_short.
Qed.

End Transfers.

(** ** Arrivals *)

Lemma arrivals_of_set_stock k k' rows d :
  arrivals_of k (set_stock k' rows d) = arrivals_of k d.
Proof. by destruct k, k'. Qed.

Lemma arrivals_of_insert_arrival k d a :
  arrivals_of k (insert_row d (ArrivalRow k a)) = arrivals_of k d ++ [a].
Proof. by destruct k. Qed.

Lemma receive_eq a m :
  receive a m
  = Stock.Item (Stock.id m) (Stock.name m) (Stock.category_id m)
      (ArrivalCreate.purchase_price a)
      (default (Stock.sell_price m) (ArrivalCreate.sell_price a))
      (Stock.quantity m + ArrivalCreate.quantity a)
      (Stock.branch_id m).
Proof. unfold receive. by destruct (ArrivalCreate.sell_price a). Qed.

Lemma for_each_then {A B C} (body : A → M B) (next : M C) x xs s :
  (for_each body (x :: xs) ;;; next) s
  = (body x ;;; for_each body xs ;;; next) s.
Proof.
  simpl. unfold bind, ret. destruct (body x s) as [[y|e] s1]; [|done].
  by destruct (for_each body xs s1) as [[ys|e] s2].
Qed.

Lemma stock_recorded k k' arrival_id a d :
  stock k' (recorded k arrival_id a d) = stock k' d.
Proof. unfold recorded. rewrite stock_insert_row. apply app_nil_r. Qed.

Lemma arrivals_of_restocked k k' a d :
  arrivals_of k (restocked k' a d) = arrivals_of k d.
Proof.
  unfold restocked. destruct (list_find _ _) as [[i m]|]; [|done].
  apply arrivals_of_set_stock.
Qed.

Lemma device_arrivals_arrived uuid n batch d :
  device_arrivals (arrived MedicalDevice uuid n batch d)
  = device_arrivals d
    ++ imap (λ i a, arrival_record (uuid (n + i)%nat) a) batch.
Proof.
  revert n d. induction batch as [|a batch IH]; intros n d; simpl.
  - by rewrite app_nil_r.
  - rewrite IH.
    change (device_arrivals ?x) with (arrivals_of MedicalDevice x).
    rewrite arrivals_of_restocked. unfold recorded.
    rewrite arrivals_of_insert_arrival, <- app_assoc. simpl.
    rewrite Nat.add_0_r. do 2 f_equal.
    apply imap_ext. intros i x _. simpl. f_equal. f_equal. lia.
Qed.

Lemma arrivals_arrived uuid n batch d :
  arrivals (arrived Medicine uuid n batch d)
  = arrivals d ++ imap (λ i a, arrival_record (uuid (n + i)%nat) a) batch.
Proof.
  revert n d. induction batch as [|a batch IH]; intros n d; simpl.
  - by rewrite app_nil_r.
  - rewrite IH.
    change (arrivals ?x) with (arrivals_of Medicine x).
    rewrite arrivals_of_restocked. unfold recorded.
    rewrite arrivals_of_insert_arrival, <- app_assoc. simpl.
    rewrite Nat.add_0_r. do 2 f_equal.
    apply imap_ext. intros i x _. simpl. f_equal. f_equal. lia.
Qed.

(** The last state a request sends is the one it would commit. *)
Lemma flushes_last autoflush k uuid n batch d :
  arrived k uuid n batch d ∈ flushes autoflush k uuid n batch d.
Proof.
  revert n d. induction batch as [|a batch IH]; intros n d; simpl.
  - apply list_elem_of_singleton. done.
  - apply elem_of_app. right. apply IH.
Qed.

Section Arrivals.
Variable autoflush : bool.
Variable uuid : nat → string.
Variable declared : DB → Prop.
Context `{declared_dec : ∀ d, Decision (declared d)}.

Lemma stock_loaded_seen k s :
  stock_loaded s → stock k (seen autoflush s) = stock k (observe s).
Proof.
  intros Hs. rewrite stock_seen, stock_observe, Hs. by destruct autoflush.
Qed.

(** An entry whose record the database refuses at the flush before the
    query. *)
Lemma arrival_entry_refused k a s :
  autoflush = true →
  ¬ consistent declared (recorded k (uuid (draws s)) a (observe s)) →
  ∃ s',
    arrival_entry autoflush uuid declared k a s = (Raised DBAPIError, s') ∧
    stored s' = stored s.
Proof.
  intros Hauto Hbad.
  unfold arrival_entry, bind, uuid4, add, first_checked.
  cbv beta iota zeta. rewrite Hauto. unfold bind, flush_checked.
  rewrite decide_False; [by eexists|].
  intros Hok. apply Hbad. revert Hok. session_simpl.
  by rewrite (observe_add (stored s) (S (draws s)) _ s).
Qed.

(** An entry whose record is taken: the record is appended and the
    warehouse row, if there is one, is restocked. *)
Lemma arrival_entry_taken k a s :
  stock_loaded s →
  (autoflush = true →
   consistent declared (recorded k (uuid (draws s)) a (observe s))) →
  ∃ s',
    arrival_entry autoflush uuid declared k a s = (Returned (), s') ∧
    observe s' = restocked k a (recorded k (uuid (draws s)) a (observe s)) ∧
    draws s' = S (draws s) ∧
    stored s' = stored s ∧
    stock_loaded s'.
Proof.
  intros Hloaded Hok.
  unfold arrival_entry, bind, uuid4, add, first_checked.
  cbv beta iota zeta.
  set (row := ArrivalRow k _).
  set (s2 := mkSession _ _ _ _).
  assert (Hobs : observe s2 = recorded k (uuid (draws s)) a (observe s)).
  { exact (foldl_snoc insert_row (work s) (pending s) row). }
  assert (Hloaded2 : stock_loaded s2).
  { intros k'. unfold s2, new_stock. simpl. rewrite omap_app. simpl.
    rewrite app_nil_r. apply Hloaded. }
  assert (Hchecked : (if autoflush then flush_checked declared else ret ()) s2
                     = (Returned (), s2)).
  { destruct autoflush eqn:Hauto; [|done]. unfold flush_checked.
    rewrite decide_True; [done|]. rewrite Hobs. by apply Hok. }
  unfold bind. rewrite Hchecked, query_first_eq.
  rewrite (stock_loaded_seen k s2 Hloaded2), Hobs.
  unfold restocked.
  assert (Hloaded3 : stock_loaded (autoflushed autoflush s2)).
  { unfold autoflushed. destruct autoflush; [|done]. by intros k'. }
  destruct (list_find _ _) as [[i m]|] eqn:Hfind.
  - eexists. split; [reflexivity|].
    assert (Hi : (i < length (stock k (work (autoflushed autoflush s2))))%nat).
    { apply (found_loaded autoflush k
               (in_warehouse (ArrivalCreate.item_id a)) s2 i m).
      by rewrite (stock_loaded_seen k s2 Hloaded2), Hobs. }
    split; [|split; [|split]].
    + simpl. rewrite observe_update_stock by done.
      rewrite observe_autoflushed, Hobs. f_equal.
      rewrite <- receive_eq. apply alter_found.
      by apply list_find_Some in Hfind as [Hl _].
    + simpl. by rewrite draws_autoflushed.
    + simpl. by rewrite stored_autoflushed.
    + exact Hloaded3.
  - eexists. split; [reflexivity|]. split; [|split; [|split]].
    + by rewrite observe_autoflushed.
    + by rewrite draws_autoflushed.
    + by rewrite stored_autoflushed.
    + exact Hloaded3.
Qed.

(** The loop and the commit of an arrival handler: they commit what the
    entries make of the database, one after the other, when the database
    takes every state sent to it, and fail without a commit otherwise. *)
Lemma arrival_body_run k (msg : string) batch s :
  stock_loaded s →
  (Forall (consistent declared)
     (flushes autoflush k uuid (draws s) batch (observe s)) →
   ∃ s',
     (for_each (arrival_entry autoflush uuid declared k) batch ;;;
      commit_checked declared ;;; ret msg) s
     = (Returned msg, s') ∧
     stored s' = arrived k uuid (draws s) batch (observe s)) ∧
  (¬ Forall (consistent declared)
       (flushes autoflush k uuid (draws s) batch (observe s)) →
   ∃ s',
     (for_each (arrival_entry autoflush uuid declared k) batch ;;;
      commit_checked declared ;;; ret msg) s
     = (Raised DBAPIError, s') ∧
     stored s' = stored s).
Proof.
  revert s. induction batch as [|a batch IH]; intros s Hloaded.
  - simpl. unfold bind, ret, commit_checked, bind, flush_checked.
    rewrite Forall_singleton. split; intros Hd.
    + rewrite decide_True by done. by eexists.
    + rewrite decide_False by done. by eexists.
  - cbn [flushes arrived]. rewrite Forall_app.
    set (d := recorded k (uuid (draws s)) a (observe s)).
    destruct (decide (autoflush = true ∧ ¬ consistent declared d))
      as [[Hauto Hbad]|Hfine].
    + destruct (arrival_entry_refused k a s Hauto Hbad) as (s1 & Hrun & Hs1).
      split.
      * intros [Hd _]. rewrite Hauto in Hd.
        apply (proj1 (Forall_singleton _ _)) in Hd. by destruct Hbad.
      * intros _. exists s1. split; [|done].
        rewrite for_each_then. unfold bind at 1. by rewrite Hrun.
    + assert (Hok : autoflush = true → consistent declared d).
      { intros Hauto. destruct (decide (consistent declared d)); [done|].
        by destruct Hfine. }
      destruct (arrival_entry_taken k a s Hloaded Hok)
        as (s1 & Hrun & Hobs & Hdraws & Hstored & Hloaded1).
      destruct (IH s1 Hloaded1) as [IHok IHbad].
      rewrite Hobs, Hdraws in IHok, IHbad. fold d in IHok, IHbad.
      rewrite Hstored in IHbad.
      assert (Hfirst : Forall (consistent declared)
                         (if autoflush then [d] else [])).
      { destruct autoflush; [|constructor].
        apply Forall_singleton. by apply Hok. }
      split.
      * intros [_ Hrest]. destruct (IHok Hrest) as (s' & Hbody & Hs').
        exists s'. split; [|done].
        rewrite for_each_then. unfold bind at 1. by rewrite Hrun.
      * intros Hnot. destruct IHbad as (s' & Hbody & Hs'); [tauto|].
        exists s'. split; [|done].
        rewrite for_each_then. unfold bind at 1. by rewrite Hrun.
Qed.

Lemma arrival_handler_run k (msg : string) batch db :
  run_request
    (try_except
       (for_each (arrival_entry autoflush uuid declared k) batch ;;;
        commit_checked declared ;;; ret msg)
       rollback_400) db
  = if decide (Forall (consistent declared)
                 (flushes autoflush k uuid 0 batch db))
    then (Returned msg, arrived k uuid 0 batch db)
    else (Raised (HTTPException 400 (StrOf DBAPIError)), db).
Proof.
  destruct (arrival_body_run k msg batch (begin db)) as [Hok Hbad];
    [by intros k'|].
  change (observe (begin db)) with db in Hok, Hbad.
  change (draws (begin db)) with 0%nat in Hok, Hbad.
  unfold run_request, try_except. case_decide as Hall.
  - destruct (Hok Hall) as (s' & -> & Hs'). by rewrite Hs'.
  - destruct (Hbad Hall) as (s' & -> & Hs'). simpl. by rewrite Hs'.
Qed.

Lemma create_arrivals_run batch db :
  run_request (create_arrivals autoflush uuid declared batch) db
  = if decide (Forall (consistent declared)
                 (flushes autoflush Medicine uuid 0 batch db))
    then (Returned "Arrivals created successfully",
          arrived Medicine uuid 0 batch db)
    else (Raised (HTTPException 400 (StrOf DBAPIError)), db).
Proof. apply arrival_handler_run. Qed.

Lemma create_device_arrivals_run batch db :
  run_request (create_device_arrivals autoflush uuid declared batch) db
  = if decide (Forall (consistent declared)
                 (flushes autoflush MedicalDevice uuid 0 batch db))
    then (Returned "Device arrivals created successfully",
          arrived MedicalDevice uuid 0 batch db)
    else (Raised (HTTPException 400 (StrOf DBAPIError)), db).
Proof. apply arrival_handler_run. Qed.

(** C7, as the handlers have it.  On a consistent database, a batch of
    arrivals (or device arrivals) all of whose flushes the database takes
    commits, and what it stores is the database with, for every entry in
    turn, the entry's arrival record appended and the warehouse row with
    the entry's identifier restocked: quantity raised, purchase price
    overwritten, sell price overwritten when the entry has one; nothing
    else when the warehouse has no such row.  A batch with a flush the
    database refuses fails with status 400 and stores nothing; a device
    arrival whose quantity does not fit the 32-bit column is one. *)
Theorem arrival_effect batch db :
  consistent declared db →
  run_request (create_arrivals autoflush uuid declared batch) db
  = (if decide (Forall (consistent declared)
                  (flushes autoflush Medicine uuid 0 batch db))
     then (Returned "Arrivals created successfully",
           arrived Medicine uuid 0 batch db)
     else (Raised (HTTPException 400 (StrOf DBAPIError)), db)) ∧
  run_request (create_device_arrivals autoflush uuid declared batch) db
  = (if decide (Forall (consistent declared)
                  (flushes autoflush MedicalDevice uuid 0 batch db))
     then (Returned "Device arrivals created successfully",
           arrived MedicalDevice uuid 0 batch db)
     else (Raised (HTTPException 400 (StrOf DBAPIError)), db)) ∧
  arrivals (arrived Medicine uuid 0 batch db)
  = arrivals db ++ imap (λ n a, arrival_record (uuid n) a) batch ∧
  device_arrivals (arrived MedicalDevice uuid 0 batch db)
  = device_arrivals db ++ imap (λ n a, arrival_record (uuid n) a) batch ∧
  (Exists (λ a, ¬ int4 (ArrivalCreate.quantity a)) batch →
   run_request (create_device_arrivals autoflush uuid declared batch) db
   = (Raised (HTTPException 400 (StrOf DBAPIError)), db)).
Proof.
  intros _.
  split; [apply create_arrivals_run|].
  split; [apply create_device_arrivals_run|].
  split; [apply (arrivals_arrived uuid 0)|].
  split; [apply (device_arrivals_arrived uuid 0)|].
  intros Hbig. rewrite create_device_arrivals_run.
  rewrite decide_False; [done|]. intros Hall.
  pose proof (flushes_last autoflush MedicalDevice uuid 0 batch db) as Hlast.
  apply (proj1 (Forall_forall _ _) Hall) in Hlast as [Hint _].
  rewrite (device_arrivals_arrived uuid 0) in Hint.
  apply Forall_app in Hint as [_ Hnew].
  apply Exists_exists in Hbig as (a & Ha & Hout).
  apply list_elem_of_lookup in Ha as [i Hi].
  apply Hout.
  apply (Forall_lookup_1 _ _ i (arrival_record (uuid i) a) Hnew).
  by rewrite list_lookup_imap, Hi.
Qed.

End Arrivals.

(** ** Creating a shipment *)

Lemma covered_ext d d' l :
  (∀ k, stock k d' = stock k d) → covered d' l ↔ covered d l.
Proof. intros H. unfold covered, warehouse_quantity. by rewrite H. Qed.

Lemma item_of_line_ext sid d d' l item :
  (∀ k, stock k d' = stock k d) →
  item_of_line sid d' l item ↔ item_of_line sid d l item.
Proof. intros H. unfold item_of_line. by rewrite H. Qed.

Section ShipmentCreation.
Variable autoflush : bool.
Variable uuid : nat → string.

(** A line either finds too little and raises, or adds its item. *)
Lemma shipment_line_effect k sid line s :
  (¬ covered (seen autoflush s) (k, line) ∧
   shipment_line autoflush uuid k sid line s
   = (Raised (insufficient k), autoflushed autoflush s))
  ∨ (∃ item s',
       covered (seen autoflush s) (k, line) ∧
       item_of_line sid (seen autoflush s) (k, line) item ∧
       shipment_line autoflush uuid k sid line s = (Returned (), s') ∧
       observe s' = insert_row (observe s) (ShipmentItemRow item) ∧
       ∀ k', stock k' (seen autoflush s') = stock k' (seen autoflush s)).
Proof.
  unfold covered, item_of_line, warehouse_quantity, shipment_line, bind.
  rewrite query_first_eq. simpl.
  destruct (list_find _ _) as [[i m]|] eqn:Hfind; simpl.
  - case_decide as Hq.
    + left. split; [|done]. by intros [].
    + right. eexists (DBShipmentItem.Row _ _ _ _ _ _), _.
      split; [done|]. split; [simpl; eauto 10|].
      split; [reflexivity|]. session_simpl. split.
      * by rewrite observe_add, observe_autoflushed.
      * intros k'. rewrite stock_seen_add, seen_autoflushed.
        destruct autoflush; apply app_nil_r.
  - left. split; [|done]. by intros [].
Qed.

Lemma shipment_loop k sid lines s :
  match for_each (shipment_line autoflush uuid k sid) lines s with
  | (Returned _, s') =>
      Forall (covered (seen autoflush s)) (pair k <$> lines) ∧
      ∃ items,
        Forall2 (item_of_line sid (seen autoflush s)) (pair k <$> lines)
          items ∧
        observe s' = foldl insert_row (observe s) (ShipmentItemRow <$> items) ∧
        ∀ k', stock k' (seen autoflush s') = stock k' (seen autoflush s)
  | (Raised e, _) =>
      e = insufficient k ∧
      ¬ Forall (covered (seen autoflush s)) (pair k <$> lines)
  end.
Proof.
  revert s. induction lines as [|line lines IH]; intros s; simpl.
  - split; [done|]. exists []. by repeat split.
  - unfold bind.
    destruct (shipment_line_effect k sid line s)
      as [[Hnot ->]|(item & s1 & Hcov & Hitem & -> & Hobs & Hsame)].
    { split; [done|]. by intros [? _]%Forall_cons. }
    specialize (IH s1).
    destruct (for_each _ lines s1) as [[outs|e] s2]; simpl.
    + destruct IH as (Hall & items & Hitems & Hobs2 & Hsame2).
      split.
      { constructor; [done|].
        eapply Forall_impl; [exact Hall|]. intros l.
        by apply covered_ext. }
      exists (item :: items). split; [|split].
      * constructor; [done|].
        eapply Forall2_impl; [exact Hitems|]. intros l it.
        by apply item_of_line_ext.
      * simpl. by rewrite Hobs2, Hobs.
      * intros k'. by rewrite Hsame2.
    + destruct IH as [-> Hnot]. split; [done|].
      intros [_ Hall]%Forall_cons. apply Hnot.
      eapply Forall_impl; [exact Hall|]. intros l.
      by apply covered_ext.
Qed.

Lemma shipment_lines_effect k sid lines s :
  match shipment_lines autoflush uuid k sid lines s with
  | (Returned _, s') =>
      Forall (covered (seen autoflush s)) (pair k <$> default [] lines) ∧
      ∃ items,
        Forall2 (item_of_line sid (seen autoflush s))
          (pair k <$> default [] lines) items ∧
        observe s' = foldl insert_row (observe s) (ShipmentItemRow <$> items) ∧
        ∀ k', stock k' (seen autoflush s') = stock k' (seen autoflush s)
  | (Raised e, _) =>
      e = insufficient k ∧
      ¬ Forall (covered (seen autoflush s)) (pair k <$> default [] lines)
  end.
Proof.
  destruct lines as [ls|]; simpl.
  - unfold bind. pose proof (shipment_loop k sid ls s) as H.
    by destruct (for_each _ ls s) as [[outs|e] s'].
  - split; [done|]. exists []. by repeat split.
Qed.

Lemma keeps_stored_shipment_lines k sid lines :
  keeps_stored (shipment_lines autoflush uuid k sid lines).
Proof.
  unfold shipment_lines. destruct lines; [|done].
  apply keeps_stored_bind; [|done].
  apply keeps_stored_for_each, keeps_stored_shipment_line.
Qed.

(** C6: creating a shipment changes no stock row of either table.  It
    succeeds exactly when the destination is given and the warehouse holds
    every requested line; then the shipment is stored as pending, with one
    item per line and one notification for the destination branch.
    Otherwise it fails with status 400 and stores nothing. *)
Theorem create_shipment_frame sd db :
  ∃ r db',
    run_request (create_shipment autoflush uuid sd) db = (r, db') ∧
    (∀ k, stock k db' = stock k db) ∧
    match r with
    | Returned msg =>
        msg = "Shipment created successfully" ∧
        ∃ to_branch_id items notification_id,
          ShipmentData.to_branch_id sd = Some to_branch_id ∧
          Forall (covered db) (requested_lines sd) ∧
          Forall2 (item_of_line (uuid 0) db) (requested_lines sd) items ∧
          db' = foldl insert_row db
                  (ShipmentRow
                     (DBShipment.Row (uuid 0) to_branch_id "pending"
                        None None)
                   :: (ShipmentItemRow <$> items)
                   ++ [NotificationRow
                         (DBNotification.Row notification_id to_branch_id
                            notification_title notification_message 0)])
    | Raised e =>
        db' = db ∧
        (∃ cause, e = HTTPException 400 (StrOf cause)) ∧
        (ShipmentData.to_branch_id sd = None
         ∨ ¬ Forall (covered db) (requested_lines sd))
    end.
Proof.
  unfold create_shipment, run_request, try_except, bind at 1.
  unfold uuid4 at 1, begin. session_simpl.
  destruct (ShipmentData.to_branch_id sd) as [to|] eqn:Hto.
  2:{ eexists _, _. split; [reflexivity|]. simpl. eauto 10. }
  unfold bind at 1, add at 1. session_simpl. cbn [app].
  set (shipment := ShipmentRow _).
  set (s1 := mkSession db db [shipment] 1).
  assert (Hseen1 : ∀ k, stock k (seen autoflush s1) = stock k db).
  { intros k. unfold s1.
    etrans; [exact (stock_seen_add autoflush db 1%nat k shipment (begin db))|].
    rewrite seen_begin. destruct autoflush; apply app_nil_r. }
  assert (Hobs1 : observe s1 = insert_row db shipment) by done.
  assert (Hstored1 : stored s1 = db) by done.
  unfold bind at 1.
  pose proof (shipment_lines_effect Medicine (uuid 0)
                (ShipmentData.medicines sd) s1) as Hmed.
  pose proof (keeps_stored_shipment_lines Medicine (uuid 0)
                (ShipmentData.medicines sd) s1) as Hst2.
  destruct (shipment_lines _ _ Medicine _ _ s1) as [[?|e] s2].
  2:{ destruct Hmed as [-> Hnot]. simpl in Hst2.
      eexists _, _. split; [reflexivity|]. simpl. rewrite Hst2.
      split; [done|]. split; [done|]. split; [eauto|]. right.
      unfold requested_lines. intros [Hall _]%Forall_app. apply Hnot.
      eapply Forall_impl; [exact Hall|]. intros l. by apply covered_ext. }
  destruct Hmed as (Hcov1 & items1 & Hitems1 & Hobs2 & Hseen2).
  unfold bind at 1.
  pose proof (shipment_lines_effect MedicalDevice (uuid 0)
                (ShipmentData.medical_devices sd) s2) as Hdev.
  pose proof (keeps_stored_shipment_lines MedicalDevice
                (uuid 0) (ShipmentData.medical_devices sd) s2) as Hst3.
  assert (Hseen2' : ∀ k, stock k (seen autoflush s2) = stock k db).
  { intros k. by rewrite Hseen2. }
  destruct (shipment_lines _ _ MedicalDevice _ _ s2) as [[?|e] s3].
  2:{ destruct Hdev as [-> Hnot]. simpl in Hst2, Hst3.
      eexists _, _. split; [reflexivity|]. simpl. rewrite Hst3, Hst2.
      split; [done|]. split; [done|]. split; [eauto|]. right.
      unfold requested_lines. intros [_ Hall]%Forall_app. apply Hnot.
      eapply Forall_impl; [exact Hall|]. intros l. by apply covered_ext. }
  destruct Hdev as (Hcov2 & items2 & Hitems2 & Hobs3 & Hseen3).
  unfold bind, uuid4, add, commit, ret. session_simpl.
  eexists _, _. split; [reflexivity|].
  change (work (flush ?s)) with (observe s).
  rewrite observe_add, Hobs3, Hobs2, Hobs1.
  set (notification := NotificationRow _).
  assert (Hdb : insert_row
            (foldl insert_row
               (foldl insert_row (insert_row db shipment)
                  (ShipmentItemRow <$> items1))
               (ShipmentItemRow <$> items2)) notification
          = foldl insert_row db
              (shipment :: (ShipmentItemRow <$> items1 ++ items2)
               ++ [notification])).
  { simpl. by rewrite fmap_app, !foldl_app. }
  rewrite Hdb. split.
  { intros k. rewrite stock_foldl_insert.
    assert (new_stock k
              (shipment :: (ShipmentItemRow <$> items1 ++ items2)
               ++ [notification]) = []) as ->; [|apply app_nil_r].
    change (shipment :: ?l) with ([shipment] ++ l).
    by rewrite !new_stock_app, new_stock_shipment_items. }
  split; [done|]. eexists to, (items1 ++ items2), _.
  split; [done|]. unfold requested_lines. split; [|split; [|done]].
  - apply Forall_app. split.
    + eapply Forall_impl; [exact Hcov1|]. intros l. by apply covered_ext.
    + eapply Forall_impl; [exact Hcov2|]. intros l. by apply covered_ext.
  - apply Forall2_app.
    + eapply Forall2_impl; [exact Hitems1|]. intros l it.
      by apply item_of_line_ext.
    + eapply Forall2_impl; [exact Hitems2|]. intros l it.
      by apply item_of_line_ext.
Qed.

End ShipmentCreation.

(** ** Accepting and rejecting a shipment *)

Lemma shipments_insert_row d r :
  shipments (insert_row d r) = shipments d ++ new_shipments [r].
Proof.
  destruct r as [k m| | | | | | |k a]; try destruct k; destruct d;
    unfold insert_row; simpl; try rewrite app_nil_r; reflexivity.
Qed.

Lemma shipments_foldl_insert rows d :
  shipments (foldl insert_row d rows) = shipments d ++ new_shipments rows.
Proof.
  revert d. induction rows as [|r rows IH]; intros d; simpl.
  - by rewrite app_nil_r.
  - rewrite IH, shipments_insert_row. unfold new_shipments. simpl.
    rewrite <- app_assoc. f_equal. by destruct r.
Qed.

Lemma shipments_set_stock k rows d : shipments (set_stock k rows d) = shipments d.
Proof. by destruct k. Qed.

Lemma always_bind {A B} I (c : M A) (k : A → M B) :
  always I c → (∀ a, always I (k a)) → always I (bind c k).
Proof.
  intros Hc Hk s Hs. unfold bind. specialize (Hc s Hs).
  destruct (c s) as [[a|e] s1]; simpl in *; [|done]. by apply Hk.
Qed.

Lemma always_for_each {A B} I (body : A → M B) xs :
  (∀ x, always I (body x)) → always I (for_each body xs).
Proof.
  intros Hb. induction xs as [|x xs IH]; simpl; [by intros s Hs|].
  apply always_bind; [apply Hb|]. intros y.
  apply always_bind; [apply IH|]. by intros ys s Hs.
Qed.

Lemma returns_bind {A B} (c : M A) (k : A → M B) :
  returns c → (∀ a, returns (k a)) → returns (bind c k).
Proof.
  intros Hc Hk s. unfold bind. destruct (Hc s) as (a & s1 & ->). apply Hk.
Qed.

Lemma returns_for_each {A B} (body : A → M B) xs :
  (∀ x, returns (body x)) → returns (for_each body xs).
Proof.
  intros Hb. induction xs as [|x xs IH]; simpl.
  - intros s. by eexists _, _.
  - apply returns_bind; [apply Hb|]. intros y.
    apply returns_bind; [apply IH|]. intros ys s. by eexists _, _.
Qed.

Ltac returns_step :=
  match goal with
  | |- returns (bind _ _) => apply returns_bind; [|intros ?]
  | |- returns (match ?x with _ => _ end) => destruct x
  | |- returns _ => by (intros ?; eexists _, _)
  end.

Lemma foldl_insert_set_shipments table rows d :
  new_shipments rows = [] →
  foldl insert_row (set_shipments table d) rows
  = set_shipments table (foldl insert_row d rows).
Proof.
  revert d. induction rows as [|r rows IH]; intros d Hrows; simpl; [done|].
  assert (new_shipments [r] = [] ∧ new_shipments rows = []) as [Hr Hrs].
  { change (r :: rows) with ([r] ++ rows) in Hrows. unfold new_shipments in *.
    rewrite omap_app in Hrows. by apply app_eq_nil in Hrows. }
  rewrite <- IH by done. f_equal.
  destruct r as [k m| | | | | | |k a]; try destruct k; try done.
Qed.

Section Acceptance.
Variable autoflush : bool.
Variable uuid : nat → string.

Lemma shipments_are_autoflushed table s :
  shipments_are table s → shipments_are table (autoflushed autoflush s).
Proof.
  unfold shipments_are, settled, autoflushed. intros [Hs Hw].
  destruct autoflush; simpl; [|done].
  split; [done|]. by rewrite shipments_foldl_insert, Hs, app_nil_r.
Qed.

Lemma shipments_are_query_first {A} table (t : DB → list A) (P : A → Prop)
    `{∀ x, Decision (P x)} :
  always (shipments_are table) (query_first autoflush t P).
Proof. intros s. apply shipments_are_autoflushed. Qed.

Lemma shipments_are_update_stock table k i f :
  always (shipments_are table) (update_stock k i f).
Proof.
  intros s [Hs Hw]. split; [done|]. simpl. by rewrite shipments_set_stock.
Qed.

Lemma shipments_are_add_stock table k m :
  always (shipments_are table) (add (StockRow k m)).
Proof.
  intros s [Hs Hw]. split; [|done]. unfold settled, new_shipments in *.
  simpl. by rewrite omap_app, Hs.
Qed.

Lemma shipments_are_accept_item table to item :
  always (shipments_are table) (accept_item autoflush uuid to item).
Proof.
  unfold accept_item.
  repeat first
    [ apply always_bind; [|intros ?]
    | apply shipments_are_query_first
    | apply shipments_are_update_stock
    | apply shipments_are_add_stock
    | match goal with
      | |- always _ (match ?x with _ => _ end) => destruct x
      end
    | by intros ? ? ].
Qed.

(** The step for one item never raises. *)
Lemma returns_accept_item to item :
  returns (accept_item autoflush uuid to item).
Proof. unfold accept_item. repeat returns_step. Qed.

(** Accepting a pending shipment runs the step of every item, marks the
    shipment accepted and commits: it never fails. *)
Lemma accept_shipment_pending db sid now n sh :
  list_find (λ s, DBShipment.id s = sid) (shipments db) = Some (n, sh) →
  DBShipment.status sh = "pending" →
  ∃ outs s',
    for_each (accept_item autoflush uuid (DBShipment.to_branch_id sh))
      (filter (λ it, DBShipmentItem.shipment_id it = sid)
         (shipment_items db))
      (begin db)
    = (Returned outs, s') ∧
    run_request (accept_shipment autoflush uuid sid now) db
    = (Returned
         (Accepted.Make (DBShipment.accept now sh) outs
            (or_None (entries_of Medicine outs))
            (or_None (entries_of MedicalDevice outs))),
       set_shipments (alter (DBShipment.accept now) n (shipments db))
         (observe s')).
Proof.
  intros Hfind Hpending.
  set (items := filter _ (shipment_items db)).
  destruct (returns_for_each
              (accept_item autoflush uuid (DBShipment.to_branch_id sh))
              items (returns_accept_item _) (begin db))
    as (outs & s' & Hloop).
  pose proof (always_for_each (shipments_are (shipments db))
                (accept_item autoflush uuid (DBShipment.to_branch_id sh))
                items (shipments_are_accept_item _ _) (begin db)) as Hinv.
  rewrite Hloop in Hinv. destruct Hinv as [Hsettled Hship]; [done|].
  simpl in Hsettled, Hship.
  exists outs, s'. split; [done|].
  unfold accept_shipment, run_request, bind at 1.
  rewrite query_first_eq, seen_begin, Hfind, autoflushed_begin.
  rewrite decide_False by (by intros []).
  unfold try_except, bind at 1, query_all.
  rewrite autoflushed_begin. session_simpl.
  change (work (begin db)) with db. fold items.
  unfold bind at 1. rewrite Hloop.
  unfold bind, update_shipment, commit, ret. session_simpl. f_equal.
  rewrite Hship. by apply foldl_insert_set_shipments.
Qed.

(** The step of an item that has a warehouse row: the quantity is taken from
    that row whatever it holds, and given to the first branch row with the
    item's name, or to a new branch row with the catalog fields of the
    warehouse row. *)
Lemma accept_item_stocked to item s i m :
  list_find (in_warehouse (DBShipmentItem.item_id item))
    (stock (shipped_kind item) (seen autoflush s)) = Some (i, m) →
  ∃ s',
    accept_item autoflush uuid to item s
    = (Returned
         (Accepted.Entry (item_type (shipped_kind item))
            (DBShipmentItem.item_id item) (Stock.name m)
            (DBShipmentItem.quantity item)),
       s') ∧
    let k := shipped_kind item in
    let q := DBShipmentItem.quantity item in
    let taken := alter (take q) i (stock k (observe s)) in
    observe s'
    = match fst <$> list_find
                      (named_in_branch (DBShipmentItem.item_name item) to)
                      (stock k (seen autoflush s)) with
      | Some j => set_stock k (alter (give q) j taken) (observe s)
      | None =>
          insert_row (set_stock k taken (observe s))
            (StockRow k
               (Stock.Item (uuid (draws s))
                  (DBShipmentItem.item_name item)
                  (Stock.category_id m) (Stock.purchase_price m)
                  (Stock.sell_price m) q (Some to)))
      end.
Proof.
  intros Hmain. unfold accept_item, bind. cbv zeta.
  rewrite query_first_eq, Hmain.
  unfold update_stock at 1. session_simpl. rewrite query_first_eq.
  pose proof (found_loaded autoflush _ _ s i m Hmain) as Hi.
  set (k := shipped_kind item) in *.
  set (s1 := mkSession _ (set_stock k _ _) _ _).
  assert (Hseen1 : stock k (seen autoflush s1)
                   = alter (take (DBShipmentItem.quantity item)) i
                       (stock k (seen autoflush s))).
  { unfold s1. rewrite seen_update_stock by done.
    by rewrite stock_set_stock, seen_autoflushed. }
  assert (Hobs1 : observe s1
                  = set_stock k
                      (alter (take (DBShipmentItem.quantity item)) i
                         (stock k (observe s)))
                      (observe s)).
  { unfold s1. rewrite observe_update_stock by done.
    by rewrite observe_autoflushed. }
  assert (Hdraws1 : draws (autoflushed autoflush s1) = draws s).
  { rewrite draws_autoflushed. unfold s1. session_simpl.
    apply draws_autoflushed. }
  assert (Hsame : fst <$> list_find
                    (named_in_branch (DBShipmentItem.item_name item) to)
                    (stock k (seen autoflush s1))
                  = fst <$> list_find
                      (named_in_branch (DBShipmentItem.item_name item) to)
                      (stock k (seen autoflush s))).
  { rewrite Hseen1. by apply list_find_alter_fst. }
  rewrite <- Hsame.
  destruct (list_find _ (stock k (seen autoflush s1)))
    as [[j b]|] eqn:Hbranch.
  - pose proof (found_loaded autoflush k _ s1 j b Hbranch) as Hj.
    unfold update_stock, ret. session_simpl.
    eexists. split; [reflexivity|]. simpl fmap. cbv iota.
    rewrite observe_mk, foldl_insert_alter by done.
    rewrite <- (observe_eq (autoflushed autoflush s1)).
    rewrite observe_autoflushed, Hobs1.
    by rewrite stock_set_stock, set_stock_set_stock.
  - unfold uuid4, add, ret. session_simpl.
    eexists. split; [reflexivity|]. simpl fmap. cbv iota.
    rewrite observe_mk, !foldl_snoc.
    rewrite <- (observe_eq (autoflushed autoflush s1)).
    by rewrite observe_autoflushed, Hobs1, Hdraws1.
Qed.

(** The step of an item that has no warehouse row: nothing is taken, and
    the branch row is found by name and raised, or created from the item
    alone. *)
Lemma accept_item_unstocked to item s :
  list_find (in_warehouse (DBShipmentItem.item_id item))
    (stock (shipped_kind item) (seen autoflush s)) = None →
  ∃ s',
    accept_item autoflush uuid to item s
    = (Returned
         (Accepted.Entry (item_type (shipped_kind item))
            (DBShipmentItem.item_id item) (DBShipmentItem.item_name item)
            (DBShipmentItem.quantity item)),
       s') ∧
    observe s'
    = match list_find (named_in_branch (DBShipmentItem.item_name item) to)
              (stock (shipped_kind item) (seen autoflush s)) with
      | Some (j, b) =>
          set_stock (shipped_kind item)
            (<[j := Stock.with_quantity
                      (Stock.quantity b + DBShipmentItem.quantity item) b]>
               (stock (shipped_kind item) (observe s)))
            (observe s)
      | None =>
          insert_row (observe s)
            (StockRow (shipped_kind item)
               (Stock.Item (uuid (draws s))
                  (DBShipmentItem.item_name item) None 0%Q 0%Q
                  (DBShipmentItem.quantity item) (Some to)))
      end.
Proof.
  intros Hmain. unfold accept_item, bind. cbv zeta.
  rewrite query_first_eq, Hmain. unfold ret at 1.
  rewrite query_first_eq, seen_autoflushed, autoflushed_idem.
  destruct (list_find (named_in_branch _ _) _) as [[j b]|] eqn:Hbranch.
  - unfold update_stock, ret. session_simpl.
    eexists. split; [reflexivity|].
    rewrite observe_update_stock by (by eapply found_loaded).
    rewrite observe_autoflushed. f_equal.
    apply (alter_found (give (DBShipmentItem.quantity item))).
    apply list_find_Some in Hbranch as [Hl _].
    destruct (stock_observe_seen autoflush (shipped_kind item) s)
      as [rest ->].
    by apply lookup_app_l_Some.
  - unfold uuid4, add, ret. session_simpl.
    eexists. split; [reflexivity|].
    by rewrite observe_add, observe_autoflushed, draws_autoflushed.
Qed.

(** Accepting a shipment that is not pending is refused with status 409
    and changes nothing. *)
Lemma accept_shipment_processed db sid now n sh :
  list_find (λ s, DBShipment.id s = sid) (shipments db) = Some (n, sh) →
  DBShipment.status sh ≠ "pending" →
  run_request (accept_shipment autoflush uuid sid now) db
  = (Raised (HTTPException 409 (Message "Already processed")), db).
Proof.
  intros Hfind Hstatus. unfold accept_shipment, run_request, bind at 1.
  rewrite query_first_eq, seen_begin, Hfind, autoflushed_begin.
  by rewrite decide_True.
Qed.

(** Rejecting looks at no status: any shipment that exists is marked
    rejected, and nothing else is written. *)
Lemma reject_shipment_any db sid reason n sh :
  list_find (λ s, DBShipment.id s = sid) (shipments db) = Some (n, sh) →
  run_request (reject_shipment autoflush sid reason) db
  = (Returned "Shipment rejected",
     set_shipments
       (alter (DBShipment.reject (default "" reason)) n (shipments db)) db).
Proof.
  intros Hfind. unfold reject_shipment, run_request, bind at 1.
  rewrite query_first_eq, seen_begin, Hfind, autoflushed_begin.
  reflexivity.
Qed.

End Acceptance.

(** ** Dispensing *)

Lemma run_try_ext {A} (body1 body2 : M A) handler d :
  body1 (begin d) = body2 (begin d) →
  run_request (try_except body1 handler) d
  = run_request (try_except body2 handler) d.
Proof. intros H. unfold run_request, try_except. by rewrite H. Qed.

Lemma bind_ext {A B} (c : M A) (k1 k2 : A → M B) s :
  (∀ a s', k1 a s' = k2 a s') → bind c k1 s = bind c k2 s.
Proof. intros Hk. unfold bind. by destruct (c s) as [[a|e] s']. Qed.

(** An iteration that does nothing can be left out of a loop whose results
    are not used. *)
Lemma for_each_skip {A B} (body : A → M unit) (k : M B) pre x post s :
  (∀ s0, body x s0 = (Returned (), s0)) →
  (for_each body (pre ++ x :: post) ;;; k) s
  = (for_each body (pre ++ post) ;;; k) s.
Proof.
  intros Hskip. unfold bind. rewrite !for_each_app. simpl. unfold bind.
  destruct (for_each body pre s) as [[outs|e] s1]; [|done].
  rewrite Hskip.
  by destruct (for_each body post s1) as [[outs'|e] s2].
Qed.

Section Dispensing.
Variable autoflush : bool.
Variable uuid : nat → string.

(** What the branch of a known type does with a line. *)
Lemma dispense_effect k record_id branch_id item s :
  match list_find (in_branch (DispensingLine.id item) branch_id)
          (stock k (seen autoflush s)) with
  | Some (i, m) =>
      if decide (Stock.quantity m < DispensingLine.quantity item) then
        dispense autoflush uuid k record_id branch_id item s
        = (Raised (insufficient_for (DispensingLine.name item)),
           autoflushed autoflush s)
      else
        ∃ s',
          dispense autoflush uuid k record_id branch_id item s
          = (Returned (), s') ∧
          observe s'
          = insert_row
              (set_stock k
                 (<[i := Stock.with_quantity
                           (Stock.quantity m - DispensingLine.quantity item)
                           m]>
                    (stock k (observe s)))
                 (observe s))
              (DispensingItemRow
                 (DBDispensingItem.Row (uuid (draws s)) record_id
                    (item_type k) (DispensingLine.id item)
                    (DispensingLine.name item)
                    (DispensingLine.quantity item)))
  | None =>
      dispense autoflush uuid k record_id branch_id item s
      = (Raised (insufficient_for (DispensingLine.name item)),
         autoflushed autoflush s)
  end.
Proof.
  unfold dispense, bind. rewrite query_first_eq.
  destruct (list_find _ _) as [[i m]|] eqn:Hfind; [|done].
  case_decide as Hq; [done|].
  unfold update_stock, uuid4, add. session_simpl.
  eexists. split; [reflexivity|].
  rewrite observe_mk, foldl_snoc, foldl_insert_alter
    by (by eapply found_loaded).
  rewrite <- (observe_eq (autoflushed autoflush s)).
  rewrite observe_autoflushed, draws_autoflushed. do 2 f_equal.
  apply (alter_found (take (DispensingLine.quantity item))).
  apply list_find_Some in Hfind as [Hl _].
  destruct (stock_observe_seen autoflush k s) as [rest ->].
  by apply lookup_app_l_Some.
Qed.

Lemma dispense_line_known k record_id branch_id item :
  DispensingLine.type item = item_type k →
  dispense_line autoflush uuid record_id branch_id item
  = dispense autoflush uuid k record_id branch_id item.
Proof.
  unfold dispense_line. intros Hty. rewrite Hty.
  by destruct k.
Qed.

Lemma dispense_line_unknown record_id branch_id item s :
  DispensingLine.type item ≠ "medicine" →
  DispensingLine.type item ≠ "medical_device" →
  dispense_line autoflush uuid record_id branch_id item s = (Returned (), s).
Proof.
  intros Hm Hd. unfold dispense_line. by rewrite !decide_False.
Qed.

(** Whatever makes a dispensing request fail, nothing of it is stored. *)
Lemma create_dispensing_record_atomic request db e db' :
  run_request (create_dispensing_record autoflush uuid request) db
  = (Raised e, db') →
  db' = db.
Proof.
  unfold create_dispensing_record, run_request, try_except.
  unfold bind at 1. rewrite query_first_eq, seen_begin, autoflushed_begin.
  unfold bind at 1. rewrite query_first_eq, seen_begin, autoflushed_begin.
  destruct_find (patients db); [destruct_find (employees db)|];
    try (by intros [= <- <-]).
  unfold bind at 1, uuid4 at 1, bind at 1, add at 1. session_simpl.
  unfold bind at 1.
  match goal with
  | |- context [for_each ?body ?items ?s0] =>
      pose proof (keeps_stored_for_each body items
                    (keeps_stored_dispense_line autoflush uuid _ _) s0) as Hk;
      destruct (for_each body items s0) as [[outs|cause] s1]
  end.
  - unfold bind, commit, ret. by intros [=].
  - simpl in *. intros [= <- <-]. done.
Qed.

Lemma create_dispensing_record_missing request db :
  list_find (λ p, Person.id p = DispensingRequest.patient_id request)
    (patients db) = None
  ∨ list_find (λ p, Person.id p = DispensingRequest.employee_id request)
      (employees db) = None →
  run_request (create_dispensing_record autoflush uuid request) db
  = (Raised
       (HTTPException 400
          (StrOf (HTTPException 404
                    (Message "Patient or employee not found")))),
     db).
Proof.
  intros Hmissing.
  unfold create_dispensing_record, run_request, try_except.
  unfold bind at 1. rewrite query_first_eq, seen_begin, autoflushed_begin.
  unfold bind at 1. rewrite query_first_eq, seen_begin, autoflushed_begin.
  destruct Hmissing as [-> | ->]; [done|].
  by destruct_find (patients db).
Qed.

Lemma stock_loaded_autoflushed s :
  stock_loaded s → stock_loaded (autoflushed autoflush s).
Proof.
  intros Hs. unfold autoflushed. destruct autoflush; [|done]. by intros k.
Qed.

(** The branch of a known type, on a session with no stock row waiting. *)
Lemma dispense_run k record_id branch_id item s :
  stock_loaded s →
  match list_find (in_branch (DispensingLine.id item) branch_id)
          (stock k (observe s)) with
  | Some (i, m) =>
      if decide (Stock.quantity m < DispensingLine.quantity item) then
        ∃ s',
          dispense autoflush uuid k record_id branch_id item s
          = (Raised (insufficient_for (DispensingLine.name item)), s') ∧
          stored s' = stored s
      else
        ∃ s',
          dispense autoflush uuid k record_id branch_id item s
          = (Returned (), s') ∧
          observe s'
          = insert_row
              (set_stock k
                 (<[i := Stock.with_quantity
                           (Stock.quantity m - DispensingLine.quantity item)
                           m]>
                    (stock k (observe s)))
                 (observe s))
              (DispensingItemRow
                 (DBDispensingItem.Row (uuid (draws s)) record_id
                    (item_type k) (DispensingLine.id item)
                    (DispensingLine.name item)
                    (DispensingLine.quantity item))) ∧
          draws s' = S (draws s) ∧
          stored s' = stored s ∧
          stock_loaded s'
  | None =>
      ∃ s',
        dispense autoflush uuid k record_id branch_id item s
        = (Raised (insufficient_for (DispensingLine.name item)), s') ∧
        stored s' = stored s
  end.
Proof.
  intros Hloaded. rewrite <- (stock_loaded_seen autoflush k s Hloaded).
  unfold dispense, bind. rewrite query_first_eq.
  destruct (list_find _ _) as [[i m]|] eqn:Hfind.
  2:{ eexists. split; [reflexivity|]. apply stored_autoflushed. }
  case_decide as Hq.
  { eexists. split; [reflexivity|]. apply stored_autoflushed. }
  unfold update_stock, uuid4, add. session_simpl.
  eexists. split; [reflexivity|]. split; [|split; [|split]].
  - rewrite observe_mk, foldl_snoc, foldl_insert_alter
      by (by eapply found_loaded).
    rewrite <- (observe_eq (autoflushed autoflush s)).
    rewrite observe_autoflushed, draws_autoflushed. do 2 f_equal.
    rewrite (stock_loaded_seen autoflush k s Hloaded).
    apply (alter_found (take (DispensingLine.quantity item))).
    apply list_find_Some in Hfind as [Hl _].
    by rewrite (stock_loaded_seen autoflush k s Hloaded) in Hl.
  - simpl. by rewrite draws_autoflushed.
  - simpl. apply stored_autoflushed.
  - intros k'. unfold new_stock. simpl. rewrite omap_app. simpl.
    rewrite app_nil_r. by apply stock_loaded_autoflushed.
Qed.

(** One line of the loop does what the specification's line does. *)
Lemma dispense_line_run record_id branch_id item s :
  stock_loaded s →
  match dispensed_line uuid record_id branch_id item (draws s, observe s)
  with
  | inr (n', d') =>
      ∃ s',
        dispense_line autoflush uuid record_id branch_id item s
        = (Returned (), s') ∧
        observe s' = d' ∧ draws s' = n' ∧ stored s' = stored s ∧
        stock_loaded s'
  | inl name =>
      ∃ s',
        dispense_line autoflush uuid record_id branch_id item s
        = (Raised (insufficient_for name), s') ∧
        stored s' = stored s
  end.
Proof.
  intros Hloaded. unfold dispensed_line, line_kind, dispense_line.
  cbn [fst snd].
  assert (Hcase : ∀ k,
    match
      match list_find (in_branch (DispensingLine.id item) branch_id)
              (stock k (observe s)) with
      | Some (i, m) =>
          if decide (Stock.quantity m < DispensingLine.quantity item)
          then inl (DispensingLine.name item)
          else
            inr (S (draws s),
                 insert_row
                   (set_stock k
                      (<[i := Stock.with_quantity
                                (Stock.quantity m
                                 - DispensingLine.quantity item) m]>
                         (stock k (observe s)))
                      (observe s))
                   (DispensingItemRow
                      (DBDispensingItem.Row (uuid (draws s)) record_id
                         (item_type k) (DispensingLine.id item)
                         (DispensingLine.name item)
                         (DispensingLine.quantity item))))
      | None => inl (DispensingLine.name item)
      end
    with
    | inr (n', d') =>
        ∃ s',
          dispense autoflush uuid k record_id branch_id item s
          = (Returned (), s') ∧
          observe s' = d' ∧ draws s' = n' ∧ stored s' = stored s ∧
          stock_loaded s'
    | inl name =>
        ∃ s',
          dispense autoflush uuid k record_id branch_id item s
          = (Raised (insufficient_for name), s') ∧
          stored s' = stored s
    end).
  { intros k. pose proof (dispense_run k record_id branch_id item s Hloaded)
      as Hrun.
    destruct (list_find _ _) as [[i m]|]; [|done].
    by case_decide. }
  case_decide; [apply Hcase|]. case_decide; [apply Hcase|].
  by eexists.
Qed.

Lemma dispense_lines_run record_id branch_id items s :
  stock_loaded s →
  match dispensed_lines uuid record_id branch_id items (draws s, observe s)
  with
  | inr (n', d') =>
      ∃ outs s',
        for_each (dispense_line autoflush uuid record_id branch_id) items s
        = (Returned outs, s') ∧
        observe s' = d'
  | inl name =>
      ∃ s',
        for_each (dispense_line autoflush uuid record_id branch_id) items s
        = (Raised (insufficient_for name), s') ∧
        stored s' = stored s
  end.
Proof.
  revert s. induction items as [|item items IH]; intros s Hloaded; simpl.
  - by eexists _, _.
  - pose proof (dispense_line_run record_id branch_id item s Hloaded) as Hone.
    destruct (dispensed_line _ _ _ item _) as [name|[n1 d1]].
    + destruct Hone as (s1 & Hrun & Hstored). exists s1.
      unfold bind. by rewrite Hrun.
    + destruct Hone as (s1 & Hrun & <- & <- & Hstored & Hloaded1).
      specialize (IH s1 Hloaded1). unfold bind. rewrite Hrun.
      destruct (dispensed_lines _ _ _ items _) as [name|[n2 d2]].
      * destruct IH as (s2 & -> & Hs2). exists s2. split; [done|].
        congruence.
      * destruct IH as (outs & s2 & -> & Hs2). by eexists _, _.
Qed.

(** A request whose patient and employee exist does what the
    specification's lines do to the database with the record added, and
    stores nothing when one of them fails. *)
Lemma create_dispensing_record_run request db i patient j employee :
  list_find (λ p, Person.id p = DispensingRequest.patient_id request)
    (patients db) = Some (i, patient) →
  list_find (λ p, Person.id p = DispensingRequest.employee_id request)
    (employees db) = Some (j, employee) →
  run_request (create_dispensing_record autoflush uuid request) db
  = match
      dispensed_lines uuid (uuid 0) (DispensingRequest.branch_id request)
        (DispensingRequest.items request)
        (1%nat,
         insert_row db
           (DispensingRecordRow
              (DBDispensingRecord.Row (uuid 0)
                 (DispensingRequest.patient_id request) (full_name patient)
                 (DispensingRequest.employee_id request)
                 (full_name employee)
                 (DispensingRequest.branch_id request))))
    with
    | inr (_, db') => (Returned "Dispensing record created successfully", db')
    | inl name =>
        (Raised (HTTPException 400 (StrOf (insufficient_for name))), db)
    end.
Proof.
  intros Hpatient Hemployee.
  unfold create_dispensing_record, run_request, try_except.
  unfold bind at 1.
  rewrite query_first_eq, seen_begin, autoflushed_begin, Hpatient.
  unfold bind at 1.
  rewrite query_first_eq, seen_begin, autoflushed_begin, Hemployee.
  unfold bind at 1, uuid4 at 1, bind at 1, add at 1, begin. session_simpl.
  cbn [app]. unfold bind at 1.
  set (s0 := mkSession db db _ 1).
  assert (Hloaded : stock_loaded s0) by (by intros k).
  pose proof (dispense_lines_run (uuid 0)
                (DispensingRequest.branch_id request)
                (DispensingRequest.items request) s0 Hloaded) as Hloop.
  change (draws s0) with 1%nat in Hloop.
  change (observe s0)
    with (insert_row db
            (DispensingRecordRow
               (DBDispensingRecord.Row (uuid 0)
                  (DispensingRequest.patient_id request) (full_name patient)
                  (DispensingRequest.employee_id request)
                  (full_name employee)
                  (DispensingRequest.branch_id request)))) in Hloop.
  destruct (dispensed_lines _ _ _ _ _) as [name|[n' d']].
  - destruct Hloop as (s' & -> & Hstored). simpl. by rewrite Hstored.
  - destruct Hloop as (outs & s' & -> & Hobs).
    unfold bind, commit, ret. session_simpl. by rewrite <- Hobs.
Qed.

(** C8, as the handler has it.  A request whose patient or employee is
    unknown fails and stores nothing.  A request whose patient and employee
    exist stores the dispensing record and then what its lines make of the
    database, taken in order: a line whose type is that of one of the two
    stock tables takes its quantity from the branch row with the line's
    identifier and records a dispensing item, a line of any other type is
    passed over; and at the first line whose branch row is missing or holds
    less than asked the request fails with status 400, for insufficient
    quantity.  A request that fails, for whatever reason, fails with
    status 400 and leaves the stored database as it was. *)
Theorem dispensing_request_effect request db :
  (list_find (λ p, Person.id p = DispensingRequest.patient_id request)
     (patients db) = None
   ∨ list_find (λ p, Person.id p = DispensingRequest.employee_id request)
       (employees db) = None →
   ∃ e,
     run_request (create_dispensing_record autoflush uuid request) db
     = (Raised e, db)) ∧
  (∀ i patient j employee,
     list_find (λ p, Person.id p = DispensingRequest.patient_id request)
       (patients db) = Some (i, patient) →
     list_find (λ p, Person.id p = DispensingRequest.employee_id request)
       (employees db) = Some (j, employee) →
     run_request (create_dispensing_record autoflush uuid request) db
     = match
         dispensed_lines uuid (uuid 0) (DispensingRequest.branch_id request)
           (DispensingRequest.items request)
           (1%nat,
            insert_row db
              (DispensingRecordRow
                 (DBDispensingRecord.Row (uuid 0)
                    (DispensingRequest.patient_id request)
                    (full_name patient)
                    (DispensingRequest.employee_id request)
                    (full_name employee)
                    (DispensingRequest.branch_id request))))
       with
       | inr (_, db') =>
           (Returned "Dispensing record created successfully", db')
       | inl name =>
           (Raised (HTTPException 400 (StrOf (insufficient_for name))), db)
       end) ∧
  (∀ e db',
     run_request (create_dispensing_record autoflush uuid request) db
     = (Raised e, db') →
     db' = db ∧ ∃ cause, e = HTTPException 400 (StrOf cause)).
Proof.
  split; [|split].
  - intros Hmissing. eexists. by apply create_dispensing_record_missing.
  - intros i patient j employee. apply create_dispensing_record_run.
  - intros e db' Hrun. split.
    + by eapply create_dispensing_record_atomic.
    + revert Hrun. unfold create_dispensing_record, run_request, try_except.
      destruct (bind _ _ (begin db)) as [[a|cause] s]; simpl.
      * by intros [=].
      * intros [= <- _]. eauto.
Qed.

(** C10: a line whose type is neither "medicine" nor "medical_device" does
    nothing: its step returns at once in the same session, the request
    with the line gives what the request without it gives, and a request
    made of such a line alone succeeds, storing the dispensing record and
    nothing else. *)
Theorem dispense_line_of_unknown_type_skipped
    patient_id employee_id branch_id pre item post db :
  DispensingLine.type item ≠ "medicine" →
  DispensingLine.type item ≠ "medical_device" →
  (∀ record_id s,
     dispense_line autoflush uuid record_id branch_id item s
     = (Returned (), s)) ∧
  run_request
    (create_dispensing_record autoflush uuid
       (DispensingRequest.Make patient_id employee_id branch_id
          (pre ++ item :: post))) db
  = run_request
      (create_dispensing_record autoflush uuid
         (DispensingRequest.Make patient_id employee_id branch_id
            (pre ++ post))) db ∧
  (∀ i patient j employee,
     list_find (λ p, Person.id p = patient_id) (patients db)
     = Some (i, patient) →
     list_find (λ p, Person.id p = employee_id) (employees db)
     = Some (j, employee) →
     run_request
       (create_dispensing_record autoflush uuid
          (DispensingRequest.Make patient_id employee_id branch_id [item]))
       db
     = (Returned "Dispensing record created successfully",
        insert_row db
          (DispensingRecordRow
             (DBDispensingRecord.Row (uuid 0) patient_id
                (full_name patient) employee_id (full_name employee)
                branch_id)))).
Proof.
  intros Hm Hd.
  assert (Hskip : ∀ record_id s,
            dispense_line autoflush uuid record_id branch_id item s
            = (Returned (), s))
    by (intros; by apply dispense_line_unknown).
  split; [exact Hskip|]. split.
  - unfold create_dispensing_record.
    cbn [DispensingRequest.patient_id DispensingRequest.employee_id
         DispensingRequest.branch_id DispensingRequest.items].
    apply run_try_ext.
    apply bind_ext. intros patient s1.
    apply bind_ext. intros employee s2.
    destruct patient as [[i patient]|]; [|done].
    destruct employee as [[j employee]|]; [|done].
    apply bind_ext. intros record_id s3.
    apply bind_ext. intros [] s4.
    by apply for_each_skip.
  - intros i patient j employee Hpatient Hemployee.
    unfold create_dispensing_record, run_request, try_except.
    cbn [DispensingRequest.patient_id DispensingRequest.employee_id
         DispensingRequest.branch_id DispensingRequest.items].
    unfold bind at 1.
    rewrite query_first_eq, seen_begin, autoflushed_begin, Hpatient.
    unfold bind at 1.
    rewrite query_first_eq, seen_begin, autoflushed_begin, Hemployee.
    unfold bind at 1, uuid4 at 1, bind at 1, add at 1. session_simpl.
    unfold bind at 1. simpl for_each. unfold bind at 1.
    rewrite Hskip. reflexivity.
Qed.

End Dispensing.


(** ** The handlers on the sample data *)

Section Runs.
Import Sample.

(** C1, on two pending shipments of five MedB with five in the warehouse:
    the first acceptance empties the warehouse row, and the second one is
    not refused for lack of stock: it returns, marks its shipment accepted
    and leaves the warehouse row at minus five.  Nothing in
    [accept_shipment] compares the warehouse quantity with the item. *)
Theorem second_acceptance_goes_through autoflush :
  ∃ first d1 second d2,
    warehouse_quantity Medicine "med-b" (two_pending autoflush) = Some 5 ∧
    run_request (accept_shipment autoflush (uuid "a1") "s1-0" 100)
      (two_pending autoflush)
    = (Returned first, d1) ∧
    warehouse_quantity Medicine "med-b" d1 = Some 0 ∧
    shipment_status "s2-0" d1 = Some "pending" ∧
    run_request (accept_shipment autoflush (uuid "a2") "s2-0" 101) d1
    = (Returned second, d2) ∧
    shipment_status "s2-0" d2 = Some "accepted" ∧
    warehouse_quantity Medicine "med-b" d2 = Some (-5).
Proof. destruct autoflush; by eexists _, _, _, _; vm_compute. Qed.

(** C2, on a shipment of five MedB requested while the warehouse held five,
    three of which were transferred before the acceptance: every quantity is
    non-negative before the acceptance, the acceptance commits, and the
    warehouse row of MedB then holds minus three. *)
Theorem acceptance_commits_negative_quantity autoflush :
  ∃ response d,
    Forall (λ m, (0 ≤ Stock.quantity m)%Z)
      (medicines (pending_then_transferred autoflush)) ∧
    Forall (λ m, (0 ≤ Stock.quantity m)%Z)
      (medical_devices (pending_then_transferred autoflush)) ∧
    run_request (accept_shipment autoflush (uuid "a1") "s1-0" 100)
      (pending_then_transferred autoflush)
    = (Returned response, d) ∧
    Exists (λ m, (Stock.quantity m < 0)%Z) (medicines d) ∧
    warehouse_quantity Medicine "med-b" d = Some (-3).
Proof.
  destruct autoflush; eexists _, _; vm_compute;
    (split; [repeat constructor; discriminate|]);
    (split; [repeat constructor; discriminate|]);
    (split; [reflexivity|]);
    (split; [|reflexivity]);
    apply Exists_cons_tl, Exists_cons_hd; reflexivity.
Qed.

(** C3, on a pending shipment of five Gauze with three in the warehouse: the
    acceptance takes exactly five from the warehouse row and gives exactly
    five to the branch, so the total is kept, but the warehouse row ends
    below zero, at minus two. *)
Theorem acceptance_moves_below_zero autoflush :
  ∃ response d,
    run_request (accept_shipment autoflush (uuid "a3") "s3" 100)
      five_Gauze_pending
    = (Returned response, d) ∧
    warehouse_quantity MedicalDevice "dev-g" five_Gauze_pending = Some 3 ∧
    warehouse_quantity MedicalDevice "dev-g" d = Some (3 - 5) ∧
    branch_quantity MedicalDevice "Gauze" "branch-2" five_Gauze_pending = 0 ∧
    branch_quantity MedicalDevice "Gauze" "branch-2" d = 0 + 5 ∧
    total_quantity MedicalDevice "Gauze" d
    = total_quantity MedicalDevice "Gauze" five_Gauze_pending ∧
    Exists (λ m, (Stock.quantity m < 0)%Z) (medical_devices d).
Proof.
  destruct autoflush; eexists _, _; vm_compute;
    repeat (split; [reflexivity|]); apply Exists_cons_hd; reflexivity.
Qed.

(** C4, on a shipment that has been accepted: accepting it again is refused
    with status 409 and changes nothing, but rejecting it is not refused: the
    call returns and the accepted shipment becomes rejected, with the stock
    it moved left where it is. *)
Theorem rejection_after_acceptance_goes_through autoflush :
  ∃ first d1 d2,
    run_request (accept_shipment autoflush (uuid "a1") "s1-0" 100)
      (two_pending autoflush)
    = (Returned first, d1) ∧
    shipment_status "s1-0" d1 = Some "accepted" ∧
    run_request (accept_shipment autoflush (uuid "a5") "s1-0" 102) d1
    = (Raised (HTTPException 409 (Message "Already processed")), d1) ∧
    run_request (reject_shipment autoflush "s1-0" (Some "late")) d1
    = (Returned "Shipment rejected", d2) ∧
    shipment_status "s1-0" d2 = Some "rejected" ∧
    medicines d2 = medicines d1 ∧
    warehouse_quantity Medicine "med-b" d2 = Some 0.
Proof. destruct autoflush; by eexists _, _, _; vm_compute. Qed.

(** A batch that transfers four, six and then one more MedA out of ten. *)
Lemma create_transfers_rolls_back_witness :
  short_of 1
    (warehouse_quantity Medicine "med-a"
       (seen true
          (for_each (transfer_entry true (uuid "t"))
             [MedA_to_branch1 4; MedA_to_branch1 6] (begin warehouse)).2)) ∧
  run_request
    (create_transfers true (uuid "t")
       ([MedA_to_branch1 4; MedA_to_branch1 6] ++ MedA_to_branch1 1 :: []))
    warehouse
  = (Raised
       (HTTPException 400
          (StrOf (not_enough "MedA"))),
     warehouse).
Proof.
  split; [by vm_compute|].
  eapply (create_transfers_rolls_back true (uuid "t")
            [MedA_to_branch1 4; MedA_to_branch1 6] (MedA_to_branch1 1) []
            warehouse).
  - vm_compute. reflexivity.
  - by vm_compute.
Defined.

(** C8 as stated, refuted: the handler is given a line for an item that
    branch 1 does not hold in either table, and the request succeeds; the
    line has a type other than the two the handler knows. *)
Lemma dispensing_absent_item_counterexample :
  (∀ k, list_find (in_branch "vit-1" "branch-1") (stock k Sample.warehouse)
        = None) ∧
  ∃ d,
    run_request
      (create_dispensing_record true (uuid "d1")
         (DispensingRequest.Make "pat-1" "emp-1" "branch-1" [vitamin_line]))
      warehouse
    = (Returned "Dispensing record created successfully", d) ∧
    ¬ is_raised
        (run_request
           (create_dispensing_record true (uuid "d1")
              (DispensingRequest.Make "pat-1" "emp-1" "branch-1"
                 [vitamin_line]))
           warehouse).1 ∧
    dispensing_items d = [] ∧
    medicines d = medicines warehouse ∧
    medical_devices d = medical_devices warehouse.
Proof.
  split; [by intros []|]. eexists. split; [by vm_compute|].
  split; [|done]. vm_compute. tauto.
Qed.

(** A request for a patient that does not exist; a request whose second
    line asks for more MedC than branch 1 has left; a request that
    succeeds. *)
Lemma dispensing_request_effect_witness :
  (∃ e,
     run_request
       (create_dispensing_record true (uuid "d1")
          (DispensingRequest.Make "pat-9" "emp-1" "branch-1" [MedC_line 1]))
       warehouse
     = (Raised e, warehouse)) ∧
  run_request
    (create_dispensing_record true (uuid "d1")
       (DispensingRequest.Make "pat-1" "emp-1" "branch-1"
          [MedC_line 1; MedC_line 4; MedC_line 2]))
    warehouse
  = (Raised (HTTPException 400 (StrOf (insufficient_for "MedC"))),
     warehouse) ∧
  ∃ db',
    run_request
      (create_dispensing_record true (uuid "d1")
         (DispensingRequest.Make "pat-1" "emp-1" "branch-1"
            [MedC_line 2; vitamin_line]))
      warehouse
    = (Returned "Dispensing record created successfully", db') ∧
    medicines db' = [MedA; MedB; Stock.with_quantity 1 MedC_at_branch1] ∧
    dispensing_items db'
    = [DBDispensingItem.Row "d1-1" "d1-0" "medicine" "med-c" "MedC" 2].
Proof.
  split; [|split].
  - apply (proj1 (dispensing_request_effect true (uuid "d1")
                    (DispensingRequest.Make "pat-9" "emp-1" "branch-1"
                       [MedC_line 1])
                    warehouse)).
    by left.
  - rewrite (proj1 (proj2 (dispensing_request_effect true (uuid "d1")
                             (DispensingRequest.Make "pat-1" "emp-1"
                                "branch-1"
                                [MedC_line 1; MedC_line 4; MedC_line 2])
                             warehouse))
               0%nat (Person.Row "pat-1" "Ann" "Lee")
               0%nat (Person.Row "emp-1" "Bob" "Ray") eq_refl eq_refl).
    by vm_compute.
  - eexists. split.
    + rewrite (proj1 (proj2 (dispensing_request_effect true (uuid "d1")
                               (DispensingRequest.Make "pat-1" "emp-1"
                                  "branch-1" [MedC_line 2; vitamin_line])
                               warehouse))
                 0%nat (Person.Row "pat-1" "Ann" "Lee")
                 0%nat (Person.Row "emp-1" "Bob" "Ray") eq_refl eq_refl).
      vm_compute. reflexivity.
    + by vm_compute.
Defined.

(** A request with a vitamin line before a line for MedC. *)
Lemma dispense_line_of_unknown_type_skipped_witness :
  DispensingLine.type vitamin_line ≠ "medicine" ∧
  DispensingLine.type vitamin_line ≠ "medical_device" ∧
  run_request
    (create_dispensing_record false (uuid "d1")
       (DispensingRequest.Make "pat-1" "emp-1" "branch-1"
          ([] ++ vitamin_line :: [MedC_line 1])))
    warehouse
  = run_request
      (create_dispensing_record false (uuid "d1")
         (DispensingRequest.Make "pat-1" "emp-1" "branch-1"
            ([] ++ [MedC_line 1])))
      warehouse.
Proof.
  split; [discriminate|]. split; [discriminate|].
  apply (dispense_line_of_unknown_type_skipped false (uuid "d1")
           "pat-1" "emp-1" "branch-1" [] vitamin_line [MedC_line 1] warehouse);
    discriminate.
Defined.

End Runs.

(** * Further properties *)

(** ** Lists of stock rows *)

(** An update that keeps what a filter looks at leaves the first match of
    the filter where it is. *)
Lemma list_find_alter {A} (P : A → Prop) `{∀ x, Decision (P x)}
    (f : A → A) i l :
  (∀ x, P (f x) ↔ P x) →
  list_find P (alter f i l)
  = (λ jx, (jx.1, if decide (jx.1 = i) then f jx.2 else jx.2))
      <$> list_find P l.
Proof.
  intros Hf. revert i. induction l as [|y l IH]; intros [|i]; simpl; try done.
  - pose proof (Hf y). destruct (decide (P (f y))), (decide (P y));
      try tauto; simpl; try done.
    by destruct (list_find P l) as [[j x]|].
  - case_decide; [done|].
    change (list_alter f i l) with (alter f i l). rewrite IH.
    destruct (list_find P l) as [[j x]|]; simpl; [|done].
    do 2 f_equal. repeat case_decide; done || lia.
Qed.

Lemma sum_quantity_app (l1 l2 : list Stock.item) :
  foldr Z.add 0 (Stock.quantity <$> l1 ++ l2)
  = foldr Z.add 0 (Stock.quantity <$> l1)
    + foldr Z.add 0 (Stock.quantity <$> l2).
Proof. induction l1 as [|x l1 IH]; csimpl; rewrite ?IH; lia. Qed.

(** Changing one row changes the sum over the rows a filter keeps by the
    change of that row, if the filter keeps it. *)
Lemma sum_quantity_filter_alter (P : Stock.item → Prop)
    `{∀ x, Decision (P x)} (f : Stock.item → Stock.item) i l x :
  (∀ y, P (f y) ↔ P y) →
  l !! i = Some x →
  foldr Z.add 0 (Stock.quantity <$> filter P (alter f i l))
  = foldr Z.add 0 (Stock.quantity <$> filter P l)
    + (if decide (P x) then Stock.quantity (f x) - Stock.quantity x else 0).
Proof.
  intros Hf. revert i. induction l as [|y l IH]; intros [|i] Hl;
    simplify_eq/=.
  - rewrite !filter_cons. pose proof (Hf x).
    repeat case_decide; try tauto; simpl; lia.
  - change (list_alter f i l) with (alter f i l).
    rewrite !filter_cons. specialize (IH i Hl).
    destruct (decide (P y)); csimpl; rewrite IH; lia.
Qed.

Lemma sum_quantity_alter (f : Stock.item → Stock.item) i l x :
  l !! i = Some x →
  foldr Z.add 0 (Stock.quantity <$> alter f i l)
  = foldr Z.add 0 (Stock.quantity <$> l)
    + (Stock.quantity (f x) - Stock.quantity x).
Proof.
  revert i. induction l as [|y l IH]; intros [|i] Hl; simplify_eq/=.
  - lia.
  - change (list_alter f i l) with (alter f i l). rewrite (IH i Hl). lia.
Qed.

(** ** Tables and the rows added to them *)

Lemma transfers_insert_row_transfer d r :
  transfers (insert_row d (TransferRow r)) = transfers d ++ [r].
Proof. reflexivity. Qed.

Lemma transfers_insert_row_stock d k m :
  transfers (insert_row d (StockRow k m)) = transfers d.
Proof. by destruct k. Qed.

Lemma transfers_set_stock k rows d :
  transfers (set_stock k rows d) = transfers d.
Proof. by destruct k. Qed.

(** A loop whose iterations each keep a relation between what would be
    stored before and after keeps it as a whole. *)
Lemma for_each_related {A B} (body : A → M B) (Q : A → Prop)
    (R : DB → DB → Prop) xs :
  (∀ d, R d d) →
  (∀ a b c, R a b → R b c → R a c) →
  (∀ x s y s', Q x → body x s = (Returned y, s') →
     R (observe s) (observe s')) →
  Forall Q xs →
  ∀ s ys s', for_each body xs s = (Returned ys, s') →
    R (observe s) (observe s').
Proof.
  intros Hrefl Htrans Hstep. induction 1 as [|x xs Hx Hxs IH];
    intros s ys s'; simpl.
  - unfold ret. intros [= _ <-]. apply Hrefl.
  - unfold bind, ret. destruct (body x s) as [[y|e] s1] eqn:Hbody; [|done].
    destruct (for_each body xs s1) as [[zs|e] s2] eqn:Hloop; [|done].
    intros [= _ <-]. eapply Htrans; eauto.
Qed.

Lemma seen_lookup_observe autoflush k s i m :
  stock k (seen autoflush s) !! i = Some m →
  stock k (observe s) !! i = Some m.
Proof.
  intros Hl. destruct (stock_observe_seen autoflush k s) as [rest ->].
  by apply lookup_app_l_Some.
Qed.

Lemma found_seen_observe autoflush k (P : Stock.item → Prop)
    `{∀ x, Decision (P x)} s i m :
  list_find P (stock k (seen autoflush s)) = Some (i, m) →
  stock k (observe s) !! i = Some m ∧ P m.
Proof.
  intros (Hl & HP & _)%list_find_Some. split; [|done].
  by eapply seen_lookup_observe.
Qed.

Lemma filter_all {A} (l : list A) : filter (λ _, True) l = l.
Proof.
  induction l as [|x l IH]; [done|]. rewrite filter_cons. simpl.
  by rewrite IH.
Qed.

(** A listing returns the rows its filter keeps and stores nothing. *)
Lemma run_query_all autoflush {A} (table : DB → list A) (P : A → Prop)
    `{∀ x, Decision (P x)} d :
  run_request (query_all autoflush table P) d
  = (Returned (filter P (table d)), d).
Proof.
  unfold run_request, query_all. rewrite autoflushed_begin. reflexivity.
Qed.

(** ** Transfers, when they succeed *)

Section TransferResults.
Variable autoflush : bool.
Variable uuid : nat → string.

(** What an entry that goes through has done. *)
Lemma transfer_entry_facts t s u s' :
  transfer_entry autoflush uuid t s = (Returned u, s') →
  ∃ i m r,
    list_find (in_warehouse (TransferCreate.medicine_id t))
      (stock Medicine (seen autoflush s)) = Some (i, m) ∧
    (TransferCreate.quantity t ≤ Stock.quantity m)%Z ∧
    records_transfer t r ∧
    transfers (observe s') = transfers (observe s) ++ [r] ∧
    stock MedicalDevice (observe s') = stock MedicalDevice (observe s) ∧
    stock Medicine (observe s')
    = match fst <$> list_find
                      (named_in_branch (TransferCreate.medicine_name t)
                         (TransferCreate.to_branch_id t))
                      (stock Medicine (seen autoflush s)) with
      | Some j =>
          alter (give (TransferCreate.quantity t)) j
            (alter (take (TransferCreate.quantity t)) i
               (stock Medicine (observe s)))
      | None =>
          alter (take (TransferCreate.quantity t)) i
            (stock Medicine (observe s))
          ++ [Stock.Item (uuid (draws s)) (TransferCreate.medicine_name t)
                (Stock.category_id m) (Stock.purchase_price m)
                (Stock.sell_price m) (TransferCreate.quantity t)
                (Some (TransferCreate.to_branch_id t))]
      end.
Proof.
  intros Hrun.
  destruct (list_find (in_warehouse (TransferCreate.medicine_id t))
              (stock Medicine (seen autoflush s))) as [[i m]|] eqn:Hmain.
  2:{ rewrite (transfer_entry_short autoflush uuid t s) in Hrun; [done|].
      unfold warehouse_quantity. by rewrite Hmain. }
  destruct (decide (Stock.quantity m < TransferCreate.quantity t)) as [Hlt|Hge].
  { rewrite (transfer_entry_short autoflush uuid t s) in Hrun; [done|].
    unfold warehouse_quantity. by rewrite Hmain. }
  destruct (transfer_entry_effect autoflush uuid t s i m Hmain)
    as (s'' & Hrun' & Hobs); [lia|].
  rewrite Hrun in Hrun'. destruct u. injection Hrun' as <-.
  cbv zeta in Hobs.
  destruct (fst <$> list_find _ _) as [j|] eqn:Hbranch.
  - eexists i, m, (DBTransfer.Row _ _ _ _ _ _).
    split; [done|]. split; [lia|]. split; [by repeat split|].
    rewrite Hobs. split; [|split].
    + by rewrite transfers_insert_row_transfer, transfers_set_stock.
    + rewrite stock_insert_row. simpl. by rewrite app_nil_r.
    + rewrite stock_insert_row, stock_set_stock. simpl. apply app_nil_r.
  - eexists i, m, (DBTransfer.Row _ _ _ _ _ _).
    split; [done|]. split; [lia|]. split; [by repeat split|].
    rewrite Hobs. split; [|split].
    + by rewrite transfers_insert_row_transfer, transfers_insert_row_stock,
        transfers_set_stock.
    + rewrite !stock_insert_row. simpl. by rewrite !app_nil_r.
    + rewrite !stock_insert_row, stock_set_stock. simpl. apply app_nil_r.
Qed.

(** A committed batch has stored what its loop produced. *)
Lemma create_transfers_committed batch db msg db' :
  run_request (create_transfers autoflush uuid batch) db
  = (Returned msg, db') →
  ∃ outs s',
    for_each (transfer_entry autoflush uuid) batch (begin db)
    = (Returned outs, s') ∧
    db' = observe s'.
Proof.
  unfold create_transfers.
  destruct (for_each (transfer_entry autoflush uuid) batch (begin db))
    as [[outs|cause] s] eqn:Hloop.
  - erewrite run_committed by done. intros [= _ <-]. eauto.
  - erewrite run_aborted; [done|..|done].
    apply keeps_stored_for_each, keeps_stored_transfer_entry.
Qed.

End TransferResults.

Section TransferTheorems.
Variable autoflush : bool.
Variable uuid : nat → string.

Lemma transfer_entry_total_kept t s u s' :
  transfer_entry autoflush uuid t s = (Returned u, s') →
  stock_total Medicine (observe s') = stock_total Medicine (observe s) ∧
  stock MedicalDevice (observe s') = stock MedicalDevice (observe s).
Proof.
  intros (i & m & r & Hmain & Hq & _ & _ & Hdev & Hmed)%transfer_entry_facts.
  split; [|done]. unfold stock_total. rewrite Hmed.
  apply found_seen_observe in Hmain as [Hi _].
  destruct (list_find (named_in_branch _ _) _) as [[j b]|] eqn:Hbranch; simpl.
  - apply found_seen_observe in Hbranch as [Hj _].
    destruct (lookup_lt_is_Some_2
                (alter (take (TransferCreate.quantity t)) i
                   (stock Medicine (observe s))) j) as [y Hy].
    { rewrite length_alter. by eapply lookup_lt_Some. }
    rewrite (sum_quantity_alter _ _ _ _ Hy), (sum_quantity_alter _ _ _ _ Hi).
    simpl. lia.
  - rewrite sum_quantity_app, (sum_quantity_alter _ _ _ _ Hi). simpl. lia.
Qed.

(** X1: a batch of transfers that commits moves stock and neither makes nor
    loses any: the sum of the quantities of the medicines table, over the
    warehouse and all branches, is what it was, and the devices table is
    untouched. *)
Theorem create_transfers_keeps_total batch db msg db' :
  run_request (create_transfers autoflush uuid batch) db
  = (Returned msg, db') →
  stock_total Medicine db' = stock_total Medicine db ∧
  stock MedicalDevice db' = stock MedicalDevice db.
Proof.
  intros (outs & s' & Hloop & ->)%create_transfers_committed.
  refine (for_each_related (transfer_entry autoflush uuid) (λ _, True)
            (λ d d', stock_total Medicine d' = stock_total Medicine d ∧
                     stock MedicalDevice d' = stock MedicalDevice d)
            batch _ _ _ _ (begin db) outs s' Hloop).
  - done.
  - intros a b c [? ?] [? ?]. split; congruence.
  - intros t s u s1 _. apply transfer_entry_total_kept.
  - by apply Forall_forall.
Qed.

Lemma transfer_entry_nonnegative t s u s' :
  (0 ≤ TransferCreate.quantity t)%Z →
  transfer_entry autoflush uuid t s = (Returned u, s') →
  nonnegative (observe s) → nonnegative (observe s').
Proof.
  intros Hq0 (i & m & r & Hmain & Hq & _ & _ & Hdev & Hmed)%transfer_entry_facts
    Hnn k.
  destruct k; [|rewrite Hdev; apply (Hnn MedicalDevice)].
  rewrite Hmed.
  apply found_seen_observe in Hmain as [Hi _].
  assert (Htaken : Forall (λ m, (0 ≤ Stock.quantity m)%Z)
            (alter (take (TransferCreate.quantity t)) i
               (stock Medicine (observe s)))).
  { apply Forall_alter; [apply (Hnn Medicine)|].
    intros x Hx _. rewrite Hi in Hx. injection Hx as <-. simpl. lia. }
  destruct (fst <$> list_find _ _) as [j|].
  - apply Forall_alter; [done|]. intros x _ Hx. simpl. lia.
  - apply Forall_app. split; [done|]. by repeat constructor.
Qed.

(** X2: transfers keep stock non-negative: if no row holds a negative
    quantity and no entry of the batch asks for one, no row holds a negative
    quantity after the request, whether it committed or failed. *)
Theorem create_transfers_keeps_nonnegative batch db r db' :
  Forall (λ t, (0 ≤ TransferCreate.quantity t)%Z) batch →
  nonnegative db →
  run_request (create_transfers autoflush uuid batch) db = (r, db') →
  nonnegative db'.
Proof.
  intros Hbatch Hnn Hrun. destruct r as [msg|e].
  - apply create_transfers_committed in Hrun as (outs & s' & Hloop & ->).
    refine (for_each_related (transfer_entry autoflush uuid)
              (λ t, (0 ≤ TransferCreate.quantity t)%Z)
              (λ d d', nonnegative d → nonnegative d')
              batch _ _ _ Hbatch (begin db) outs s' Hloop Hnn).
    + done.
    + auto.
    + intros t s u s1. apply transfer_entry_nonnegative.
  - by apply create_transfers_atomic in Hrun as [-> _].
Qed.

Lemma transfer_loop_records batch s outs s' :
  for_each (transfer_entry autoflush uuid) batch s = (Returned outs, s') →
  ∃ new,
    Forall2 records_transfer batch new ∧
    transfers (observe s') = transfers (observe s) ++ new.
Proof.
  revert s outs s'. induction batch as [|t batch IH]; intros s outs s'; simpl.
  - unfold ret. intros [= _ <-]. exists []. by rewrite app_nil_r.
  - unfold bind, ret.
    destruct (transfer_entry autoflush uuid t s) as [[u|e] s1] eqn:Hstep;
      [|done].
    destruct (for_each _ batch s1) as [[zs|e] s2] eqn:Hloop; [|done].
    intros [= _ <-].
    apply transfer_entry_facts
      in Hstep as (i & m & r & _ & _ & Hr & Htr & _).
    destruct (IH _ _ _ Hloop) as (new & Hnew & Htr').
    exists (r :: new). split; [by constructor|].
    by rewrite Htr', Htr, <- app_assoc.
Qed.

(** X3: a batch of transfers that commits appends one transfer record per
    entry, in the order of the batch, each with the entry's medicine,
    quantity and destination and with "main" as origin when the entry names
    none; and the listing of transfers, for any branch parameter, then
    returns what it returned before followed by the new records it selects. *)
Theorem create_transfers_listed batch db msg db' :
  run_request (create_transfers autoflush uuid batch) db
  = (Returned msg, db') →
  ∃ new,
    Forall2 records_transfer batch new ∧
    transfers db' = transfers db ++ new ∧
    ∀ branch_id listed,
      run_request (get_transfers autoflush branch_id) db
      = (Returned listed, db) →
      run_request (get_transfers autoflush branch_id) db'
      = (Returned
           (listed
            ++ match asked_branch branch_id with
               | Some b => filter (λ r, DBTransfer.to_branch_id r = b) new
               | None => new
               end),
         db').
Proof.
  intros (outs & s' & Hloop & ->)%create_transfers_committed.
  destruct (transfer_loop_records batch _ _ _ Hloop) as (new & Hnew & Htr).
  exists new. split; [done|]. split; [done|].
  change (observe (begin db)) with db in Htr.
  intros branch_id listed. unfold get_transfers.
  destruct (asked_branch branch_id) as [b|]; rewrite !run_query_all;
    intros [= <-]; rewrite Htr, filter_app; [done|].
  by rewrite (filter_all new).
Qed.

End TransferTheorems.

Section TransferMoves.
Variable autoflush : bool.
Variable uuid : nat → string.

(** X4: a single transfer that commits takes exactly its quantity from the
    warehouse row of the medicine, which held at least that much, and adds
    exactly that quantity to what the destination branch holds under the
    entry's name. *)
Theorem create_transfers_single_moves t db msg db' :
  run_request (create_transfers autoflush uuid [t]) db = (Returned msg, db') →
  ∃ w,
    warehouse_quantity Medicine (TransferCreate.medicine_id t) db = Some w ∧
    (TransferCreate.quantity t ≤ w)%Z ∧
    warehouse_quantity Medicine (TransferCreate.medicine_id t) db'
    = Some (w - TransferCreate.quantity t) ∧
    branch_quantity Medicine (TransferCreate.medicine_name t)
      (TransferCreate.to_branch_id t) db'
    = branch_quantity Medicine (TransferCreate.medicine_name t)
        (TransferCreate.to_branch_id t) db
      + TransferCreate.quantity t.
Proof.
  intros (outs & s' & Hloop & ->)%create_transfers_committed.
  simpl in Hloop. unfold bind, ret in Hloop.
  destruct (transfer_entry autoflush uuid t (begin db)) as [[u|e] s1]
    eqn:Hstep; [|done].
  injection Hloop as _ <-.
  apply transfer_entry_facts in Hstep
    as (i & m & r & Hmain & Hq & _ & _ & _ & Hmed).
  rewrite seen_begin in Hmain, Hmed.
  change (observe (begin db)) with db in Hmed.
  exists (Stock.quantity m). unfold warehouse_quantity, branch_quantity.
  rewrite Hmain, Hmed. split; [done|]. split; [done|].
  simpl stock in *.
  pose proof Hmain as (Hi & [_ Hwarehouse] & _)%list_find_Some.
  set (q := TransferCreate.quantity t) in *.
  assert (Htake_find :
            list_find (in_warehouse (TransferCreate.medicine_id t))
              (alter (take q) i (medicines db)) = Some (i, take q m)).
  { rewrite list_find_alter by done. rewrite Hmain. simpl.
    by rewrite decide_True. }
  assert (Htake_sum :
            foldr Z.add 0
              (Stock.quantity
                 <$> filter (named_in_branch (TransferCreate.medicine_name t)
                               (TransferCreate.to_branch_id t))
                       (alter (take q) i (medicines db)))
            = foldr Z.add 0
                (Stock.quantity
                   <$> filter
                         (named_in_branch (TransferCreate.medicine_name t)
                            (TransferCreate.to_branch_id t))
                         (medicines db))).
  { rewrite (sum_quantity_filter_alter _ _ _ _ m) by done.
    rewrite decide_False; [lia|]. intros [_ Hb]. congruence. }
  destruct (list_find (named_in_branch _ _) _) as [[j b]|] eqn:Hbranch; simpl.
  - pose proof Hbranch as (Hj & [Hname Hb] & _)%list_find_Some.
    assert (i ≠ j) as Hij by (intros ->; congruence).
    split.
    + rewrite list_find_alter by done. rewrite Htake_find. simpl.
      by rewrite decide_False.
    + rewrite (sum_quantity_filter_alter _ _ _ _ b); [|done|].
      * rewrite decide_True by done. rewrite Htake_sum. simpl. lia.
      * by rewrite list_lookup_alter_ne.
  - split.
    + by rewrite (list_find_app_l _ _ _ _ _ Htake_find).
    + rewrite filter_app, sum_quantity_app, Htake_sum.
      rewrite filter_cons, decide_True by done. simpl. lia.
Qed.

End TransferMoves.

(** ** Acceptance, once and again *)

Lemma shipment_items_set_stock k rows d :
  shipment_items (set_stock k rows d) = shipment_items d.
Proof. by destruct k. Qed.

Lemma shipment_items_insert_row_stock d k m :
  shipment_items (insert_row d (StockRow k m)) = shipment_items d.
Proof. by destruct k. Qed.

Lemma find_shipment_altered (f : DBShipment.row → DBShipment.row) sid n sh l :
  (∀ x, DBShipment.id (f x) = DBShipment.id x) →
  list_find (λ s, DBShipment.id s = sid) l = Some (n, sh) →
  list_find (λ s, DBShipment.id s = sid) (alter f n l) = Some (n, f sh).
Proof.
  intros Hid Hfind. rewrite list_find_alter, Hfind; simpl.
  - by rewrite decide_True.
  - intros x. by rewrite Hid.
Qed.

Section AcceptanceAgain.
Variable autoflush : bool.
Variable uuid : nat → string.

(** The step of an item leaves the shipment items alone. *)
Lemma accept_item_keeps_items to item s out s' :
  accept_item autoflush uuid to item s = (Returned out, s') →
  shipment_items (observe s') = shipment_items (observe s).
Proof.
  intros Hrun.
  destruct (list_find (in_warehouse (DBShipmentItem.item_id item))
              (stock (shipped_kind item) (seen autoflush s)))
    as [[i m]|] eqn:Hmain.
  - destruct (accept_item_stocked autoflush uuid to item s i m Hmain)
      as (s'' & Hrun' & Hobs).
    rewrite Hrun in Hrun'. injection Hrun' as _ <-. cbv zeta in Hobs.
    rewrite Hobs. destruct (fst <$> list_find _ _).
    + apply shipment_items_set_stock.
    + by rewrite shipment_items_insert_row_stock, shipment_items_set_stock.
  - destruct (accept_item_unstocked autoflush uuid to item s Hmain)
      as (s'' & Hrun' & Hobs).
    rewrite Hrun in Hrun'. injection Hrun' as _ <-.
    rewrite Hobs. destruct (list_find (named_in_branch _ _) _) as [[j b]|].
    + apply shipment_items_set_stock.
    + apply shipment_items_insert_row_stock.
Qed.

(** X5: the ledger effects of a shipment are applied at most once through
    acceptance: once a pending shipment has been accepted, it is stored as
    accepted and every further call to accept it, at whatever time, is
    refused with status 409 and changes nothing. *)
Theorem accept_shipment_only_once db sid now n sh :
  list_find (λ s, DBShipment.id s = sid) (shipments db) = Some (n, sh) →
  DBShipment.status sh = "pending" →
  ∃ response db',
    run_request (accept_shipment autoflush uuid sid now) db
    = (Returned response, db') ∧
    shipment_status sid db' = Some "accepted" ∧
    ∀ uuid' later,
      run_request (accept_shipment autoflush uuid' sid later) db'
      = (Raised (HTTPException 409 (Message "Already processed")), db').
Proof.
  intros Hfind Hpending.
  destruct (accept_shipment_pending autoflush uuid db sid now n sh Hfind
              Hpending) as (outs & s' & _ & Hrun).
  eexists _, _. split; [exact Hrun|].
  set (db' := set_shipments _ _).
  assert (Hfind' : list_find (λ s, DBShipment.id s = sid) (shipments db')
                   = Some (n, DBShipment.accept now sh)).
  { unfold db'. assert (∀ l d, shipments (set_shipments l d) = l) as ->
      by (by intros l []).
    by apply find_shipment_altered. }
  split.
  - unfold shipment_status. by rewrite Hfind'.
  - intros uuid' later.
    by apply (accept_shipment_processed autoflush uuid' db' sid later n
                (DBShipment.accept now sh)).
Qed.

(** The status override writes the status it is given, whatever the
    shipment's status, and nothing else. *)
Lemma update_shipment_status_any db sid status n sh :
  list_find (λ s, DBShipment.id s = sid) (shipments db) = Some (n, sh) →
  run_request (update_shipment_status autoflush sid (Some status)) db
  = (Returned "Shipment status updated",
     set_shipments (alter (set_status status) n (shipments db)) db).
Proof.
  intros Hfind. unfold update_shipment_status, run_request, bind at 1.
  rewrite query_first_eq, seen_begin, Hfind, autoflushed_begin.
  reflexivity.
Qed.

(** X6: the status override re-opens a shipment.  After a pending shipment
    has been accepted, setting its status back to "pending" succeeds and
    touches no stock row and no shipment item; the shipment can then be
    accepted again, and that second acceptance runs the step of every item
    of the shipment once more, on the stock the first one left. *)
Theorem status_override_reopens db sid now later n sh :
  list_find (λ s, DBShipment.id s = sid) (shipments db) = Some (n, sh) →
  DBShipment.status sh = "pending" →
  ∃ response1 db1 db2 response2 outs s2,
    run_request (accept_shipment autoflush uuid sid now) db
    = (Returned response1, db1) ∧
    run_request (update_shipment_status autoflush sid (Some "pending")) db1
    = (Returned "Shipment status updated", db2) ∧
    (∀ k, stock k db2 = stock k db1) ∧
    shipment_items db2 = shipment_items db ∧
    for_each (accept_item autoflush uuid (DBShipment.to_branch_id sh))
      (filter (λ it, DBShipmentItem.shipment_id it = sid) (shipment_items db))
      (begin db2)
    = (Returned outs, s2) ∧
    run_request (accept_shipment autoflush uuid sid later) db2
    = (Returned response2,
       set_shipments (alter (DBShipment.accept later) n (shipments db2))
         (observe s2)).
Proof.
  intros Hfind Hpending.
  destruct (accept_shipment_pending autoflush uuid db sid now n sh Hfind
              Hpending) as (outs1 & s1 & Hloop1 & Hrun1).
  set (db1 := set_shipments _ (observe s1)) in Hrun1.
  assert (Hship : ∀ l d, shipments (set_shipments l d) = l)
    by (by intros l []).
  assert (Hfind1 : list_find (λ s, DBShipment.id s = sid) (shipments db1)
                   = Some (n, DBShipment.accept now sh)).
  { unfold db1. rewrite Hship. by apply find_shipment_altered. }
  pose proof (update_shipment_status_any db1 sid "pending" n _ Hfind1)
    as Hrun2.
  set (db2 := set_shipments _ db1) in Hrun2.
  assert (Hfind2 : list_find (λ s, DBShipment.id s = sid) (shipments db2)
                   = Some (n, set_status "pending"
                                (DBShipment.accept now sh))).
  { unfold db2. rewrite Hship. by apply find_shipment_altered. }
  assert (Hitems : shipment_items db2 = shipment_items db).
  { assert (shipment_items (observe s1) = shipment_items (observe (begin db)))
      as Hkeep.
    { refine (for_each_related _ (λ _, True)
                (λ d d', shipment_items d' = shipment_items d)
                _ _ _ _ _ (begin db) outs1 s1 Hloop1).
      - done.
      - intros a b c ? ?. congruence.
      - intros item s out s' _. apply accept_item_keeps_items.
      - by apply Forall_forall. }
    exact Hkeep. }
  destruct (accept_shipment_pending autoflush uuid db2 sid later n _ Hfind2
              eq_refl) as (outs2 & s2 & Hloop2 & Hrun3).
  rewrite Hitems in Hloop2. simpl DBShipment.to_branch_id in Hloop2.
  eexists _, db1, db2, _, outs2, s2.
  split; [exact Hrun1|]. split; [exact Hrun2|].
  split; [by intros []|]. split; [exact Hitems|].
  split; [exact Hloop2|]. exact Hrun3.
Qed.

End AcceptanceAgain.

(** ** Dispensing, when it succeeds *)

Lemma same_but_quantity_refl touched l : same_but_quantity touched l l.
Proof. unfold same_but_quantity. induction l; constructor; auto. Qed.

Lemma same_but_quantity_trans (touched : Stock.item → Prop) l1 l2 l3 :
  (∀ q m, touched m → touched (Stock.with_quantity q m)) →
  same_but_quantity touched l1 l2 →
  same_but_quantity touched l2 l3 →
  same_but_quantity touched l1 l3.
Proof.
  intros Hkeep H12. revert l3. unfold same_but_quantity in *.
  induction H12 as [|x y l1 l2 Hxy H12 IH]; intros l3 H23; inv H23;
    constructor; [|by apply IH].
  destruct Hxy as [[Hx [q ->]]| ->]; [|done].
  match goal with H : _ ∨ _ |- _ => destruct H as [[_ [q' ->]]| ->] end.
  - left. split; [done|]. by exists q'.
  - left. split; [done|]. by exists q.
Qed.

Lemma same_but_quantity_alter (touched : Stock.item → Prop) l i m q :
  l !! i = Some m → touched m →
  same_but_quantity touched l (alter (take q) i l).
Proof.
  unfold same_but_quantity. revert i.
  induction l as [|x l IH]; intros [|i] Hl Hm; simplify_eq/=.
  - constructor; [|apply same_but_quantity_refl].
    left. split; [done|]. by eexists.
  - constructor; [by right|]. by eapply IH.
Qed.

Lemma dispensed_cons k item items :
  dispensed k (item :: items)
  = (if decide (DispensingLine.type item = item_type k)
     then DispensingLine.quantity item else 0)
    + dispensed k items.
Proof.
  unfold dispensed. rewrite filter_cons. by case_decide.
Qed.

Section DispensingResults.
Variable autoflush : bool.
Variable uuid : nat → string.

(** What a line that goes through has done. *)
Lemma dispense_line_facts record_id branch_id item s u s' :
  dispense_line autoflush uuid record_id branch_id item s = (Returned u, s') →
  (DispensingLine.type item ≠ "medicine" ∧
   DispensingLine.type item ≠ "medical_device" ∧ s' = s)
  ∨ ∃ k i m,
      DispensingLine.type item = item_type k ∧
      stock k (observe s) !! i = Some m ∧
      Stock.branch_id m = Some branch_id ∧
      (DispensingLine.quantity item ≤ Stock.quantity m)%Z ∧
      observe s'
      = insert_row
          (set_stock k
             (alter (take (DispensingLine.quantity item)) i
                (stock k (observe s)))
             (observe s))
          (DispensingItemRow
             (DBDispensingItem.Row (uuid (draws s)) record_id (item_type k)
                (DispensingLine.id item) (DispensingLine.name item)
                (DispensingLine.quantity item))).
Proof.
  intros Hrun.
  assert (Hknown : ∀ k, DispensingLine.type item = item_type k →
            ∃ i m,
              stock k (observe s) !! i = Some m ∧
              Stock.branch_id m = Some branch_id ∧
              (DispensingLine.quantity item ≤ Stock.quantity m)%Z ∧
              observe s'
              = insert_row
                  (set_stock k
                     (alter (take (DispensingLine.quantity item)) i
                        (stock k (observe s)))
                     (observe s))
                  (DispensingItemRow
                     (DBDispensingItem.Row (uuid (draws s)) record_id
                        (item_type k) (DispensingLine.id item)
                        (DispensingLine.name item)
                        (DispensingLine.quantity item)))).
  { intros k Hk. rewrite (dispense_line_known autoflush uuid k) in Hrun
      by done.
    pose proof (dispense_effect autoflush uuid k record_id branch_id item s)
      as Heff.
    destruct (list_find _ _) as [[i m]|] eqn:Hfind;
      [|by rewrite Heff in Hrun].
    case_decide as Hq; [by rewrite Heff in Hrun|].
    destruct Heff as (s'' & Hrun' & Hobs).
    rewrite Hrun in Hrun'. injection Hrun' as _ <-.
    apply found_seen_observe in Hfind as [Hi [_ Hb]].
    exists i, m. split; [done|]. split; [done|]. split; [lia|].
    rewrite Hobs. do 2 f_equal. symmetry.
    by apply (alter_found (take (DispensingLine.quantity item))). }
  destruct (decide (DispensingLine.type item = "medicine")) as [Hm|Hm].
  { right. exists Medicine. destruct (Hknown Medicine Hm) as (i & m & H).
    by exists i, m. }
  destruct (decide (DispensingLine.type item = "medical_device")) as [Hd|Hd].
  { right. exists MedicalDevice.
    destruct (Hknown MedicalDevice Hd) as (i & m & H). by exists i, m. }
  left. rewrite dispense_line_unknown in Hrun by done.
  injection Hrun as _ <-. done.
Qed.

End DispensingResults.

Lemma dispensing_tables_set_stock k rows d :
  dispensing_records (set_stock k rows d) = dispensing_records d ∧
  dispensing_items (set_stock k rows d) = dispensing_items d.
Proof. by destruct k. Qed.

Lemma item_type_inj k k' : item_type k = item_type k' → k = k'.
Proof. by destruct k, k'. Qed.

Lemma dispensing_moves_nil record_id branch_id d :
  dispensing_moves record_id branch_id [] d d.
Proof.
  split; [|split; [|split; [|split]]]; try done.
  - intros k. unfold dispensed. simpl. lia.
  - intros k. apply same_but_quantity_refl.
  - exists []. split; [constructor|]. by rewrite app_nil_r.
Qed.

Lemma dispensing_moves_cons record_id branch_id item items d d1 d2 :
  dispensing_moves record_id branch_id [item] d d1 →
  dispensing_moves record_id branch_id items d1 d2 →
  dispensing_moves record_id branch_id (item :: items) d d2.
Proof.
  intros (Ht1 & Hs1 & Hn1 & Hr1 & new1 & Hnew1 & Hi1)
         (Ht2 & Hs2 & Hn2 & Hr2 & new2 & Hnew2 & Hi2).
  split; [|split; [|split; [|split]]].
  - intros k. rewrite Ht2, Ht1, (dispensed_cons k item items),
      (dispensed_cons k item []).
    change (dispensed k []) with 0. lia.
  - intros k. eapply same_but_quantity_trans; [|apply Hs1|apply Hs2]. done.
  - auto.
  - congruence.
  - exists (new1 ++ new2). split.
    + change (item :: items) with ([item] ++ items).
      unfold known_lines in *. rewrite filter_app. by apply Forall2_app.
    + by rewrite Hi2, Hi1, app_assoc.
Qed.

Section DispensingLoop.
Variable autoflush : bool.
Variable uuid : nat → string.

Lemma dispense_line_moves record_id branch_id item s u s' :
  dispense_line autoflush uuid record_id branch_id item s = (Returned u, s') →
  dispensing_moves record_id branch_id [item] (observe s) (observe s').
Proof.
  intros [(Hm & Hd & ->)|(k & i & m & Hk & Hi & Hb & Hq & Hobs)]
    %dispense_line_facts.
  { split; [|split; [|split; [|split]]]; try done.
    - intros k. rewrite dispensed_cons, decide_False.
      + change (dispensed k []) with 0. lia.
      + by destruct k.
    - intros k. apply same_but_quantity_refl.
    - exists []. split; [|by rewrite app_nil_r].
      unfold known_lines. rewrite filter_cons, decide_False by tauto.
      constructor. }
  assert (Hstock : ∀ k', stock k' (observe s')
            = if decide (k' = k)
              then alter (take (DispensingLine.quantity item)) i
                     (stock k (observe s))
              else stock k' (observe s)).
  { intros k'. rewrite Hobs, stock_insert_row. simpl. rewrite app_nil_r.
    case_decide as Hkk; [subst; apply stock_set_stock|].
    by apply stock_set_stock_ne. }
  split; [|split; [|split; [|split]]].
  - intros k'. unfold stock_total. rewrite Hstock, dispensed_cons.
    change (dispensed k' []) with 0. case_decide as Hkk.
    + subst k'. rewrite decide_True by done.
      rewrite (sum_quantity_alter _ _ _ _ Hi). simpl. lia.
    + rewrite decide_False; [lia|]. rewrite Hk.
      intros ?%item_type_inj. done.
  - intros k'. rewrite Hstock. case_decide as Hkk.
    + subst k'. by eapply same_but_quantity_alter.
    + apply same_but_quantity_refl.
  - intros Hnn k'. rewrite Hstock. case_decide as Hkk; [|apply Hnn].
    apply Forall_alter; [apply Hnn|].
    intros x Hx _. rewrite Hi in Hx. injection Hx as <-. simpl. lia.
  - rewrite Hobs. unfold insert_row. simpl.
    apply dispensing_tables_set_stock.
  - exists [DBDispensingItem.Row (uuid (draws s)) record_id (item_type k)
              (DispensingLine.id item) (DispensingLine.name item)
              (DispensingLine.quantity item)].
    split.
    + unfold known_lines. rewrite filter_cons, decide_True.
      * constructor; [|constructor]. by repeat split.
      * rewrite Hk. destruct k; auto.
    + rewrite Hobs. unfold insert_row. simpl. f_equal.
      apply dispensing_tables_set_stock.
Qed.

Lemma dispense_loop_moves record_id branch_id items s outs s' :
  for_each (dispense_line autoflush uuid record_id branch_id) items s
  = (Returned outs, s') →
  dispensing_moves record_id branch_id items (observe s) (observe s').
Proof.
  revert s outs s'. induction items as [|item items IH]; intros s outs s';
    simpl.
  - unfold ret. intros [= _ <-]. apply dispensing_moves_nil.
  - unfold bind, ret.
    destruct (dispense_line _ _ _ _ item s) as [[u|e] s1] eqn:Hstep; [|done].
    destruct (for_each _ items s1) as [[zs|e] s2] eqn:Hloop; [|done].
    intros [= _ <-]. eapply dispensing_moves_cons.
    + by eapply dispense_line_moves.
    + by eapply IH.
Qed.

(** A committed dispensing request has found its patient and employee,
    added its record and stored what its loop produced. *)
Lemma create_dispensing_record_committed request db msg db' :
  run_request (create_dispensing_record autoflush uuid request) db
  = (Returned msg, db') →
  ∃ i patient j employee outs s',
    list_find (λ p, Person.id p = DispensingRequest.patient_id request)
      (patients db) = Some (i, patient) ∧
    list_find (λ p, Person.id p = DispensingRequest.employee_id request)
      (employees db) = Some (j, employee) ∧
    for_each
      (dispense_line autoflush uuid (uuid 0)
         (DispensingRequest.branch_id request))
      (DispensingRequest.items request)
      (mkSession db db
         [DispensingRecordRow
            (DBDispensingRecord.Row (uuid 0)
               (DispensingRequest.patient_id request) (full_name patient)
               (DispensingRequest.employee_id request) (full_name employee)
               (DispensingRequest.branch_id request))]
         1)
    = (Returned outs, s') ∧
    db' = observe s'.
Proof.
  unfold create_dispensing_record, run_request, try_except.
  unfold bind at 1. rewrite query_first_eq, seen_begin, autoflushed_begin.
  unfold bind at 1. rewrite query_first_eq, seen_begin, autoflushed_begin.
  destruct_find (patients db); [destruct_find (employees db)|];
    try (by intros [=]).
  unfold bind at 1, uuid4 at 1, bind at 1, add at 1, begin. session_simpl.
  cbn [app]. unfold bind at 1.
  match goal with
  | |- context [for_each ?body ?items ?s0] =>
      destruct (for_each body items s0) as [[outs|cause] s1] eqn:Hloop
  end.
  - unfold bind, commit, ret. session_simpl. intros [= _ <-].
    eexists _, _, _, _, outs, s1. by repeat split.
  - by intros [=].
Qed.

(** X7: a dispensing request that commits takes from each stock table
    exactly the quantities its lines of that table's type ask for, changes
    nothing but quantities of rows held by the request's branch (no row is
    added, removed, renamed or moved, and rows of the warehouse and of other
    branches are as they were), and leaves no quantity negative if none
    was. *)
Theorem create_dispensing_record_takes request db msg db' :
  run_request (create_dispensing_record autoflush uuid request) db
  = (Returned msg, db') →
  (∀ k, stock_total k db'
        = stock_total k db - dispensed k (DispensingRequest.items request)) ∧
  (∀ k, same_but_quantity
          (λ m, Stock.branch_id m = Some (DispensingRequest.branch_id request))
          (stock k db) (stock k db')) ∧
  (nonnegative db → nonnegative db').
Proof.
  intros (i & patient & j & employee & outs & s' & _ & _ & Hloop & ->)
    %create_dispensing_record_committed.
  apply dispense_loop_moves in Hloop as (Ht & Hs & Hn & _).
  assert (Hstart : ∀ k r, stock k (insert_row db (DispensingRecordRow r))
                          = stock k db).
  { intros k r. rewrite stock_insert_row. apply app_nil_r. }
  rewrite observe_mk in Ht, Hs, Hn. cbn [foldl] in Ht, Hs, Hn.
  unfold stock_total, nonnegative in *.
  split; [|split].
  - intros k. specialize (Ht k). by rewrite Hstart in Ht.
  - intros k. specialize (Hs k). by rewrite Hstart in Hs.
  - intros Hnn. apply Hn. intros k. rewrite Hstart. apply Hnn.
Qed.

(** X8: a dispensing request that commits stores one dispensing record,
    with the names of the patient and the employee as they are at that
    moment, and one dispensing item under that record for every line whose
    type is "medicine" or "medical_device", in the order of the lines, with
    the line's type, identifier, name and quantity. *)
Theorem create_dispensing_record_records request db msg db' :
  run_request (create_dispensing_record autoflush uuid request) db
  = (Returned msg, db') →
  ∃ i patient j employee new,
    list_find (λ p, Person.id p = DispensingRequest.patient_id request)
      (patients db) = Some (i, patient) ∧
    list_find (λ p, Person.id p = DispensingRequest.employee_id request)
      (employees db) = Some (j, employee) ∧
    dispensing_records db'
    = dispensing_records db
      ++ [DBDispensingRecord.Row (uuid 0)
            (DispensingRequest.patient_id request) (full_name patient)
            (DispensingRequest.employee_id request) (full_name employee)
            (DispensingRequest.branch_id request)] ∧
    Forall2 (records_line (uuid 0))
      (known_lines (DispensingRequest.items request)) new ∧
    dispensing_items db' = dispensing_items db ++ new.
Proof.
  intros (i & patient & j & employee & outs & s' & Hp & He & Hloop & ->)
    %create_dispensing_record_committed.
  apply dispense_loop_moves in Hloop as (_ & _ & _ & Hr & new & Hnew & Hi).
  rewrite observe_mk in Hr, Hi. cbn [foldl] in Hr, Hi.
  exists i, patient, j, employee, new.
  split; [done|]. split; [done|]. split; [exact Hr|]. split; [done|].
  exact Hi.
Qed.

End DispensingLoop.

(** ** Acceptance, what it takes and what it makes *)

Lemma in_warehouse_with_quantity item_id q m :
  in_warehouse item_id (Stock.with_quantity q m) ↔ in_warehouse item_id m.
Proof. by destruct m. Qed.

Lemma same_but_quantity_update (f : Stock.item → Stock.item) l i :
  (∀ m, ∃ q, f m = Stock.with_quantity q m) →
  same_but_quantity (λ _, True) l (alter f i l).
Proof.
  intros Hf. unfold same_but_quantity. revert i.
  induction l as [|x l IH]; intros [|i]; simpl; try constructor.
  - left. split; [done|]. apply Hf.
  - apply same_but_quantity_refl.
  - by right.
  - apply IH.
Qed.

Lemma unstocked_same_but_quantity touched item_id l l' :
  same_but_quantity touched l l' →
  Forall (λ m, ¬ in_warehouse item_id m) l
  ↔ Forall (λ m, ¬ in_warehouse item_id m) l'.
Proof.
  unfold same_but_quantity. induction 1 as [|x y l l' Hxy _ IH]; [done|].
  rewrite !Forall_cons, IH.
  destruct Hxy as [[_ [q ->]]| ->]; [|done].
  by rewrite in_warehouse_with_quantity.
Qed.

Lemma unstocked_grown to item_id l l' :
  grown_at to l l' →
  Forall (λ m, ¬ in_warehouse item_id m) l
  ↔ Forall (λ m, ¬ in_warehouse item_id m) l'.
Proof.
  intros (kept & added & -> & Hkept & Hadded).
  rewrite Forall_app, (unstocked_same_but_quantity _ item_id _ _ Hkept).
  split; [|tauto]. intros Hk. split; [done|].
  eapply Forall_impl; [exact Hadded|]. intros m Hm [_ Hw]. congruence.
Qed.

Lemma grown_at_refl to l : grown_at to l l.
Proof.
  exists l, []. rewrite app_nil_r.
  split; [done|]. split; [apply same_but_quantity_refl|constructor].
Qed.

Lemma grown_at_trans to l1 l2 l3 :
  grown_at to l1 l2 → grown_at to l2 l3 → grown_at to l1 l3.
Proof.
  intros (k1 & a1 & -> & Hk1 & Ha1) (k2 & a2 & -> & Hk2 & Ha2).
  unfold same_but_quantity in Hk2.
  apply Forall2_app_inv_l in Hk2 as (k2a & k2b & Hka & Hkb & ->).
  exists k2a, (k2b ++ a2). split; [by rewrite app_assoc|]. split.
  - eapply same_but_quantity_trans; [done|exact Hk1|exact Hka].
  - apply Forall_app. split; [|done].
    clear -Ha1 Hkb. induction Hkb as [|x y a1 k2b Hxy _ IH]; [constructor|].
    inv Ha1. constructor; [|by apply IH].
    destruct Hxy as [[_ [q ->]]| ->]; [|done]. by destruct x.
Qed.

Lemma stock_insert_stock_row k k' d m :
  stock k' (insert_row d (StockRow k m))
  = stock k' d ++ (if decide (k = k') then [m] else []).
Proof.
  rewrite stock_insert_row. unfold new_stock. simpl. by case_decide.
Qed.

Lemma stock_set_shipments k rows d :
  stock k (set_shipments rows d) = stock k d.
Proof. by destruct k. Qed.

Lemma created_cons k d item items :
  created k d (item :: items)
  = (if decide (shipped_kind item = k
                ∧ unstocked k d (DBShipmentItem.item_id item))
     then DBShipmentItem.quantity item else 0)
    + created k d items.
Proof. unfold created. rewrite filter_cons. by case_decide. Qed.

Lemma created_grown to k d d' items :
  grown_at to (stock k d) (stock k d') →
  created k d' items = created k d items.
Proof.
  intros Hg. unfold created. do 2 f_equal. apply list_filter_iff.
  intros it. unfold unstocked. by rewrite (unstocked_grown to _ _ _ Hg).
Qed.

Lemma accept_moves_nil to d : accept_moves to [] d d.
Proof.
  split; intros k; [apply grown_at_refl|].
  change (created k d []) with 0. lia.
Qed.

Lemma accept_moves_cons to item items d d1 d2 :
  accept_moves to [item] d d1 →
  accept_moves to items d1 d2 →
  accept_moves to (item :: items) d d2.
Proof.
  intros [Hg1 Ht1] [Hg2 Ht2]. split; intros k.
  - eapply grown_at_trans; [apply Hg1|apply Hg2].
  - rewrite Ht2, Ht1, (created_grown to k d d1 items (Hg1 k)),
      (created_cons k d item items), (created_cons k d item []).
    change (created k d []) with 0. lia.
Qed.

(** One item's step, read on the table of the item: the other table is as
    it was, the item's table has grown to [l'], and its total has grown by
    the item's quantity exactly when the warehouse had no row. *)
Lemma accept_moves_one to item d d' l' :
  stock (shipped_kind item) d' = l' →
  (∀ k', shipped_kind item ≠ k' → stock k' d' = stock k' d) →
  grown_at to (stock (shipped_kind item) d) l' →
  foldr Z.add 0 (Stock.quantity <$> l')
  = foldr Z.add 0 (Stock.quantity <$> stock (shipped_kind item) d)
    + (if decide (unstocked (shipped_kind item) d
                    (DBShipmentItem.item_id item))
       then DBShipmentItem.quantity item else 0) →
  accept_moves to [item] d d'.
Proof.
  intros Hk Hother Hgrown Hsum. split; intros k'.
  - destruct (decide (shipped_kind item = k')) as [<-|Hne].
    + by rewrite Hk.
    + rewrite (Hother k' Hne). apply grown_at_refl.
  - rewrite created_cons. change (created k' d []) with 0.
    unfold stock_total.
    destruct (decide (shipped_kind item = k')) as [<-|Hne].
    + rewrite Hk, Hsum. repeat case_decide; tauto || lia.
    + rewrite (Hother k' Hne), decide_False by tauto. lia.
Qed.

Section AcceptanceAccounts.
Variable autoflush : bool.
Variable uuid : nat → string.

Lemma pending_at_autoflushed to s :
  pending_at to s → pending_at to (autoflushed autoflush s).
Proof.
  unfold pending_at, autoflushed. destruct autoflush; [|done].
  intros _ k. constructor.
Qed.

Lemma pending_at_add to k m :
  Stock.branch_id m = Some to → always (pending_at to) (add (StockRow k m)).
Proof.
  intros Hm s Hs k'. unfold new_stock. simpl. rewrite omap_app.
  apply Forall_app. split; [apply Hs|]. simpl.
  case_decide; repeat constructor. done.
Qed.

Lemma pending_at_accept_item to item :
  always (pending_at to) (accept_item autoflush uuid to item).
Proof.
  unfold accept_item.
  repeat first
    [ apply always_bind; [|intros ?]
    | by (intros s Hs; exact (pending_at_autoflushed to s Hs))
    | by apply pending_at_add
    | match goal with
      | |- always _ (match ?x with _ => _ end) => destruct x
      end
    | by intros ? ? ].
Qed.

(** A query for a warehouse row finds none exactly when what would be
    stored has none. *)
Lemma unstocked_seen_observe to k s item_id :
  pending_at to s →
  list_find (in_warehouse item_id) (stock k (seen autoflush s)) = None
  ↔ unstocked k (observe s) item_id.
Proof.
  intros Hp. unfold unstocked.
  rewrite list_find_None, stock_observe, stock_seen, !Forall_app.
  assert (Hnew : Forall (λ m, ¬ in_warehouse item_id m)
                   (new_stock k (pending s))).
  { eapply Forall_impl; [apply Hp|]. intros m Hm [_ Hw]. congruence. }
  destruct autoflush; [done|].
  split; intros [? _]; (split; [done|]); done || constructor.
Qed.

Lemma accept_item_moves to item s out s' :
  pending_at to s →
  accept_item autoflush uuid to item s = (Returned out, s') →
  accept_moves to [item] (observe s) (observe s').
Proof.
  intros Hp Hrun.
  pose proof (unstocked_seen_observe to (shipped_kind item) s
                (DBShipmentItem.item_id item) Hp) as Hun.
  assert (Hgive : ∀ q m, ∃ q', give q m = Stock.with_quantity q' m)
    by (intros q m; by eexists).
  assert (Htake : ∀ q m, ∃ q', take q m = Stock.with_quantity q' m)
    by (intros q m; by eexists).
  destruct (list_find (in_warehouse (DBShipmentItem.item_id item))
              (stock (shipped_kind item) (seen autoflush s)))
    as [[i m]|] eqn:Hmain.
  - destruct (accept_item_stocked autoflush uuid to item s i m Hmain)
      as (s'' & Heq & Hobs).
    rewrite Heq in Hrun. injection Hrun as _ <-. cbv zeta in Hobs.
    apply found_seen_observe in Hmain as [Hi Hw].
    assert (Hstocked : ¬ unstocked (shipped_kind item) (observe s)
                         (DBShipmentItem.item_id item)).
    { intros Hall. by eapply (Forall_lookup_1 _ _ _ _ Hall Hi). }
    destruct (list_find (named_in_branch (DBShipmentItem.item_name item) to)
                (stock (shipped_kind item) (seen autoflush s)))
      as [[j b]|] eqn:Hbranch; simpl in Hobs.
    + apply found_seen_observe in Hbranch as [Hj Hb].
      assert (Hij : i ≠ j).
      { intros ->. destruct Hw as [_ Hw], Hb as [_ Hb]. congruence. }
      eapply accept_moves_one.
      * rewrite Hobs. apply stock_set_stock.
      * intros k' Hne. rewrite Hobs. by apply stock_set_stock_ne.
      * eexists _, []. rewrite app_nil_r. split; [done|].
        split; [|constructor].
        eapply same_but_quantity_trans; [done| |];
          by apply same_but_quantity_update.
      * rewrite decide_False by done.
        rewrite (sum_quantity_alter _ j _ b)
          by (by rewrite list_lookup_alter_ne).
        rewrite (sum_quantity_alter _ i _ m Hi). simpl. lia.
    + eapply accept_moves_one.
      * rewrite Hobs, stock_insert_stock_row, stock_set_stock.
        by rewrite decide_True.
      * intros k' Hne. rewrite Hobs, stock_insert_stock_row.
        rewrite decide_False, app_nil_r by done.
        by apply stock_set_stock_ne.
      * eexists _, [_]. split; [done|].
        split; [by apply same_but_quantity_update|].
        by repeat constructor.
      * rewrite decide_False by done.
        rewrite sum_quantity_app, (sum_quantity_alter _ i _ m Hi).
        simpl. lia.
  - destruct (accept_item_unstocked autoflush uuid to item s Hmain)
      as (s'' & Heq & Hobs).
    rewrite Heq in Hrun. injection Hrun as _ <-.
    pose proof (proj1 Hun eq_refl) as Hnone.
    destruct (list_find (named_in_branch (DBShipmentItem.item_name item) to)
                (stock (shipped_kind item) (seen autoflush s)))
      as [[j b]|] eqn:Hbranch.
    + apply found_seen_observe in Hbranch as [Hj Hb].
      change (Stock.with_quantity _ b)
        with (give (DBShipmentItem.quantity item) b) in Hobs.
      rewrite <- (alter_found _ _ _ _ Hj) in Hobs.
      eapply accept_moves_one.
      * rewrite Hobs. apply stock_set_stock.
      * intros k' Hne. rewrite Hobs. by apply stock_set_stock_ne.
      * eexists _, []. rewrite app_nil_r. split; [done|].
        split; [|constructor]. by apply same_but_quantity_update.
      * rewrite decide_True by done.
        rewrite (sum_quantity_alter _ j _ b Hj). simpl. lia.
    + eapply accept_moves_one.
      * rewrite Hobs, stock_insert_stock_row. by rewrite decide_True.
      * intros k' Hne. rewrite Hobs, stock_insert_stock_row.
        by rewrite decide_False, app_nil_r.
      * eexists _, [_]. split; [done|].
        split; [apply same_but_quantity_refl|]. by repeat constructor.
      * rewrite decide_True by done. rewrite sum_quantity_app. simpl. lia.
Qed.

Lemma accept_loop_moves to items s outs s' :
  pending_at to s →
  for_each (accept_item autoflush uuid to) items s = (Returned outs, s') →
  accept_moves to items (observe s) (observe s').
Proof.
  revert s outs s'. induction items as [|item items IH]; intros s outs s' Hp;
    simpl.
  - unfold ret. intros [= _ <-]. apply accept_moves_nil.
  - unfold bind, ret.
    pose proof (pending_at_accept_item to item s Hp) as Hp1.
    destruct (accept_item _ _ _ item s) as [[out|e] s1] eqn:Hstep; [|done].
    destruct (for_each _ items s1) as [[zs|e] s2] eqn:Hloop; [|done].
    intros [= _ <-]. eapply accept_moves_cons.
    + by eapply accept_item_moves.
    + by eapply IH.
Qed.

(** Accepting a pending shipment answers, and stores what its loop has made
    of the stock tables. *)
Lemma accept_shipment_moves db sid now n sh :
  list_find (λ s, DBShipment.id s = sid) (shipments db) = Some (n, sh) →
  DBShipment.status sh = "pending" →
  ∃ out db',
    run_request (accept_shipment autoflush uuid sid now) db
    = (Returned out, db') ∧
    accept_moves (DBShipment.to_branch_id sh)
      (filter (λ it, DBShipmentItem.shipment_id it = sid)
         (shipment_items db))
      db db'.
Proof.
  intros Hfind Hpending.
  destruct (accept_shipment_pending autoflush uuid db sid now n sh
              Hfind Hpending) as (outs & s' & Hloop & Hrun).
  eexists _, _. split; [exact Hrun|].
  apply accept_loop_moves in Hloop as [Hg Ht]; [|by intros k; constructor].
  change (observe (begin db)) with db in Hg, Ht.
  split; intros k.
  - rewrite stock_set_shipments. apply Hg.
  - unfold stock_total in *. rewrite stock_set_shipments. apply Ht.
Qed.

(** C9: accepting a pending shipment one of whose items has no warehouse
    row with the item's identifier succeeds.  The acceptance is the steps
    of the items before it, its own step and the steps of the items after
    it, and what it stores is what the last step leaves.  The item's own
    step leaves every warehouse row as it was; if the query finds no row
    of the branch with the item's name, the step adds a row with that name,
    the item's quantity, both prices 0 and no category, held by the branch;
    otherwise it adds the quantity to a row of the branch with that name.
    The steps after it keep every row the item's step left, up to its
    quantity. *)
Theorem accept_item_without_warehouse_row db sid now n sh pre item post :
  list_find (λ s, DBShipment.id s = sid) (shipments db) = Some (n, sh) →
  DBShipment.status sh = "pending" →
  filter (λ it, DBShipmentItem.shipment_id it = sid) (shipment_items db)
  = pre ++ item :: post →
  unstocked (shipped_kind item) db (DBShipmentItem.item_id item) →
  let to := DBShipment.to_branch_id sh in
  let k := shipped_kind item in
  let entry :=
    Accepted.Entry (item_type k) (DBShipmentItem.item_id item)
      (DBShipmentItem.item_name item) (DBShipmentItem.quantity item) in
  ∃ outs1 s1 s2 outs3 s3,
    for_each (accept_item autoflush uuid to) pre (begin db)
    = (Returned outs1, s1) ∧
    accept_item autoflush uuid to item s1 = (Returned entry, s2) ∧
    for_each (accept_item autoflush uuid to) post s2
    = (Returned outs3, s3) ∧
    run_request (accept_shipment autoflush uuid sid now) db
    = (Returned
         (Accepted.Make (DBShipment.accept now sh)
            (outs1 ++ entry :: outs3)
            (or_None (entries_of Medicine (outs1 ++ entry :: outs3)))
            (or_None (entries_of MedicalDevice (outs1 ++ entry :: outs3)))),
       set_shipments (alter (DBShipment.accept now) n (shipments db))
         (observe s3)) ∧
    (∀ k' i m,
       stock k' (observe s1) !! i = Some m →
       Stock.branch_id m = None →
       stock k' (observe s2) !! i = Some m) ∧
    (list_find (named_in_branch (DBShipmentItem.item_name item) to)
       (stock k (seen autoflush s1)) = None →
     observe s2
     = insert_row (observe s1)
         (StockRow k
            (Stock.Item (uuid (draws s1)) (DBShipmentItem.item_name item)
               None 0%Q 0%Q (DBShipmentItem.quantity item) (Some to)))) ∧
    (is_Some
       (list_find (named_in_branch (DBShipmentItem.item_name item) to)
          (stock k (seen autoflush s1))) →
     ∃ j b,
       stock k (observe s1) !! j = Some b ∧
       named_in_branch (DBShipmentItem.item_name item) to b ∧
       observe s2
       = set_stock k
           (<[j := Stock.with_quantity
                     (Stock.quantity b + DBShipmentItem.quantity item) b]>
              (stock k (observe s1)))
           (observe s1)) ∧
    ∀ k', grown_at to (stock k' (observe s2)) (stock k' (observe s3)).
Proof.
  intros Hfind Hpending Hitems Hun to k entry.
  destruct (accept_shipment_pending autoflush uuid db sid now n sh
              Hfind Hpending) as (outs & s_end & Hloop & Hrun).
  fold to in Hloop. rewrite Hitems, for_each_app in Hloop.
  assert (Hstart : pending_at to (begin db)) by (intros k'; constructor).
  pose proof (always_for_each (pending_at to) (accept_item autoflush uuid to)
                pre (pending_at_accept_item to) (begin db) Hstart) as Hp1.
  destruct (for_each (accept_item autoflush uuid to) pre (begin db))
    as [[outs1|e] s1] eqn:Hpre; [|done].
  simpl in Hp1.
  simpl for_each in Hloop. unfold bind, ret in Hloop.
  pose proof (pending_at_accept_item to item s1 Hp1) as Hp2.
  destruct (accept_item autoflush uuid to item s1) as [[entry'|e] s2]
    eqn:Hstep; [|done].
  simpl in Hp2.
  destruct (for_each (accept_item autoflush uuid to) post s2)
    as [[outs3|e] s3] eqn:Hpost; [|done].
  injection Hloop as <- <-.
  (* the query of the item's step finds no warehouse row *)
  destruct (accept_loop_moves to pre (begin db) outs1 s1
              Hstart Hpre) as [Hgrown1 _].
  change (observe (begin db)) with db in Hgrown1.
  assert (Hmain : list_find (in_warehouse (DBShipmentItem.item_id item))
                    (stock k (seen autoflush s1)) = None).
  { apply (unstocked_seen_observe to k s1 _ Hp1). unfold unstocked.
    by apply (unstocked_grown to _ _ _ (Hgrown1 k)). }
  destruct (accept_item_unstocked autoflush uuid to item s1 Hmain)
    as (s2' & Hstep' & Hobs).
  rewrite Hstep in Hstep'. injection Hstep' as -> <-.
  fold k entry in Hrun, Hobs |- *.
  exists outs1, s1, s2, outs3, s3.
  split; [done|]. split; [done|]. split; [done|]. split; [exact Hrun|].
  split; [|split; [|split]].
  - intros k' i m Hm Hwarehouse. rewrite Hobs.
    destruct (list_find (named_in_branch _ _) _) as [[j b]|] eqn:Hbranch.
    + destruct (decide (k' = k)) as [->|Hk].
      * rewrite stock_set_stock.
        destruct (decide (i = j)) as [->|Hij];
          [|by rewrite list_lookup_insert_ne].
        apply found_seen_observe in Hbranch as [Hl [_ Hb]].
        congruence.
      * by rewrite stock_set_stock_ne.
    + rewrite stock_insert_row. by apply lookup_app_l_Some.
  - intros Hnone. by rewrite Hobs, Hnone.
  - intros [[j b] Hsome]. rewrite Hsome in Hobs.
    apply found_seen_observe in Hsome as [Hl Hb]. by exists j, b.
  - intros k'.
    by destruct (accept_loop_moves to post s2 outs3 s3
                   Hp2 Hpost) as [Hgrown3 _].
Qed.

(** X9: accepting a pending shipment answers, and changes the total of each
    stock table by exactly the quantities of the shipment's items of that
    table for which the warehouse has no row: what is taken from a
    warehouse row is what the branch gets, and an item without a warehouse
    row is given to the branch out of nothing. *)
Theorem accept_shipment_accounts db sid now n sh :
  list_find (λ s, DBShipment.id s = sid) (shipments db) = Some (n, sh) →
  DBShipment.status sh = "pending" →
  ∃ out db',
    run_request (accept_shipment autoflush uuid sid now) db
    = (Returned out, db') ∧
    ∀ k, stock_total k db'
         = stock_total k db
           + created k db
               (filter (λ it, DBShipmentItem.shipment_id it = sid)
                  (shipment_items db)).
Proof.
  intros Hfind Hpending.
  destruct (accept_shipment_moves db sid now n sh Hfind Hpending)
    as (out & db' & Hrun & _ & Ht).
  by exists out, db'.
Qed.

(** X10: accepting a pending shipment removes, renames and moves no stock
    row: each stock table afterwards is the table before, row by row and up
    to quantities, followed by new rows that are all held by the
    shipment's branch. *)
Theorem accept_shipment_grows db sid now n sh :
  list_find (λ s, DBShipment.id s = sid) (shipments db) = Some (n, sh) →
  DBShipment.status sh = "pending" →
  ∃ out db',
    run_request (accept_shipment autoflush uuid sid now) db
    = (Returned out, db') ∧
    ∀ k, grown_at (DBShipment.to_branch_id sh) (stock k db) (stock k db').
Proof.
  intros Hfind Hpending.
  destruct (accept_shipment_moves db sid now n sh Hfind Hpending)
    as (out & db' & Hrun & Hg & _).
  by exists out, db'.
Qed.

End AcceptanceAccounts.

(** ** Listings *)

Lemma asked_branch_named p b :
  asked_branch p = Some b →
  p = Some b ∧ b ≠ "" ∧ b ≠ "null" ∧ b ≠ "undefined".
Proof.
  destruct p as [b'|]; simpl; [|done]. repeat case_decide; try done.
  by intros [= <-].
Qed.

(** X11: GET /medicines and GET /medical_devices store nothing and return,
    in table order, the warehouse rows when the parameter is absent, empty,
    "null" or "undefined", and the rows of the branch it names otherwise;
    hence a row held by a branch whose identifier is the empty string,
    "null" or "undefined" is in no listing, whatever is asked. *)
Theorem listings_skip_placeholder_branches autoflush p db :
  ∃ meds devs,
    run_request (get_medicines autoflush p) db = (Returned meds, db) ∧
    run_request (get_medical_devices autoflush p) db = (Returned devs, db) ∧
    (p = None ∨ p = Some "" ∨ p = Some "null" ∨ p = Some "undefined" →
     meds = filter (λ m, Stock.branch_id m = None) (medicines db) ∧
     devs = filter (λ m, Stock.branch_id m = None) (medical_devices db)) ∧
    (∀ b, p = Some b → b ≠ "" → b ≠ "null" → b ≠ "undefined" →
     meds = filter (λ m, Stock.branch_id m = Some b) (medicines db) ∧
     devs = filter (λ m, Stock.branch_id m = Some b) (medical_devices db)) ∧
    Forall (λ m, Stock.branch_id m ≠ Some ""
                 ∧ Stock.branch_id m ≠ Some "null"
                 ∧ Stock.branch_id m ≠ Some "undefined") (meds ++ devs).
Proof.
  assert (Hnamed : ∀ b l,
            b ≠ "" → b ≠ "null" → b ≠ "undefined" →
            Forall (λ m, Stock.branch_id m ≠ Some ""
                         ∧ Stock.branch_id m ≠ Some "null"
                         ∧ Stock.branch_id m ≠ Some "undefined")
              (filter (λ m, Stock.branch_id m = Some b) l)).
  { intros b l ? ? ?. apply Forall_forall. intros m.
    rewrite list_elem_of_filter. intros [-> _]. repeat split; congruence. }
  assert (Hmain : ∀ l,
            Forall (λ m, Stock.branch_id m ≠ Some ""
                         ∧ Stock.branch_id m ≠ Some "null"
                         ∧ Stock.branch_id m ≠ Some "undefined")
              (filter (λ m, Stock.branch_id m = None) l)).
  { intros l. apply Forall_forall. intros m.
    rewrite list_elem_of_filter. by intros [-> _]. }
  unfold get_medicines, get_medical_devices, get_stock.
  destruct (asked_branch p) as [b|] eqn:Hb; rewrite !run_query_all;
    eexists _, _; (split; [done|]); (split; [done|]); (split; [|split]).
  - apply asked_branch_named in Hb as (-> & ? & ? & ?).
    intros [|[[=]|[[=]|[=]]]]; done.
  - apply asked_branch_named in Hb as (-> & ? & ? & ?).
    by intros b' [= <-].
  - apply asked_branch_named in Hb as (-> & ? & ? & ?).
    apply Forall_app. split; by apply Hnamed.
  - done.
  - intros b -> ? ? ?. simpl in Hb.
    by rewrite decide_False, !decide_True in Hb.
  - apply Forall_app. split; apply Hmain.
Qed.

(** ** Notifications *)

Lemma alter_twice {A} (f : A → A) (i : nat) (l : list A) :
  (∀ x, f (f x) = f x) → alter f i (alter f i l) = alter f i l.
Proof.
  intros Hf. revert i. induction l as [|x l IH]; intros [|i]; simpl;
    try done.
  - by rewrite Hf.
  - f_equal. apply IH.
Qed.

Section Notifications.
Variable autoflush : bool.

Lemma mark_notification_read_found db nid i n :
  list_find (λ n, DBNotification.id n = nid) (notifications db)
  = Some (i, n) →
  run_request (mark_notification_read autoflush nid) db
  = (Returned "Notification marked as read",
     set_notifications (alter set_read i (notifications db)) db).
Proof.
  intros Hfind. unfold mark_notification_read, run_request, bind at 1.
  rewrite query_first_eq, seen_begin, Hfind, autoflushed_begin.
  reflexivity.
Qed.

(** X12: marking a notification read answers 404 and stores nothing when
    no notification has the identifier; otherwise it sets [is_read] to 1 on
    the first notification with that identifier and changes nothing else,
    and marking it again leaves the database as it then is. *)
Theorem mark_notification_read_settles db nid :
  match list_find (λ n, DBNotification.id n = nid) (notifications db) with
  | None =>
      run_request (mark_notification_read autoflush nid) db
      = (Raised (HTTPException 404 (Message "Notification not found")), db)
  | Some (i, n) =>
      ∃ db',
        run_request (mark_notification_read autoflush nid) db
        = (Returned "Notification marked as read", db') ∧
        notifications db' = <[i := set_read n]> (notifications db) ∧
        db' = set_notifications (notifications db') db ∧
        run_request (mark_notification_read autoflush nid) db'
        = (Returned "Notification marked as read", db')
  end.
Proof.
  destruct (list_find _ (notifications db)) as [[i n]|] eqn:Hfind.
  - eexists. split; [by eapply mark_notification_read_found|].
    pose proof Hfind as [Hi _]%list_find_Some.
    split; [by apply alter_found|]. split; [done|].
    erewrite mark_notification_read_found.
    + simpl. by rewrite alter_twice.
    + simpl. rewrite list_find_alter, Hfind by done. simpl.
      by rewrite decide_True.
  - unfold mark_notification_read, run_request, bind at 1.
    by rewrite query_first_eq, seen_begin, Hfind, autoflushed_begin.
Qed.

End Notifications.

(** ** Creating stock rows under a category *)

Section Categories.
Variable autoflush : bool.
Variable uuid : nat → string.
Variable categories : list DBCategory.row.

Lemma create_medicine_admitted medicine db m db' :
  run_request (create_medicine autoflush uuid categories medicine) db
  = (Returned m, db') →
  ∃ i c,
    list_find (λ c, DBCategory.id c = MedicineCreate.category_id medicine)
      categories = Some (i, c) ∧
    DBCategory.type c = "medicine".
Proof.
  unfold create_medicine, run_request, bind at 1.
  rewrite query_first_eq, autoflushed_begin.
  destruct (list_find _ categories) as [[i c]|]; [|done].
  case_decide as Htype; [done|]. intros _. exists i, c.
  split; [done|]. by destruct (decide (DBCategory.type c = "medicine")).
Qed.

Lemma create_medical_device_admitted device db m db' :
  run_request (create_medical_device autoflush uuid categories device) db
  = (Returned m, db') →
  ∃ i c,
    list_find (λ c, DBCategory.id c = MedicalDeviceCreate.category_id device)
      categories = Some (i, c) ∧
    DBCategory.type c = "medical_device".
Proof.
  unfold create_medical_device, run_request, bind at 1.
  rewrite query_first_eq, autoflushed_begin.
  destruct (list_find _ categories) as [[i c]|]; [|done].
  case_decide as Htype; [done|]. intros _. exists i, c.
  split; [done|]. by destruct (decide (DBCategory.type c = "medical_device")).
Qed.

(** X13: a category serves one kind only.  If a medicine is created under a
    category identifier, every attempt to create a medical device under
    that identifier is refused with status 400 and stores nothing, on any
    database; and the same with the kinds exchanged. *)
Theorem category_serves_one_kind medicine device :
  MedicalDeviceCreate.category_id device = MedicineCreate.category_id medicine →
  (∀ db m db',
     run_request (create_medicine autoflush uuid categories medicine) db
     = (Returned m, db') →
     ∀ uuid' db2,
       run_request (create_medical_device autoflush uuid' categories device)
         db2
       = (Raised
            (HTTPException 400
               (Message "Invalid category for medical device")),
          db2)) ∧
  (∀ db m db',
     run_request (create_medical_device autoflush uuid categories device) db
     = (Returned m, db') →
     ∀ uuid' db2,
       run_request (create_medicine autoflush uuid' categories medicine) db2
       = (Raised (HTTPException 400 (Message "Invalid category for medicine")),
          db2)).
Proof.
  intros Hsame. split; intros db m db' Hrun uuid' db2.
  - apply create_medicine_admitted in Hrun as (i & c & Hfind & Htype).
    unfold create_medical_device, run_request, bind at 1.
    rewrite query_first_eq, autoflushed_begin, Hsame, Hfind.
    rewrite decide_True; [done|]. by rewrite Htype.
  - apply create_medical_device_admitted in Hrun as (i & c & Hfind & Htype).
    unfold create_medicine, run_request, bind at 1.
    rewrite query_first_eq, autoflushed_begin, <- Hsame, Hfind.
    rewrite decide_True; [done|]. by rewrite Htype.
Qed.

End Categories.

(** ** Rejection *)

Section Rejection.
Variable autoflush : bool.

(** X14: rejecting a shipment answers 404 and stores nothing when no
    shipment has the identifier; otherwise it marks the first shipment with
    that identifier rejected, with the reason given or the empty string,
    touches no stock row and no shipment item, and from then on every
    call to accept the shipment is refused with status 409 and changes
    nothing. *)
Theorem reject_shipment_closes db sid reason :
  match list_find (λ s, DBShipment.id s = sid) (shipments db) with
  | None =>
      run_request (reject_shipment autoflush sid reason) db
      = (Raised (HTTPException 404 (Message "Shipment not found")), db)
  | Some (n, sh) =>
      ∃ db',
        run_request (reject_shipment autoflush sid reason) db
        = (Returned "Shipment rejected", db') ∧
        shipments db'
        = <[n := DBShipment.reject (default "" reason) sh]> (shipments db) ∧
        (∀ k, stock k db' = stock k db) ∧
        shipment_items db' = shipment_items db ∧
        ∀ uuid later,
          run_request (accept_shipment autoflush uuid sid later) db'
          = (Raised (HTTPException 409 (Message "Already processed")), db')
  end.
Proof.
  destruct (list_find _ (shipments db)) as [[n sh]|] eqn:Hfind.
  - eexists. split; [by eapply reject_shipment_any|].
    pose proof Hfind as [Hn _]%list_find_Some.
    split; [by apply alter_found|].
    split; [intros k; apply stock_set_shipments|]. split; [done|].
    intros uuid later.
    eapply (accept_shipment_processed autoflush uuid _ sid later n
              (DBShipment.reject (default "" reason) sh)); [|done].
    simpl. by apply find_shipment_altered.
  - unfold reject_shipment, run_request, bind at 1.
    by rewrite query_first_eq, seen_begin, Hfind, autoflushed_begin.
Qed.

End Rejection.

(** ** Arrivals, what they add to the stock *)

Lemma restocks_refl l : restocks l l.
Proof. unfold restocks. induction l; constructor; auto. Qed.

Lemma restocks_trans l1 l2 l3 :
  restocks l1 l2 → restocks l2 l3 → restocks l1 l3.
Proof.
  unfold restocks. intros H12. revert l3.
  induction H12 as [|x y l1 l2 (Hi & Hn & Hc & Hb & Hx) _ IH];
    intros l3 H23; inv H23; constructor; [|by apply IH].
  match goal with
  | H : _ ∧ _ |- _ => destruct H as (Hi' & Hn' & Hc' & Hb' & Hy)
  end.
  repeat split; try congruence.
  intros Hne. rewrite Hy, Hx; congruence.
Qed.

Lemma restocks_insert l i m m' :
  l !! i = Some m →
  Stock.id m' = Stock.id m →
  Stock.name m' = Stock.name m →
  Stock.category_id m' = Stock.category_id m →
  Stock.branch_id m' = Stock.branch_id m →
  Stock.branch_id m = None →
  restocks l (<[i := m']> l).
Proof.
  unfold restocks. revert i.
  induction l as [|x l IH]; intros [|i] Hl; simplify_eq/=; intros.
  - constructor; [|apply restocks_refl]. by repeat split.
  - constructor; [by repeat split|]. by apply IH.
Qed.

Lemma unstocked_restocks item_id l l' :
  restocks l l' →
  Forall (λ m, ¬ in_warehouse item_id m) l
  ↔ Forall (λ m, ¬ in_warehouse item_id m) l'.
Proof.
  unfold restocks. induction 1 as [|x y l l' (Hi & _ & _ & Hb & _) _ IH];
    [done|].
  rewrite !Forall_cons, IH. unfold in_warehouse. by rewrite Hi, Hb.
Qed.

Lemma sum_quantity_insert (l : list Stock.item) i m m' :
  l !! i = Some m →
  foldr Z.add 0 (Stock.quantity <$> <[i := m']> l)
  = foldr Z.add 0 (Stock.quantity <$> l)
    + (Stock.quantity m' - Stock.quantity m).
Proof.
  intros Hl. rewrite <- (alter_found (λ _, m') l i m Hl).
  by rewrite (sum_quantity_alter _ _ _ _ Hl).
Qed.

Lemma received_cons k d a batch :
  received k d (a :: batch)
  = (if decide (unstocked k d (ArrivalCreate.item_id a))
     then 0 else ArrivalCreate.quantity a)
    + received k d batch.
Proof. unfold received. rewrite filter_cons. by repeat case_decide. Qed.

Lemma received_restocks k d d' batch :
  restocks (stock k d) (stock k d') →
  received k d' batch = received k d batch.
Proof.
  intros Hr. unfold received. do 2 f_equal. apply list_filter_iff.
  intros a. unfold unstocked. by rewrite (unstocked_restocks _ _ _ Hr).
Qed.

Lemma arrival_moves_nil k d : arrival_moves k [] d d.
Proof.
  split; [apply restocks_refl|]. split; [done|].
  change (received k d []) with 0. lia.
Qed.

Lemma arrival_moves_cons k a batch d d1 d2 :
  arrival_moves k [a] d d1 →
  arrival_moves k batch d1 d2 →
  arrival_moves k (a :: batch) d d2.
Proof.
  intros (Hr1 & Ho1 & Ht1) (Hr2 & Ho2 & Ht2). split; [|split].
  - by eapply restocks_trans.
  - intros k' Hne. by rewrite Ho2, Ho1.
  - rewrite Ht2, Ht1, (received_restocks k d d1 batch Hr1),
      (received_cons k d a batch), (received_cons k d a []).
    change (received k d []) with 0. lia.
Qed.

(** What the specification's entry makes of the stock tables. *)
Lemma restocked_moves k arrival_id a d :
  arrival_moves k [a] d (restocked k a (recorded k arrival_id a d)).
Proof.
  unfold arrival_moves, stock_total, restocked.
  rewrite received_cons. change (received k d []) with 0.
  rewrite stock_recorded.
  destruct (list_find (in_warehouse (ArrivalCreate.item_id a)) (stock k d))
    as [[i m]|] eqn:Hfind.
  - pose proof Hfind as (Hi & Hw & _)%list_find_Some.
    assert (Hstocked : ¬ unstocked k d (ArrivalCreate.item_id a)).
    { intros Hall. by eapply (Forall_lookup_1 _ _ _ _ Hall Hi). }
    rewrite stock_set_stock, decide_False by done.
    split; [|split].
    + apply (restocks_insert _ _ m); try done. by destruct Hw.
    + intros k' Hne. by rewrite stock_set_stock_ne, stock_recorded.
    + rewrite (sum_quantity_insert _ _ m _ Hi). simpl. lia.
  - apply list_find_None in Hfind.
    rewrite decide_True by done. rewrite stock_recorded.
    split; [apply restocks_refl|]. split; [|lia].
    intros k' _. apply stock_recorded.
Qed.

Lemma arrived_moves k uuid n batch d :
  arrival_moves k batch d (arrived k uuid n batch d).
Proof.
  revert n d. induction batch as [|a batch IH]; intros n d; simpl.
  - apply arrival_moves_nil.
  - eapply arrival_moves_cons; [apply restocked_moves|apply IH].
Qed.

Section ArrivalAccounts.
Variable autoflush : bool.
Variable uuid : nat → string.
Variable declared : DB → Prop.
Context `{declared_dec : ∀ d, Decision (declared d)}.

(** X15: an arrival batch never adds a stock row.  On a consistent
    database, whether the request commits or fails, in its own table the
    rows afterwards are the rows before, with the same identifier, name,
    category and holder and with every branch row as it was, and the other
    table is untouched; when it commits, the table's total has grown by the
    quantities of exactly those entries whose identifier has a warehouse
    row (an entry for an identifier unknown to the warehouse is recorded in
    the history and adds nothing to the stock); when it fails, nothing is
    stored; and it commits whenever the database takes every state the
    request flushes. *)
Theorem arrivals_restock_known_items batch db :
  consistent declared db →
  (∀ r db',
     run_request (create_arrivals autoflush uuid declared batch) db
     = (r, db') →
     restocks (medicines db) (medicines db') ∧
     medical_devices db' = medical_devices db ∧
     match r with
     | Returned _ =>
         stock_total Medicine db'
         = stock_total Medicine db + received Medicine db batch
     | Raised _ => db' = db
     end) ∧
  (Forall (consistent declared)
     (flushes autoflush Medicine uuid 0 batch db) →
   ∃ db',
     run_request (create_arrivals autoflush uuid declared batch) db
     = (Returned "Arrivals created successfully", db')) ∧
  (∀ r db',
     run_request (create_device_arrivals autoflush uuid declared batch) db
     = (r, db') →
     restocks (medical_devices db) (medical_devices db') ∧
     medicines db' = medicines db ∧
     match r with
     | Returned _ =>
         stock_total MedicalDevice db'
         = stock_total MedicalDevice db + received MedicalDevice db batch
     | Raised _ => db' = db
     end) ∧
  (Forall (consistent declared)
     (flushes autoflush MedicalDevice uuid 0 batch db) →
   ∃ db',
     run_request (create_device_arrivals autoflush uuid declared batch) db
     = (Returned "Device arrivals created successfully", db')).
Proof.
  intros _.
  pose proof (arrived_moves Medicine uuid 0 batch db) as (Hrm & Hom & Htm).
  pose proof (arrived_moves MedicalDevice uuid 0 batch db)
    as (Hrd & Hod & Htd).
  split; [|split; [|split]].
  - intros r db'. rewrite create_arrivals_run. case_decide; intros [= <- <-].
    + split; [exact Hrm|]. split; [by apply (Hom MedicalDevice)|exact Htm].
    + split; [apply restocks_refl|]. done.
  - intros Hall. rewrite create_arrivals_run, decide_True by done.
    by eexists.
  - intros r db'. rewrite create_device_arrivals_run.
    case_decide; intros [= <- <-].
    + split; [exact Hrd|]. split; [by apply (Hod Medicine)|exact Htd].
    + split; [apply restocks_refl|]. done.
  - intros Hall. rewrite create_device_arrivals_run, decide_True by done.
    by eexists.
Qed.

End ArrivalAccounts.

(** ** The further properties on the sample data *)

Section FurtherRuns.
Import Sample FurtherSample.

Lemma create_transfers_keeps_total_witness :
  run_request (create_transfers true (uuid "t") two_transfers) warehouse
  = (Returned "Transfers completed", transferred) ∧
  stock_total Medicine transferred = stock_total Medicine warehouse ∧
  stock MedicalDevice transferred = stock MedicalDevice warehouse.
Proof.
  split; [by vm_compute|].
  apply (create_transfers_keeps_total true (uuid "t") two_transfers warehouse
           "Transfers completed" transferred).
  by vm_compute.
Defined.

Lemma create_transfers_keeps_nonnegative_witness :
  Forall (λ t, (0 ≤ TransferCreate.quantity t)%Z) two_transfers ∧
  nonnegative warehouse ∧
  run_request (create_transfers true (uuid "t") two_transfers) warehouse
  = (Returned "Transfers completed", transferred) ∧
  nonnegative transferred.
Proof.
  assert (Hbatch : Forall (λ t, (0 ≤ TransferCreate.quantity t)%Z)
                     two_transfers)
    by (repeat constructor; simpl; lia).
  assert (Hnn : nonnegative warehouse)
    by (intros []; repeat constructor; simpl; lia).
  assert (Hrun : run_request
                   (create_transfers true (uuid "t") two_transfers) warehouse
                 = (Returned "Transfers completed", transferred))
    by (by vm_compute).
  split; [exact Hbatch|]. split; [exact Hnn|]. split; [exact Hrun|].
  exact (create_transfers_keeps_nonnegative true (uuid "t") two_transfers
           warehouse _ transferred Hbatch Hnn Hrun).
Defined.

Lemma create_transfers_listed_witness :
  run_request (create_transfers true (uuid "t") two_transfers) warehouse
  = (Returned "Transfers completed", transferred) ∧
  ∃ new,
    Forall2 records_transfer two_transfers new ∧
    transfers transferred = transfers warehouse ++ new ∧
    ∀ branch_id listed,
      run_request (get_transfers true branch_id) warehouse
      = (Returned listed, warehouse) →
      run_request (get_transfers true branch_id) transferred
      = (Returned
           (listed
            ++ match asked_branch branch_id with
               | Some b => filter (λ r, DBTransfer.to_branch_id r = b) new
               | None => new
               end),
         transferred).
Proof.
  split; [by vm_compute|].
  apply (create_transfers_listed true (uuid "t") two_transfers warehouse
           "Transfers completed" transferred).
  by vm_compute.
Defined.

Lemma create_transfers_single_moves_witness :
  run_request (create_transfers true (uuid "t") [MedA_to_branch1 4]) warehouse
  = (Returned "Transfers completed", four_MedA_moved) ∧
  ∃ w,
    warehouse_quantity Medicine "med-a" warehouse = Some w ∧
    (4 ≤ w)%Z ∧
    warehouse_quantity Medicine "med-a" four_MedA_moved = Some (w - 4) ∧
    branch_quantity Medicine "MedA" "branch-1" four_MedA_moved
    = branch_quantity Medicine "MedA" "branch-1" warehouse + 4.
Proof.
  split; [by vm_compute|].
  apply (create_transfers_single_moves true (uuid "t") (MedA_to_branch1 4)
           warehouse "Transfers completed" four_MedA_moved).
  by vm_compute.
Defined.

Lemma accept_shipment_only_once_witness :
  list_find (λ s, DBShipment.id s = "s3") (shipments five_Gauze_pending)
  = Some (0%nat, s3) ∧
  DBShipment.status s3 = "pending" ∧
  ∃ response db',
    run_request (accept_shipment true (uuid "a") "s3" 100) five_Gauze_pending
    = (Returned response, db') ∧
    shipment_status "s3" db' = Some "accepted" ∧
    ∀ uuid' later,
      run_request (accept_shipment true uuid' "s3" later) db'
      = (Raised (HTTPException 409 (Message "Already processed")), db').
Proof.
  split; [reflexivity|]. split; [reflexivity|].
  exact (accept_shipment_only_once true (uuid "a") five_Gauze_pending "s3"
           100 0%nat s3 eq_refl eq_refl).
Defined.

Lemma status_override_reopens_witness :
  list_find (λ s, DBShipment.id s = "s3") (shipments five_Gauze_pending)
  = Some (0%nat, s3) ∧
  DBShipment.status s3 = "pending" ∧
  ∃ response1 db1 db2 response2 outs s2,
    run_request (accept_shipment true (uuid "a") "s3" 100) five_Gauze_pending
    = (Returned response1, db1) ∧
    run_request (update_shipment_status true "s3" (Some "pending")) db1
    = (Returned "Shipment status updated", db2) ∧
    (∀ k, stock k db2 = stock k db1) ∧
    shipment_items db2 = shipment_items five_Gauze_pending ∧
    for_each (accept_item true (uuid "a") (DBShipment.to_branch_id s3))
      (filter (λ it, DBShipmentItem.shipment_id it = "s3")
         (shipment_items five_Gauze_pending))
      (begin db2)
    = (Returned outs, s2) ∧
    run_request (accept_shipment true (uuid "a") "s3" 200) db2
    = (Returned response2,
       set_shipments (alter (DBShipment.accept 200) 0%nat (shipments db2))
         (observe s2)).
Proof.
  split; [reflexivity|]. split; [reflexivity|].
  exact (status_override_reopens true (uuid "a") five_Gauze_pending "s3"
           100 200 0%nat s3 eq_refl eq_refl).
Defined.

Lemma create_dispensing_record_takes_witness :
  run_request (create_dispensing_record true (uuid "d") two_MedC) warehouse
  = (Returned "Dispensing record created successfully", two_MedC_dispensed) ∧
  (∀ k, stock_total k two_MedC_dispensed
        = stock_total k warehouse
          - dispensed k (DispensingRequest.items two_MedC)) ∧
  (∀ k, same_but_quantity
          (λ m, Stock.branch_id m = Some (DispensingRequest.branch_id two_MedC))
          (stock k warehouse) (stock k two_MedC_dispensed)) ∧
  (nonnegative warehouse → nonnegative two_MedC_dispensed).
Proof.
  split; [by vm_compute|].
  apply (create_dispensing_record_takes true (uuid "d") two_MedC warehouse
           "Dispensing record created successfully" two_MedC_dispensed).
  by vm_compute.
Defined.

Lemma create_dispensing_record_records_witness :
  run_request (create_dispensing_record true (uuid "d") two_MedC) warehouse
  = (Returned "Dispensing record created successfully", two_MedC_dispensed) ∧
  ∃ i patient j employee new,
    list_find (λ p, Person.id p = DispensingRequest.patient_id two_MedC)
      (patients warehouse) = Some (i, patient) ∧
    list_find (λ p, Person.id p = DispensingRequest.employee_id two_MedC)
      (employees warehouse) = Some (j, employee) ∧
    dispensing_records two_MedC_dispensed
    = dispensing_records warehouse
      ++ [DBDispensingRecord.Row (uuid "d" 0)
            (DispensingRequest.patient_id two_MedC) (full_name patient)
            (DispensingRequest.employee_id two_MedC) (full_name employee)
            (DispensingRequest.branch_id two_MedC)] ∧
    Forall2 (records_line (uuid "d" 0))
      (known_lines (DispensingRequest.items two_MedC)) new ∧
    dispensing_items two_MedC_dispensed = dispensing_items warehouse ++ new.
Proof.
  split; [by vm_compute|].
  apply (create_dispensing_record_records true (uuid "d") two_MedC warehouse
           "Dispensing record created successfully" two_MedC_dispensed).
  by vm_compute.
Defined.

Lemma accept_shipment_accounts_witness :
  list_find (λ s, DBShipment.id s = "s4") (shipments Tonic_pending)
  = Some (0%nat, s4) ∧
  DBShipment.status s4 = "pending" ∧
  ∃ out db',
    run_request (accept_shipment true (uuid "a") "s4" 100) Tonic_pending
    = (Returned out, db') ∧
    ∀ k, stock_total k db'
         = stock_total k Tonic_pending
           + created k Tonic_pending
               (filter (λ it, DBShipmentItem.shipment_id it = "s4")
                  (shipment_items Tonic_pending)).
Proof.
  split; [reflexivity|]. split; [reflexivity|].
  exact (accept_shipment_accounts true (uuid "a") Tonic_pending "s4" 100
           0%nat s4 eq_refl eq_refl).
Defined.

Lemma accept_shipment_grows_witness :
  list_find (λ s, DBShipment.id s = "s4") (shipments Tonic_pending)
  = Some (0%nat, s4) ∧
  DBShipment.status s4 = "pending" ∧
  ∃ out db',
    run_request (accept_shipment true (uuid "a") "s4" 100) Tonic_pending
    = (Returned out, db') ∧
    ∀ k, grown_at (DBShipment.to_branch_id s4)
           (stock k Tonic_pending) (stock k db').
Proof.
  split; [reflexivity|]. split; [reflexivity|].
  exact (accept_shipment_grows true (uuid "a") Tonic_pending "s4" 100
           0%nat s4 eq_refl eq_refl).
Defined.

(** MedD is created under the category of the tablets, so a splint filed
    under that category is refused. *)
Lemma category_serves_one_kind_witness :
  MedicalDeviceCreate.category_id Splint_new
  = MedicineCreate.category_id MedD_new ∧
  (∃ m db',
     run_request (create_medicine true (uuid "m") two_categories MedD_new)
       warehouse
     = (Returned m, db')) ∧
  run_request
    (create_medical_device true (uuid "v") two_categories Splint_new)
    warehouse
  = (Raised
       (HTTPException 400 (Message "Invalid category for medical device")),
     warehouse).
Proof.
  split; [reflexivity|].
  assert (Hrun : ∃ m db',
            run_request
              (create_medicine true (uuid "m") two_categories MedD_new)
              warehouse
            = (Returned m, db'))
    by (eexists _, _; by vm_compute).
  split; [exact Hrun|].
  destruct Hrun as (m & db' & Hrun).
  exact (proj1 (category_serves_one_kind true (uuid "m") two_categories
                  MedD_new Splint_new eq_refl)
           warehouse m db' Hrun (uuid "v") warehouse).
Defined.

(** C7 as stated, refuted: the warehouse has a row for Gauze, and a device
    arrival of 2147483648 Gauze appends no arrival record and raises no
    quantity: the request fails with status 400 and stores nothing. *)
Lemma arrival_out_of_range_counterexample :
  warehouse_quantity MedicalDevice "dev-g" warehouse = Some 3 ∧
  run_request
    (create_device_arrivals true (uuid "v") any_database too_many_Gauze)
    warehouse
  = (Raised (HTTPException 400 (StrOf DBAPIError)), warehouse) ∧
  run_request
    (create_device_arrivals false (uuid "v") any_database too_many_Gauze)
    warehouse
  = (Raised (HTTPException 400 (StrOf DBAPIError)), warehouse).
Proof. split; [reflexivity|]. split; by vm_compute. Qed.

(** Four Gauze and two clamps arrive: both are recorded, the Gauze row is
    restocked and repriced, and no row is made for the clamp. *)
Lemma arrival_effect_witness :
  consistent any_database warehouse ∧
  run_request
    (create_device_arrivals true (uuid "r") any_database Gauze_and_Clamp)
    warehouse
  = (Returned "Device arrivals created successfully",
     mkDB [MedA; MedB; MedC_at_branch1]
       [Stock.Item "dev-g" "Gauze" (Some "cat-2") 3%Q 2%Q 7 None]
       [Person.Row "pat-1" "Ann" "Lee"] [Person.Row "emp-1" "Bob" "Ray"]
       [] [] [] [] [] [] []
       [DBArrival.Row "r-0" "dev-g" "Gauze" 4 3%Q 0%Q;
        DBArrival.Row "r-1" "dev-x" "Clamp" 2 5%Q 7%Q]) ∧
  run_request
    (create_device_arrivals true (uuid "r") any_database too_many_Gauze)
    warehouse
  = (Raised (HTTPException 400 (StrOf DBAPIError)), warehouse).
Proof.
  assert (Hwarehouse : consistent any_database warehouse)
    by (split; [constructor|exact I]).
  split; [exact Hwarehouse|]. split.
  - destruct (arrival_effect true (uuid "r") any_database Gauze_and_Clamp
                warehouse Hwarehouse) as (_ & -> & _).
    by vm_compute.
  - apply (arrival_effect true (uuid "r") any_database too_many_Gauze
             warehouse Hwarehouse).
    constructor. unfold int4. simpl. lia.
Defined.

(** The acceptance of the shipment of Tonic, which has no warehouse row:
    branch 2 gets a new row for it, made from the item alone, and that is
    what the acceptance stores. *)
Lemma accept_item_without_warehouse_row_witness :
  list_find (λ s, DBShipment.id s = "s4") (shipments Tonic_pending)
  = Some (0%nat, s4) ∧
  DBShipment.status s4 = "pending" ∧
  filter (λ it, DBShipmentItem.shipment_id it = "s4")
    (shipment_items Tonic_pending)
  = [] ++ Tonic_item :: [] ∧
  unstocked Medicine Tonic_pending "med-gone" ∧
  ∃ response db',
    run_request (accept_shipment false (uuid "a4") "s4" 100) Tonic_pending
    = (Returned response, db') ∧
    Accepted.items response
    = [Accepted.Entry "medicine" "med-gone" "Tonic" 7] ∧
    medicines db'
    = [MedA; MedB; MedC_at_branch1;
       Stock.Item "a4-0" "Tonic" None 0%Q 0%Q 7 (Some "branch-2")] ∧
    medical_devices db' = [Gauze].
Proof.
  assert (Hun : unstocked Medicine Tonic_pending "med-gone").
  { unfold unstocked. repeat constructor; by intros [? ?]. }
  split; [reflexivity|]. split; [reflexivity|]. split; [reflexivity|].
  split; [exact Hun|].
  destruct (accept_item_without_warehouse_row false (uuid "a4") Tonic_pending
              "s4" 100 0%nat s4 [] Tonic_item [] eq_refl eq_refl eq_refl Hun)
    as (outs1 & s1 & s2 & outs3 & s3 & Hpre & Hstep & Hpost & Hrun & _
        & Hnew & _).
  injection Hpre as <- <-. injection Hpost as <- <-.
  specialize (Hnew eq_refl).
  eexists _, _. split; [exact Hrun|]. split; [reflexivity|].
  rewrite Hnew. by split.
Defined.

(** Four Gauze and two clamps arrive: the total of the devices grows by
    the four Gauze. *)
Lemma arrivals_restock_known_items_witness :
  consistent any_database warehouse ∧
  ∃ db',
    run_request
      (create_device_arrivals true (uuid "r") any_database Gauze_and_Clamp)
      warehouse
    = (Returned "Device arrivals created successfully", db') ∧
    restocks (medical_devices warehouse) (medical_devices db') ∧
    medicines db' = medicines warehouse ∧
    stock_total MedicalDevice db' = stock_total MedicalDevice warehouse + 4.
Proof.
  assert (Hwarehouse : consistent any_database warehouse)
    by (split; [constructor|exact I]).
  split; [exact Hwarehouse|].
  destruct (arrivals_restock_known_items true (uuid "r") any_database
              Gauze_and_Clamp warehouse Hwarehouse)
    as (_ & _ & Hall & Hcommit).
  destruct Hcommit as [db' Hrun].
  { repeat constructor; unfold int4; simpl; lia. }
  exists db'. split; [exact Hrun|].
  destruct (Hall _ _ Hrun) as (Hrows & Hmed & Htotal).
  split; [exact Hrows|]. split; [exact Hmed|]. exact Htotal.
Defined.

End FurtherRuns.
